(** * dokkument: the .dokk parser, the directory scanner and the link manager

    A shallow embedding of [src/dokkument/parser.py],
    [build/lib/dokkument/link_manager.py], and of the URL opening of
    [build/lib/dokkument/browser_opener.py] and the key paths of
    [build/lib/dokkument/config_manager.py].  Python values are modelled as
    follows:
    - [str] is a list of Unicode code points ([N]);
    - [int] is [Z];
    - an exception is a value of [exn] carrying its message, and a function
      that may raise returns a [result];
    - a [dict] is an insertion-ordered association list with unique keys;
    - [pathlib.Path] is the string of the path;
    - the file system, standard output and the Unicode tables of the
      interpreter are parameters of the functions that consult them. *)

From Stdlib Require Import ZArith NArith List Bool Lia String Ascii DecimalString.
From Stdlib Require QArith.
Import ListNotations.

(** ** Python strings *)

Module Py.

Local Open Scope N_scope.

Definition char := N.
Definition str := list char.

(** An ASCII literal as a Python string. *)
Definition lit (s : string) : str :=
  List.map N_of_ascii (list_ascii_of_string s).

(** Code points the source and the library mention by name. *)
Definition QUOTE : char := 34.   (* double quote *)
Definition HASH : char := 35.
Definition MINUS : char := 45.
Definition DOT : char := 46.
Definition SLASH : char := 47.
Definition COLON : char := 58.
Definition GT : char := 62.
Definition ESC : char := 27.
Definition TAB : char := 9.
Definition LF : char := 10.
Definition CR : char := 13.

Fixpoint eqb (s t : str) : bool :=
  match s, t with
  | [], [] => true
  | c :: s', d :: t' => (c =? d) && eqb s' t'
  | _, _ => false
  end.

Definition is_empty (s : str) : bool :=
  match s with [] => true | _ :: _ => false end.

Fixpoint dropwhile (p : char -> bool) (s : str) : str :=
  match s with
  | [] => []
  | c :: s' => if p c then dropwhile p s' else s
  end.

Fixpoint takewhile (p : char -> bool) (s : str) : str :=
  match s with
  | [] => []
  | c :: s' => if p c then c :: takewhile p s' else []
  end.

(** [str.isspace] on one code point (Py_UNICODE_ISSPACE); the same set is
    the one [str.strip()] removes and the one [\s] matches. *)
Definition isspace (c : char) : bool :=
  ((9 <=? c) && (c <=? 13)) || ((28 <=? c) && (c <=? 32))
  || (c =? 133) || (c =? 160) || (c =? 5760)
  || ((8192 <=? c) && (c <=? 8202))
  || (c =? 8232) || (c =? 8233) || (c =? 8239) || (c =? 8287)
  || (c =? 12288).

Definition lstrip (s : str) : str := dropwhile isspace s.
Definition rstrip (s : str) : str := rev (dropwhile isspace (rev s)).
Definition strip (s : str) : str := rstrip (lstrip s).

Fixpoint startswith (s prefix : str) {struct prefix} : bool :=
  match prefix, s with
  | [], _ => true
  | p :: prefix', c :: s' => (c =? p) && startswith s' prefix'
  | _ :: _, [] => false
  end.

(** [needle in s] on strings. *)
Fixpoint contains (s needle : str) : bool :=
  startswith s needle
  || match s with
     | [] => false
     | _ :: s' => contains s' needle
     end.

(** [c in s] for one code point. *)
Definition has_char (s : str) (c : char) : bool := existsb (N.eqb c) s.

(** [x in xs] for a list of strings. *)
Definition str_in (x : str) (xs : list str) : bool := existsb (eqb x) xs.

(** The line boundaries of [str.splitlines]. *)
Definition is_linebreak (c : char) : bool :=
  ((10 <=? c) && (c <=? 13)) || ((28 <=? c) && (c <=? 30))
  || (c =? 133) || (c =? 8232) || (c =? 8233).

(** [str.splitlines()]: a CR LF pair is one boundary, and a final boundary
    does not open an empty last line.  [cur] is the current line, reversed. *)
Fixpoint splitlines_from (cur : str) (s : str) : list str :=
  match s with
  | [] => match cur with [] => [] | _ :: _ => [rev cur] end
  | c :: s' =>
      if c =? 13 then
        match s' with
        | d :: s'' =>
            if d =? 10 then rev cur :: splitlines_from [] s''
            else rev cur :: splitlines_from [] s'
        | [] => rev cur :: splitlines_from [] s'
        end
      else if is_linebreak c then rev cur :: splitlines_from [] s'
      else splitlines_from (c :: cur) s'
  end.

Definition splitlines (s : str) : list str := splitlines_from [] s.

(** [str(n)] for an [int]. *)
Definition of_int (n : Z) : str := lit (NilZero.string_of_int (Z.to_int n)).

(** [len]. *)
Definition len {A} (l : list A) : Z := Z.of_nat (List.length l).

(** ASCII lower-casing of one code point; [str.lower] agrees with it on
    ASCII text. *)
Definition ascii_lower_char (c : char) : char :=
  if (65 <=? c) && (c <=? 90) then c + 32 else c.

Definition isascii (s : str) : bool := forallb (fun c => c <? 128) s.

(** [s.find(c)] and [s.rfind(c)] for one code point: the first and the last
    index of [c], or -1. *)
Fixpoint find_from (s : str) (c : char) (pos : Z) : Z :=
  match s with
  | [] => (-1)%Z
  | d :: s' => if d =? c then pos else find_from s' c (pos + 1)%Z
  end.

Definition find (s : str) (c : char) : Z := find_from s c 0%Z.

Fixpoint rfind_from (s : str) (c : char) (pos last : Z) : Z :=
  match s with
  | [] => last
  | d :: s' => rfind_from s' c (pos + 1)%Z (if d =? c then pos else last)
  end.

Definition rfind (s : str) (c : char) : Z := rfind_from s c 0%Z (-1)%Z.

(** The slices [s[:i]] and [s[i:]] for [0 <= i]. *)
Definition slice_to (s : str) (i : Z) : str := firstn (Z.to_nat i) s.
Definition slice_from (s : str) (i : Z) : str := skipn (Z.to_nat i) s.

(** [s.replace(c, '')] for one code point. *)
Definition remove_char (c : char) (s : str) : str :=
  filter (fun d => negb (d =? c)) s.

End Py.

Import Py.

(** ** Exceptions and results *)

Inductive exn : Type :=
| FileNotFoundError (msg : str)
| NotADirectoryError (msg : str)
| ParseError (msg : str)
| ValueError (msg : str)
| UnicodeEncodeError (msg : str)
| IndexError (msg : str)
| RuntimeError (msg : str)
| OSError (msg : str).

(** [str(e)]. *)
Definition exn_str (e : exn) : str :=
  match e with
  | FileNotFoundError m | NotADirectoryError m | ParseError m
  | ValueError m | UnicodeEncodeError m | IndexError m | RuntimeError m
  | OSError m => m
  end.

Definition is_ParseError (e : exn) : bool :=
  match e with ParseError _ => true | _ => false end.

Inductive result (A : Type) : Type :=
| Ok (a : A)
| Raise (e : exn).
Arguments Ok {A} a.
Arguments Raise {A} e.

Definition bind {A B} (c : result A) (k : A -> result B) : result B :=
  match c with
  | Ok a => k a
  | Raise e => Raise e
  end.

Notation "x <- c ;; k" := (bind c (fun x => k))
  (at level 61, c at next level, right associativity).

Definition raised {A} (c : result A) : bool :=
  match c with Ok _ => false | Raise _ => true end.

(** [l[i]] on a list, with Python's negative indices and [IndexError]. *)
Definition getitem {A} (l : list A) (i : Z) : result A :=
  let j := (if i <? 0 then i + len l else i)%Z in
  if (j <? 0)%Z then Raise (IndexError (lit "list index out of range"))
  else match nth_error l (Z.to_nat j) with
       | Some x => Ok x
       | None => Raise (IndexError (lit "list index out of range"))
       end.

(** ** Paths and dictionaries keyed by paths *)

Definition Path := str.

Module PurePath.

(** [Path.name]: the last component. *)
Definition name (p : Path) : str :=
  rev (takewhile (fun c => negb (c =? SLASH)%N) (rev p)).

(** [Path.suffix]: the last dot of the name and what follows it, unless
    that dot opens or closes the name. *)
Definition suffix (p : Path) : str :=
  let name := name p in
  let i := rfind name DOT in
  if ((0 <? i) && (i <? len name - 1))%Z then slice_from name i else [].

End PurePath.

(** An insertion-ordered dictionary: assigning to a key that is present
    replaces its value in place, assigning to a new key appends it. *)
Module Dict.

Definition t (V : Type) := list (Path * V).

Fixpoint set {V} (d : t V) (k : Path) (v : V) : t V :=
  match d with
  | [] => [(k, v)]
  | (k', v') :: d' =>
      if Py.eqb k' k then (k', v) :: d' else (k', v') :: set d' k v
  end.

Fixpoint get {V} (d : t V) (k : Path) : option V :=
  match d with
  | [] => None
  | (k', v') :: d' => if Py.eqb k' k then Some v' else get d' k
  end.

Definition keys {V} (d : t V) : list Path := List.map fst d.
Definition values {V} (d : t V) : list V := List.map snd d.
Definition items {V} (d : t V) : list (Path * V) := d.

End Dict.

(** ** The interpreter and the file system *)

(** What the standard library decides from tables this development does not
    carry: [str.lower], and the checks [urllib.parse.urlsplit] runs on a
    network location (IPv6 brackets, NFKC normalisation), as the message of
    the [ValueError] it raises, if any. *)
Class PyLib : Type := {
  lower : str -> str;
  netloc_error : str -> option str;
  lower_ascii : forall s, isascii s = true -> lower s = List.map ascii_lower_char s
}.

Inductive node : Type := Directory | RegularFile | Special.

(** What [os.stat] does on a path: it finds something, or fails with one of
    the errors [Path.exists], [Path.is_dir] and [Path.is_file] take for an
    absent path (ENOENT, ENOTDIR, EBADF, ELOOP), or fails with another
    [OSError], such as a name that is too long or a directory that may not
    be searched, which they raise again. *)
Inductive stat_outcome : Type :=
| Found (n : node)
| Absent
| StatError (msg : str).

Inductive encoding : Type := utf_8 | latin_1.

(** What [open(path, "r", encoding=...)] followed by [read()] gives. *)
Inductive read_outcome : Type :=
| Decoded (content : str)
| UnicodeDecodeError (msg : str)
| ReadFailure (msg : str).

(** One snapshot of the system under the program: what is at a path, what
    reading a file gives, the paths [Path.glob] yields in its order, the
    current directory, and what [print] raises on a line, if anything: a
    UnicodeEncodeError when the encoding of standard output has no code for
    one of its characters, an OSError when the stream is closed. *)
Record FileSystem : Type := {
  stat : Path -> stat_outcome;
  read_text : Path -> encoding -> read_outcome;
  glob : Path -> str -> list Path;
  cwd : Path;
  stdout_error : str -> option exn
}.

(** [Path.exists], [Path.is_dir] and [Path.is_file]. *)
Definition exists_ (fs : FileSystem) (p : Path) : result bool :=
  match stat fs p with
  | Found _ => Ok true
  | Absent => Ok false
  | StatError msg => Raise (OSError msg)
  end.

Definition is_dir (fs : FileSystem) (p : Path) : result bool :=
  match stat fs p with
  | Found Directory => Ok true
  | Found _ | Absent => Ok false
  | StatError msg => Raise (OSError msg)
  end.

Definition is_file (fs : FileSystem) (p : Path) : result bool :=
  match stat fs p with
  | Found RegularFile => Ok true
  | Found _ | Absent => Ok false
  | StatError msg => Raise (OSError msg)
  end.

(** What the program prints, one element per [print] call that returned. *)
Definition stdout := list str.

(** ** parser.py: DokkEntry *)

Module DokkEntry.

Record t : Type := make {
  description : str;
  url : str;
  file_path : Path
}.

Definition _validate (self : t) : result unit :=
  if is_empty (description self) then
    Raise (ParseError (lit "Descrizione vuota in " ++ file_path self))
  else if is_empty (url self) then
    Raise (ParseError (lit "URL vuoto per '" ++ description self
                       ++ lit "' in " ++ file_path self))
  else if negb (startswith (url self) (lit "http://")
                || startswith (url self) (lit "https://")) then
    Raise (ParseError (lit "URL non valido '" ++ url self ++ lit "' per '"
                       ++ description self ++ lit "' in " ++ file_path self))
  else Ok tt.

Definition __init__ (description url : str) (file_path : Path) : result t :=
  let self := make (strip description) (strip url) file_path in
  _ <- _validate self ;;
  Ok self.

Definition __str__ (self : t) : str :=
  description self ++ lit " -> " ++ url self.

Definition __repr__ (self : t) : str :=
  lit "DokkEntry(description='" ++ description self ++ lit "', url='"
  ++ url self ++ lit "', file_path='" ++ file_path self ++ lit "')".

End DokkEntry.

Abbreviation DokkEntry := DokkEntry.t.

(** ** parser.py: BaseParser and StandardDokkParser *)

(** The parser interface: the two abstract methods. *)
Record BaseParser : Type := {
  can_handle : Path -> bool;
  parse : FileSystem -> Path -> result (list DokkEntry)
}.

Module StandardDokkParser.

Definition not_quote (c : char) : bool := negb (c =? QUOTE)%N.

(** A quote, one or more characters other than a quote, and a quote, at
    the head of [s]: the group and what follows the closing quote.  The
    group is greedy and the closing quote is not in its class, so it runs
    to the next quote. *)
Definition quoted (s : str) : option (str * str) :=
  match s with
  | c :: s' =>
      if (c =? QUOTE)%N then
        let group := takewhile not_quote s' in
        match group, dropwhile not_quote s' with
        | _ :: _, _ :: rest => Some (group, rest)
        | _, _ => None
        end
      else None
  | [] => None
  end.

(** The match object of [PATTERN.match(line)], if any: the two groups and
    the text after the end of the match.  [match] anchors the pattern at
    the start of [line] only.  A run of spaces is greedy and is followed by
    a character that is not a space, so it takes all the spaces. *)
Definition PATTERN_scan (line : str) : option (str * str * str) :=
  match quoted line with
  | Some (description, after) =>
      match dropwhile isspace after with
      | a :: b :: after_arrow =>
          if ((a =? MINUS) && (b =? GT))%N then
            match quoted (dropwhile isspace after_arrow) with
            | Some (url, rest) => Some (description, url, rest)
            | None => None
            end
          else None
      | _ => None
      end
  | None => None
  end.

(** [PATTERN.match(line)] and, on a match, its [groups()]. *)
Definition PATTERN_match (line : str) : option (str * str) :=
  match PATTERN_scan line with
  | Some (description, url, _) => Some (description, url)
  | None => None
  end.

Definition can_handle `{PyLib} (file_path : Path) : bool :=
  Py.eqb (lower (PurePath.suffix file_path)) (lit ".dokk").

(** The loop of [parse] over [content.splitlines()]; [line_number] and
    [entries] are the loop's variables. *)
Fixpoint parse_lines (file_path : Path) (lines : list str)
    (line_number : Z) (entries : list DokkEntry) : result (list DokkEntry) :=
  match lines with
  | [] => Ok entries
  | line :: lines' =>
      let line_number := (line_number + 1)%Z in
      let line := strip line in
      if is_empty line || startswith line (lit "#") then
        parse_lines file_path lines' line_number entries
      else
        match PATTERN_match line with
        | Some (description, url) =>
            match DokkEntry.__init__ description url file_path with
            | Ok entry =>
                parse_lines file_path lines' line_number (entries ++ [entry])
            | Raise (ParseError e) =>
                Raise (ParseError (lit "Errore alla riga " ++ of_int line_number
                                   ++ lit " di " ++ file_path ++ lit ": " ++ e))
            | Raise other => Raise other
            end
        | None =>
            Raise (ParseError (lit "Formato non valido alla riga "
                               ++ of_int line_number ++ lit " di " ++ file_path
                               ++ lit ": " ++ line))
        end
  end.

(** The two nested [try] blocks that read the file. *)
Definition read_content (fs : FileSystem) (file_path : Path) : result str :=
  match read_text fs file_path utf_8 with
  | Decoded content => Ok content
  | UnicodeDecodeError _ =>
      match read_text fs file_path latin_1 with
      | Decoded content => Ok content
      | UnicodeDecodeError e | ReadFailure e =>
          Raise (ParseError (lit "Impossibile leggere il file " ++ file_path
                             ++ lit ": " ++ e))
      end
  | ReadFailure e =>
      Raise (ParseError (lit "Errore nella lettura del file " ++ file_path
                         ++ lit ": " ++ e))
  end.

Definition parse (fs : FileSystem) (file_path : Path) : result (list DokkEntry) :=
  found <- exists_ fs file_path ;;
  if negb found then
    Raise (FileNotFoundError (lit "File non trovato: " ++ file_path))
  else
    regular <- is_file fs file_path ;;
    if negb regular then
      Raise (ParseError (lit "Il path specificato non e un file: " ++ file_path))
    else
      content <- read_content fs file_path ;;
      parse_lines file_path (splitlines content) 0 [].

Definition __init__ `{PyLib} : BaseParser :=
  Build_BaseParser can_handle parse.

End StandardDokkParser.

(** ** parser.py: DokkParserFactory *)

Module DokkParserFactory.

Record t : Type := { _parsers : list BaseParser }.

Definition __init__ `{PyLib} : t :=
  {| _parsers := [StandardDokkParser.__init__] |}.

Definition register_parser (self : t) (parser : BaseParser) : t :=
  {| _parsers := parser :: _parsers self |}.

Definition create_parser (self : t) (file_path : Path) : option BaseParser :=
  List.find (fun parser => can_handle parser file_path) (_parsers self).

Definition parse_file (self : t) (fs : FileSystem) (file_path : Path)
    : result (list DokkEntry) :=
  match create_parser self file_path with
  | None =>
      Raise (ParseError (lit "Nessun parser disponibile per il file: "
                         ++ file_path))
  | Some parser => parse parser fs file_path
  end.

End DokkParserFactory.

(** ** parser.py: DokkFileScanner *)

Module DokkFileScanner.

Record t : Type := { parser_factory : DokkParserFactory.t }.

Definition __init__ `{PyLib} (parser_factory : option DokkParserFactory.t) : t :=
  {| parser_factory :=
       match parser_factory with
       | Some f => f
       | None => DokkParserFactory.__init__
       end |}.

(** The loop of [scan_directory] over the paths [glob] yields: [results] is
    the dictionary under construction, [out] what has been printed.  The
    [print] of the handler is under no [try]: what it raises ends the loop
    and leaves [scan_directory]. *)
Fixpoint scan_loop (self : t) (fs : FileSystem) (files : list Path)
    (results : Dict.t (list DokkEntry)) (out : stdout)
    : result (Dict.t (list DokkEntry)) * stdout :=
  match files with
  | [] => (Ok results, out)
  | file_path :: files' =>
      match DokkParserFactory.parse_file (parser_factory self) fs file_path with
      | Ok entries =>
          match entries with
          | _ :: _ => scan_loop self fs files' (Dict.set results file_path entries) out
          | [] => scan_loop self fs files' results out
          end
      | Raise e =>
          let line := lit "Attenzione: Errore nel parsing di " ++ file_path
                      ++ lit ": " ++ exn_str e in
          match stdout_error fs line with
          | Some raised => (Raise raised, out)
          | None => scan_loop self fs files' results (out ++ [line])
          end
      end
  end.

Definition scan_directory (self : t) (fs : FileSystem) (root_path : Path)
    (recursive : bool) : result (Dict.t (list DokkEntry)) * stdout :=
  match exists_ fs root_path with
  | Raise e => (Raise e, [])
  | Ok false =>
      (Raise (FileNotFoundError (lit "Directory non trovata: " ++ root_path)), [])
  | Ok true =>
      match is_dir fs root_path with
      | Raise e => (Raise e, [])
      | Ok false =>
          (Raise (NotADirectoryError
                    (lit "Il path specificato non e una directory: "
                     ++ root_path)), [])
      | Ok true =>
          let pattern := if recursive then lit "**/*.dokk" else lit "*.dokk" in
          scan_loop self fs (glob fs root_path pattern) [] []
      end
  end.

(** [get_all_entries]: the values of the scan, concatenated. *)
Definition get_all_entries (self : t) (fs : FileSystem) (root_path : Path)
    (recursive : bool) : result (list DokkEntry) * stdout :=
  match scan_directory self fs root_path recursive with
  | (Ok file_entries, out) => (Ok (List.concat (Dict.values file_entries)), out)
  | (Raise e, out) => (Raise e, out)
  end.

End DokkFileScanner.

(** ** The standard library's urllib.parse.urlparse

    [urlparse] as CPython 3.12 defines it, for the two fields the source
    reads, [scheme] and [netloc].  The path, query and fragment are split
    off after the network location and do not change either field. *)

Module urllib.

Record ParseResult : Type := { scheme : str; netloc : str }.

Definition scheme_chars : str :=
  lit "abcdefghijklmnopqrstuvwxyzABCDEFGHIJKLMNOPQRSTUVWXYZ0123456789+-.".

(** Membership in [_WHATWG_C0_CONTROL_OR_SPACE]. *)
Definition is_c0_control_or_space (c : char) : bool := (c <=? 32)%N.

(** [c.isascii() and c.isalpha()]. *)
Definition is_ascii_alpha (c : char) : bool :=
  (((65 <=? c) && (c <=? 90)) || ((97 <=? c) && (c <=? 122)))%N.

(** [url.find(c, start)]. *)
Definition find_at (url : str) (c : char) (start : Z) : Z :=
  find_from (slice_from url start) c start.

Definition _splitnetloc (url : str) (start : Z) : str * str :=
  let delim :=
    fold_left
      (fun delim c =>
         let wdelim := find_at url c start in
         if (0 <=? wdelim)%Z then Z.min delim wdelim else delim)
      (lit "/?#") (len url) in
  (slice_from (slice_to url delim) start, slice_from url delim).

Definition urlsplit `{PyLib} (url : str) : result ParseResult :=
  let url := dropwhile is_c0_control_or_space url in
  let url := remove_char LF (remove_char CR (remove_char TAB url)) in
  let i := find url COLON in
  let '(scheme, url) :=
    match url with
    | c :: _ =>
        if (0 <? i)%Z && is_ascii_alpha c
           && forallb (has_char scheme_chars) (slice_to url i)
        then (lower (slice_to url i), slice_from url (i + 1))
        else ([], url)
    | [] => ([], url)
    end in
  if Py.eqb (slice_to url 2) (lit "//") then
    let '(netloc, _) := _splitnetloc url 2 in
    match (if is_empty netloc then None else netloc_error netloc) with
    | Some msg => Raise (ValueError msg)
    | None => Ok {| scheme := scheme; netloc := netloc |}
    end
  else Ok {| scheme := scheme; netloc := [] |}.

Definition urlparse `{PyLib} (url : str) : result ParseResult := urlsplit url.

End urllib.

(** ** link_manager.py: LinkManager *)

(** The value [json.dumps] serialises. *)
#[local] Unset Elimination Schemes.
Inductive json : Type :=
| JNull
| JInt (n : Z)
| JStr (s : str)
| JList (l : list json)
| JDict (items : list (str * json)).
#[local] Set Elimination Schemes.

(** A [set] of strings, in insertion order. *)
Module PySet.

Definition add (s : list str) (x : str) : list str :=
  if str_in x s then s else s ++ [x].

End PySet.

(** Text formatting the exports use. *)
Module PyText.

(** [sep.join(parts)]. *)
Fixpoint join (sep : str) (parts : list str) : str :=
  match parts with
  | [] => []
  | part :: rest =>
      match rest with
      | [] => part
      | _ :: _ => part ++ sep ++ join sep rest
      end
  end.

(** [c * n] for a one-character string. *)
Definition times (c : char) (n : nat) : str := List.repeat c n.

(** The format [{i:2d}]: the decimal digits of [i], padded with spaces on
    the left to two characters. *)
Definition format_2d (i : Z) : str :=
  let digits := of_int i in
  List.repeat 32%N (2 - List.length digits) ++ digits.

End PyText.

Module LinkManager.

Record t : Type := {
  scanner : DokkFileScanner.t;
  _entries : list DokkEntry;
  _entries_by_file : Dict.t (list DokkEntry);
  _last_scan_path : option Path;
  _file_colors : Dict.t str
}.

Definition COLORS : list str :=
  [ ESC :: lit "[91m"; ESC :: lit "[92m"; ESC :: lit "[93m"; ESC :: lit "[94m";
    ESC :: lit "[95m"; ESC :: lit "[96m"; ESC :: lit "[97m" ].

Definition RESET_COLOR : str := ESC :: lit "[0m".

Definition __init__ `{PyLib} (parser_factory : option DokkParserFactory.t) : t :=
  {| scanner := DokkFileScanner.__init__ parser_factory;
     _entries := [];
     _entries_by_file := [];
     _last_scan_path := None;
     _file_colors := [] |}.

(** The first loop of [scan_for_links]: one colour per key. *)
Fixpoint assign_colors (keys : list Path) (color_index : Z)
    (file_colors : Dict.t str) : result unit * Dict.t str :=
  match keys with
  | [] => (Ok tt, file_colors)
  | file_path :: keys' =>
      match getitem COLORS (color_index mod len COLORS) with
      | Ok color =>
          assign_colors keys' (color_index + 1)
            (Dict.set file_colors file_path color)
      | Raise e => (Raise e, file_colors)
      end
  end.

(** The second loop of [scan_for_links]. *)
Fixpoint add_entries (items : list (Path * list DokkEntry))
    (entries_by_file : Dict.t (list DokkEntry)) (entries : list DokkEntry)
    : Dict.t (list DokkEntry) * list DokkEntry :=
  match items with
  | [] => (entries_by_file, entries)
  | (file_path, file_entries) :: items' =>
      add_entries items' (Dict.set entries_by_file file_path file_entries)
        (entries ++ file_entries)
  end.

Definition wrap (e : exn) : exn :=
  RuntimeError (lit "Errore durante la scansione: " ++ exn_str e).

(** [scan_for_links]: what it returns or raises, what it prints, and the
    manager after the call. *)
Definition scan_for_links (self : t) (fs : FileSystem)
    (root_path : option Path) (recursive : bool) : result Z * stdout * t :=
  let root_path := match root_path with None => cwd fs | Some p => p end in
  let cleared :=
    {| scanner := scanner self;
       _entries := [];
       _entries_by_file := [];
       _last_scan_path := Some root_path;
       _file_colors := [] |} in
  match DokkFileScanner.scan_directory (scanner self) fs root_path recursive with
  | (Raise e, out) => (Raise (wrap e), out, cleared)
  | (Ok file_entries, out) =>
      match assign_colors (Dict.keys file_entries) 0 [] with
      | (Raise e, file_colors) =>
          (Raise (wrap e), out,
           {| scanner := scanner self;
              _entries := [];
              _entries_by_file := [];
              _last_scan_path := Some root_path;
              _file_colors := file_colors |})
      | (Ok _, file_colors) =>
          let (entries_by_file, entries) :=
            add_entries (Dict.items file_entries) [] [] in
          (Ok (len entries), out,
           {| scanner := scanner self;
              _entries := entries;
              _entries_by_file := entries_by_file;
              _last_scan_path := Some root_path;
              _file_colors := file_colors |})
      end
  end.

Definition get_all_entries (self : t) : list DokkEntry := _entries self.

Definition get_entries_by_file (self : t) : Dict.t (list DokkEntry) :=
  _entries_by_file self.

Definition get_entry_by_index (self : t) (index : Z) : result (option DokkEntry) :=
  if ((1 <=? index) && (index <=? len (_entries self)))%Z then
    entry <- getitem (_entries self) (index - 1) ;;
    Ok (Some entry)
  else Ok None.

Definition get_file_color (self : t) (file_path : Path) : str :=
  match Dict.get (_file_colors self) file_path with
  | Some color => color
  | None => []
  end.

Definition filter_entries `{PyLib} (self : t) (search_term : str) : list DokkEntry :=
  let search_lower := lower search_term in
  filter
    (fun entry => contains (lower (DokkEntry.description entry)) search_lower)
    (_entries self).

Record Statistics : Type := {
  total_links : Z;
  total_files : Z;
  unique_domains : Z
}.

(** The loop of [get_statistics] that collects the domains. *)
Definition collect_domains `{PyLib} (entries : list DokkEntry) : list str :=
  fold_left
    (fun domains entry =>
       match urllib.urlparse (DokkEntry.url entry) with
       | Ok parsed =>
           if negb (is_empty (urllib.netloc parsed))
           then PySet.add domains (lower (urllib.netloc parsed))
           else domains
       | Raise _ => domains
       end)
    entries [].

Definition get_statistics `{PyLib} (self : t) : Statistics :=
  match _entries self with
  | [] => {| total_links := 0; total_files := 0; unique_domains := 0 |}
  | _ :: _ =>
      let domains := collect_domains (_entries self) in
      {| total_links := len (_entries self);
         total_files := len (_entries_by_file self);
         unique_domains := len domains |}
  end.

(** What [validate_all_links] appends for one entry, if anything. *)
Definition validate_link `{PyLib} (entry : DokkEntry) : option (DokkEntry * str) :=
  match urllib.urlparse (DokkEntry.url entry) with
  | Ok parsed =>
      if is_empty (urllib.scheme parsed)
         || negb (str_in (urllib.scheme parsed) [lit "http"; lit "https"])
      then Some (entry, lit "Schema URL non valido")
      else if is_empty (urllib.netloc parsed)
      then Some (entry, lit "Dominio mancante nell'URL")
      else None
  | Raise e => Some (entry, lit "Errore nel parsing dell'URL: " ++ exn_str e)
  end.

Definition validate_all_links `{PyLib} (self : t) : list (DokkEntry * str) :=
  fold_left
    (fun invalid_links entry =>
       match validate_link entry with
       | Some item => invalid_links ++ [item]
       | None => invalid_links
       end)
    (_entries self) [].

(** The [data] object [_export_to_json] hands to [json.dumps]. *)
Definition _export_to_json (self : t) : json :=
  JDict
    [ (lit "scan_info",
       JDict
         [ (lit "scan_path",
            match _last_scan_path self with
            | Some p => JStr p
            | None => JNull
            end);
           (lit "total_entries", JInt (len (_entries self)));
           (lit "total_files", JInt (len (_entries_by_file self))) ]);
      (lit "files",
       JList
         (List.map
            (fun '(file_path, entries) =>
               JDict
                 [ (lit "file_path", JStr file_path);
                   (lit "entries",
                    JList
                      (List.map
                         (fun entry =>
                            JDict
                              [ (lit "description", JStr (DokkEntry.description entry));
                                (lit "url", JStr (DokkEntry.url entry)) ])
                         entries)) ])
            (Dict.items (_entries_by_file self)))) ].

Definition get_colored_description (self : t) (entry : DokkEntry) : str :=
  let color := get_file_color self (DokkEntry.file_path entry) in
  color ++ DokkEntry.description entry ++ RESET_COLOR.

(** The OSC 8 hyperlink around the url: ESC ] 8 ; ; url ESC backslash, the
    url again, ESC ] 8 ; ; ESC backslash. *)
Definition get_colored_url (self : t) (entry : DokkEntry) (make_clickable : bool)
    : str :=
  let color := get_file_color self (DokkEntry.file_path entry) in
  if make_clickable then
    let clickable_url :=
      ESC :: lit "]8;;" ++ DokkEntry.url entry ++ [ESC; 92%N]
      ++ DokkEntry.url entry ++ ESC :: lit "]8;;" ++ [ESC; 92%N] in
    color ++ clickable_url ++ RESET_COLOR
  else color ++ DokkEntry.url entry ++ RESET_COLOR.

(** The inner loop of [_export_to_text], [enumerate(entries, 1)]: [i] is
    the number of the next entry. *)
Fixpoint text_entry_lines (entries : list DokkEntry) (i : Z) (lines : list str)
    : list str :=
  match entries with
  | [] => lines
  | entry :: rest =>
      text_entry_lines rest (i + 1)
        (lines ++ [PyText.format_2d i ++ lit ". " ++ DokkEntry.description entry;
                   lit "    " ++ DokkEntry.url entry])
  end.

(** The list [lines] of [_export_to_text] when it is joined. *)
Definition text_lines (self : t) : list str :=
  fold_left
    (fun lines '(file_path, entries) =>
       text_entry_lines entries 1
         (lines ++ [lit "File: " ++ file_path; PyText.times 45%N 40])
       ++ [[]])
    (Dict.items (_entries_by_file self))
    [lit "Documentazione Links" ++ [LF]; PyText.times 61%N 50; []].

Definition _export_to_text (self : t) : str := PyText.join [LF] (text_lines self).

Definition markdown_lines (self : t) : list str :=
  fold_left
    (fun lines '(file_path, entries) =>
       fold_left
         (fun lines entry =>
            lines ++ [lit "- [" ++ DokkEntry.description entry ++ lit "]("
                      ++ DokkEntry.url entry ++ lit ")"])
         entries
         (lines ++ [lit "## " ++ PurePath.name file_path; []])
       ++ [[]])
    (Dict.items (_entries_by_file self))
    [lit "# Documentazione Links"; []].

Definition _export_to_markdown (self : t) : str :=
  PyText.join [LF] (markdown_lines self).

Definition html_lines (self : t) : list str :=
  fold_left
    (fun html '(file_path, entries) =>
       fold_left
         (fun html entry =>
            html ++ [lit "<li><a href=" ++ [QUOTE] ++ DokkEntry.url entry
                     ++ [QUOTE] ++ lit ">" ++ DokkEntry.description entry
                     ++ lit "</a></li>"])
         entries
         (html ++ [lit "<h2>" ++ PurePath.name file_path ++ lit "</h2>";
                   lit "<ul>"])
       ++ [lit "</ul>"])
    (Dict.items (_entries_by_file self))
    [lit "<!DOCTYPE html>"; lit "<html>"; lit "<head>";
     lit "<title>Documentazione Links</title>"; lit "</head>"; lit "<body>";
     lit "<h1>Documentazione Links</h1>"]
  ++ [lit "</body>"; lit "</html>"].

Definition _export_to_html (self : t) : str := PyText.join [LF] (html_lines self).

(** [export_to_format]; [dumps] is [json.dumps] with the arguments
    [_export_to_json] gives it, the standard library's serialiser. *)
Definition export_to_format (dumps : json -> str) (self : t) (format_type : str)
    : result str :=
  if Py.eqb format_type (lit "text") then Ok (_export_to_text self)
  else if Py.eqb format_type (lit "markdown") then Ok (_export_to_markdown self)
  else if Py.eqb format_type (lit "html") then Ok (_export_to_html self)
  else if Py.eqb format_type (lit "json") then Ok (dumps (_export_to_json self))
  else Raise (ValueError (lit "Formato non supportato: " ++ format_type)).

End LinkManager.

(** ** browser_opener.py: BrowserOpener

    The desktop is a parameter: what [webbrowser.open],
    [webbrowser.get(name).open] and [subprocess.run(..., check=True)] do
    with their arguments.  Every call the code makes to it, every line it
    prints and every pause it takes is recorded, in order; standard output
    is taken to accept every line. *)

Module BrowserOpener.




(** [platform] is [platform.system().lower()]. *)
Record t : Type := {
  platform : str;
  _preferred_browsers : list str
}.

Definition _is_valid_url `{PyLib} (url : str) : bool :=
  match urllib.urlparse url with
  | Ok result =>
      (negb (is_empty (urllib.scheme result))
       && negb (is_empty (urllib.netloc result)))
      && str_in (urllib.scheme result) [lit "http"; lit "https"]
  | Raise _ => false
  end.







Definition get_available_browsers (self : t) : list str := _preferred_browsers self.

End BrowserOpener.

(** ** config_manager.py: ConfigManager

    A configuration is a tree of JSON-like values: the content of each
    dict, as a lookup along a key path reads it.  The tree does not tell one
    dict object held under two keys from two equal dicts, so nothing is
    stated here on what an assignment under one key does under another.  A
    [float] is modelled by a rational.  The two exceptions [get] catches
    are a type of their own; their messages are never read. *)

Module ConfigManager.

Unset Elimination Schemes.
Inductive value : Type :=
| VNone
| VBool (b : bool)
| VInt (n : Z)
| VFloat (x : QArith_base.Q)
| VStr (s : str)
| VList (l : list value)
| VDict (items : Dict.t value).
Set Elimination Schemes.

Inductive error : Type :=
| KeyError (key : str)
| TypeError.

Definition isinstance_dict (v : value) : bool :=
  match v with VDict _ => true | _ => false end.

(** [s.split(sep)] with a one-character separator; [cur] is the piece
    being read, reversed. *)
Fixpoint split_from (sep : char) (cur : str) (s : str) : list str :=
  match s with
  | [] => [rev cur]
  | c :: s' =>
      if (c =? sep)%N then rev cur :: split_from sep [] s'
      else split_from sep (c :: cur) s'
  end.

Definition split (s : str) (sep : char) : list str := split_from sep [] s.

(** [current[key]] with a string key: only a dict can be subscripted so. *)
Definition subscript (current : value) (key : str) : error + value :=
  match current with
  | VDict items =>
      match Dict.get items key with
      | Some v => inr v
      | None => inl (KeyError key)
      end
  | _ => inl TypeError
  end.

(** The loop of [get]: [for key in keys: current = current[key]]. *)
Fixpoint walk (current : value) (keys : list str) : error + value :=
  match keys with
  | [] => inr current
  | key :: keys' =>
      match subscript current key with
      | inr v => walk v keys'
      | inl e => inl e
      end
  end.

(** The body of [set] from a dict [current] on: [keys] is what is left of
    [keys[:-1]] and [last] is [keys[-1]].  The dict comes back as the
    statements leave it, also when one of them raises.  When [current[key]]
    is not a dict, the statement that follows it raises [TypeError],
    whichever it is: [key not in current], [current[key] = {}],
    [current[key]] or the final assignment. *)
Fixpoint assign (current : Dict.t value) (keys : list str) (last : str)
    (v : value) : Dict.t value * option error :=
  match keys with
  | [] => (Dict.set current last v, None)
  | key :: keys' =>
      let current1 :=
        match Dict.get current key with
        | Some _ => current
        | None => Dict.set current key (VDict [])
        end in
      match Dict.get current1 key with
      | Some (VDict sub) =>
          let '(sub', raised) := assign sub keys' last v in
          (Dict.set current1 key (VDict sub'), raised)
      | Some _ => (current1, Some TypeError)
      | None => (current1, Some (KeyError key))
      end
  end.

Record t : Type := {
  _config : Dict.t value;
  _config_file : option Path
}.

Definition strings (l : list string) : value := VList (List.map (fun s => VStr (lit s)) l).

Definition default_config : Dict.t value :=
  [(lit "scanning",
    VDict [(lit "recursive", VBool true);
           (lit "max_depth", VInt 10);
           (lit "excluded_dirs",
            strings [".git"; "__pycache__"; "node_modules"; ".venv"; "venv"]%string);
           (lit "file_patterns", strings ["*.dokk"]%string)]);
   (lit "display",
    VDict [(lit "enable_colors", VBool true);
           (lit "enable_hyperlinks", VBool true);
           (lit "group_by_file", VBool true);
           (lit "max_description_length", VInt 80);
           (lit "show_file_names", VBool true);
           (lit "confirm_open_all", VBool true)]);
   (lit "browser",
    VDict [(lit "preferred_browser", VNone);
           (lit "open_delay_seconds", VFloat (QArith_base.Qmake 1 2));
           (lit "max_concurrent_opens", VInt 10)]);
   (lit "security",
    VDict [(lit "validate_urls", VBool true);
           (lit "allowed_schemes", strings ["http"; "https"]%string);
           (lit "warn_on_suspicious_urls", VBool true)]);
   (lit "advanced",
    VDict [(lit "cache_scan_results", VBool false);
           (lit "auto_reload_on_change", VBool false);
           (lit "debug_mode", VBool false);
           (lit "log_level", VStr (lit "INFO"))])].

Definition _load_default_config (self : t) : t :=
  {| _config := default_config; _config_file := _config_file self |}.

Definition get (self : t) (key_path : str) (default : value) : value :=
  let keys := split key_path DOT in
  match walk (VDict (_config self)) keys with
  | inr current => current
  | inl (KeyError _) | inl TypeError => default
  end.

Definition set (self : t) (key_path : str) (value : value) : t * option error :=
  let keys := split key_path DOT in
  let '(config, raised) :=
    assign (_config self) (removelast keys) (last keys []) value in
  ({| _config := config; _config_file := _config_file self |}, raised).

Definition reset_to_defaults (self : t) : t := _load_default_config self.

Definition get_config_file_path (self : t) : option Path := _config_file self.

Definition get_all_config (self : t) : Dict.t value := _config self.

End ConfigManager.

(** ** A concrete interpreter and concrete file systems

    [AsciiPyLib] lower-cases ASCII letters and leaves every other code point
    alone, and rejects a network location whose square brackets do not pair
    up; it agrees with CPython on ASCII text without brackets.  [mkfs]
    builds a file system with one directory [root], whose [glob] yields
    [listing], and with the regular files [files]. *)

Definition ascii_netloc_error (netloc : str) : option str :=
  if xorb (has_char netloc 91%N) (has_char netloc 93%N)
  then Some (lit "Invalid IPv6 URL") else None.

#[export] Instance AsciiPyLib : PyLib := {|
  lower := List.map ascii_lower_char;
  netloc_error := ascii_netloc_error;
  lower_ascii := fun s _ => eq_refl
|}.

Definition mkfs (root : Path) (listing : list Path) (files : Dict.t str)
    : FileSystem :=
  {| stat := fun p =>
       if Py.eqb p root then Found Directory
       else match Dict.get files p with
            | Some _ => Found RegularFile
            | None => Absent
            end;
     read_text := fun p _ =>
       match Dict.get files p with
       | Some content => Decoded content
       | None => ReadFailure (lit "[Errno 2] No such file or directory")
       end;
     glob := fun p _ => if Py.eqb p root then listing else [];
     cwd := root;
     stdout_error := fun _ => None |}.

(** A link line: the description and the url in quotes around an arrow,
    then [tail]. *)
Definition link_line (description url tail : str) : str :=
  QUOTE :: description ++ QUOTE :: lit " -> " ++ QUOTE :: url ++ QUOTE :: tail.

(** * Specifications and examples

    The notions the properties are stated with, and the concrete files and
    managers they are tried on. *)

(** The condition on the scheme as section 3 of the specification words
    it: the url starts with http:// or with https://, code point for code
    point. *)
Definition http_or_https (url : str) : Prop :=
  (exists rest, url = lit "http://" ++ rest)
  \/ (exists rest, url = lit "https://" ++ rest).

(** The three conditions of a valid entry, on the trimmed texts. *)
Definition valid_entry_text (description url : str) : Prop :=
  strip description <> [] /\ strip url <> [] /\ http_or_https (strip url).

(** A quoted group at the head of a text, as the pattern words it: a quote,
    one or more characters that are not quotes, a quote. *)
Definition quoted_group (s group rest : str) : Prop :=
  s = QUOTE :: group ++ QUOTE :: rest
  /\ group <> [] /\ forallb StandardDokkParser.not_quote group = true.

(** The quoted-arrow pattern as the specification words it: a quoted
    description, spaces, the arrow, spaces, a quoted url, and then [rest]. *)
Definition quoted_arrow (line description url rest : str) : Prop :=
  exists w1 w2 : str,
    line = QUOTE :: description ++ QUOTE :: w1 ++ MINUS :: GT :: w2
                 ++ QUOTE :: url ++ QUOTE :: rest
    /\ description <> [] /\ forallb StandardDokkParser.not_quote description = true
    /\ url <> [] /\ forallb StandardDokkParser.not_quote url = true
    /\ forallb isspace w1 = true /\ forallb isspace w2 = true.

(** The pattern matches at the start of the line, whatever follows. *)
Definition matches_at_start (line : str) : Prop :=
  exists description url rest, quoted_arrow line description url rest.

(** The pattern matches the whole line, with nothing after the url. *)
Definition matches_exactly (line : str) : Prop :=
  exists description url, quoted_arrow line description url [].

(** The lines [parse] passes over: blank lines, comments, and lines that
    match at their start and give a valid entry. *)
Definition accepts (file_path : Path) (line : str) : bool :=
  let line := strip line in
  is_empty line || startswith line (lit "#")
  || match StandardDokkParser.PATTERN_match line with
     | Some (description, url) =>
         negb (raised (DokkEntry.__init__ description url file_path))
     | None => false
     end.

(** The two messages of [parse] that name a line. *)
Definition names_line (msg : str) (line_number : Z) (file_path : Path) : Prop :=
  exists tail,
    msg = lit "Formato non valido alla riga " ++ of_int line_number
          ++ lit " di " ++ file_path ++ lit ": " ++ tail
    \/ msg = lit "Errore alla riga " ++ of_int line_number
             ++ lit " di " ++ file_path ++ lit ": " ++ tail.

Definition invalid_format (line_number : Z) (file_path : Path) (line : str) : str :=
  lit "Formato non valido alla riga " ++ of_int line_number
  ++ lit " di " ++ file_path ++ lit ": " ++ line.

(** A file [parse] gets to read: it exists, it is a regular file, and
    reading it gives [content]. *)
Definition readable (fs : FileSystem) (file_path : Path) (content : str) : Prop :=
  exists_ fs file_path = Ok true /\ is_file fs file_path = Ok true
  /\ StandardDokkParser.read_content fs file_path = Ok content.

(** A file whose only line has text after the url. *)
Definition junk_path : Path := lit "/docs/links.dokk".
Definition junk_line : str :=
  link_line (lit "A") (lit "https://x.test") (lit " junk").
Definition junk_fs : FileSystem :=
  mkfs (lit "/docs") [junk_path] [(junk_path, junk_line)].

(** A file with a comment, a valid line and a malformed third line. *)
Definition bad_path : Path := lit "/docs/bad.dokk".
Definition bad_content : str :=
  lit "# links" ++ [LF] ++ link_line (lit "A") (lit "https://x.test") []
  ++ [LF] ++ lit "  bad line ".
Definition bad_fs : FileSystem :=
  mkfs (lit "/docs") [bad_path] [(bad_path, bad_content)].

(** The paths the loop of [scan_directory] runs over. *)
Definition candidates (fs : FileSystem) (root_path : Path) (recursive : bool)
    : list Path :=
  glob fs root_path (if recursive then lit "**/*.dokk" else lit "*.dokk").

(** A candidate that ends up in the result: its parser was found, the
    parse returned, and it returned at least one entry. *)
Definition yields (self : DokkFileScanner.t) (fs : FileSystem) (file_path : Path)
    : bool :=
  match DokkParserFactory.parse_file (DokkFileScanner.parser_factory self)
          fs file_path with
  | Ok (_ :: _) => true
  | _ => false
  end.

(** A directory with one good file, one file with a malformed line, one
    file without entries and one name no parser handles. *)
Definition docs : Path := lit "/docs".
Definition a_dokk : Path := lit "/docs/a.dokk".
Definition b_dokk : Path := lit "/docs/b.dokk".
Definition c_dokk : Path := lit "/docs/c.dokk".
Definition dot_dokk : Path := lit "/docs/.dokk".
Definition docs_fs : FileSystem :=
  mkfs docs [a_dokk; b_dokk; c_dokk; dot_dokk]
    [ (a_dokk, link_line (lit "X") (lit "https://x.test") []);
      (b_dokk, link_line (lit "Y") (lit "https://y.test") [] ++ [LF] ++ lit "oops");
      (c_dokk, lit "# nothing here");
      (dot_dokk, link_line (lit "H") (lit "https://h.test") []) ].




(** The root [scan_for_links] scans. *)
Definition scan_root (fs : FileSystem) (root_path : option Path) : Path :=
  match root_path with None => cwd fs | Some p => p end.

(** The manager [scan_for_links] starts from: everything cleared, the
    root recorded. *)
Definition cleared (self : LinkManager.t) (root_path : Path) : LinkManager.t :=
  {| LinkManager.scanner := LinkManager.scanner self;
     LinkManager._entries := [];
     LinkManager._entries_by_file := [];
     LinkManager._last_scan_path := Some root_path;
     LinkManager._file_colors := [] |}.

(** The colour of the file seen at position [i]. *)
Definition palette (i : Z) : str :=
  nth (Z.to_nat (i mod len LinkManager.COLORS)) LinkManager.COLORS [].

Fixpoint colored (keys : list Path) (i : Z) : Dict.t str :=
  match keys with
  | [] => []
  | k :: keys' => (k, palette i) :: colored keys' (i + 1)
  end.

(** The line [scan_directory] prints for a candidate that raised. *)
Definition warning (file_path : Path) (e : exn) : str :=
  lit "Attenzione: Errore nel parsing di " ++ file_path ++ lit ": " ++ exn_str e.

(** The lines a scan has to print: one for each candidate whose selection
    or parse raises, in the order of the candidates. *)
Definition warnings (self : DokkFileScanner.t) (fs : FileSystem)
    (files : list Path) : stdout :=
  flat_map
    (fun file_path =>
       match DokkParserFactory.parse_file (DokkFileScanner.parser_factory self)
               fs file_path with
       | Ok _ => []
       | Raise e => [warning file_path e]
       end)
    files.

(** Standard output takes the line. *)
Definition printable (fs : FileSystem) (line : str) : Prop :=
  stdout_error fs line = None.

(** The dictionary a loop that gets through [files] has built from
    [results]: each candidate that yields is set to its entries. *)
Fixpoint gathered (self : DokkFileScanner.t) (fs : FileSystem)
    (files : list Path) (results : Dict.t (list DokkEntry))
    : Dict.t (list DokkEntry) :=
  match files with
  | [] => results
  | file_path :: files' =>
      match DokkParserFactory.parse_file (DokkFileScanner.parser_factory self)
              fs file_path with
      | Ok (e :: es) => gathered self fs files' (Dict.set results file_path (e :: es))
      | _ => gathered self fs files' results
      end
  end.

(** What the scanner hands to [scan_for_links] when its scan returns. *)
Definition scanned (self : LinkManager.t) (fs : FileSystem) (root_path : Path)
    (recursive : bool) : Dict.t (list DokkEntry) :=
  gathered (LinkManager.scanner self) fs (candidates fs root_path recursive) [].

(** The manager after a scan of a directory. *)
Definition loaded (self : LinkManager.t) (fs : FileSystem) (root_path : Path)
    (recursive : bool) : LinkManager.t :=
  {| LinkManager.scanner := LinkManager.scanner self;
     LinkManager._entries :=
       List.concat (Dict.values (scanned self fs root_path recursive));
     LinkManager._entries_by_file := scanned self fs root_path recursive;
     LinkManager._last_scan_path := Some root_path;
     LinkManager._file_colors :=
       colored (Dict.keys (scanned self fs root_path recursive)) 0 |}.

(** The manager after a first scan of [docs]. *)
Definition docs_manager : LinkManager.t :=
  snd (LinkManager.scan_for_links (LinkManager.__init__ None) docs_fs
         (Some docs) false).

Definition missing : Path := lit "/missing".

(** The distinct elements of a list, in the order they are first seen. *)
Definition first_seen (xs : list Path) : list Path := fold_left PySet.add xs [].

(** A directory with nine files, so that the palette wraps around. *)
Definition nine : list Path :=
  List.map (fun c => lit "/nine/" ++ [c] ++ lit ".dokk")
    (lit "abcdefghi").
Definition nine_fs : FileSystem :=
  mkfs (lit "/nine") nine
    (List.map (fun p => (p, link_line (lit "L") (lit "https://l.test") [])) nine).
Definition nine_manager : LinkManager.t :=
  snd (LinkManager.scan_for_links (LinkManager.__init__ None) nine_fs None true).

(** The managers the program can hold: a new one, or one on which
    [scan_for_links] has run, whether it returned or raised. *)
Inductive reachable `{PyLib} : LinkManager.t -> Prop :=
| reachable_init (parser_factory : option DokkParserFactory.t) :
    reachable (LinkManager.__init__ parser_factory)
| reachable_scan (self : LinkManager.t) (fs : FileSystem)
    (root_path : option Path) (recursive : bool) :
    reachable self ->
    reachable (snd (LinkManager.scan_for_links self fs root_path recursive)).

(** What every such manager satisfies: the list of entries is the
    concatenation of the lists of the mapping, no file of the mapping has an
    empty list, and the colours are keyed by the files of the mapping. *)
Definition consistent (self : LinkManager.t) : Prop :=
  LinkManager._entries self
  = List.concat (Dict.values (LinkManager._entries_by_file self))
  /\ Forall (fun v => v <> []) (Dict.values (LinkManager._entries_by_file self))
  /\ NoDup (Dict.keys (LinkManager._entries_by_file self))
  /\ Dict.keys (LinkManager._file_colors self)
     = Dict.keys (LinkManager._entries_by_file self).

Definition str_eq_dec : forall s t : str, {s = t} + {s <> t} :=
  list_eq_dec N.eq_dec.

(** The domain of one entry, if its url has one: the lower-cased network
    location [urlparse] finds, none when [urlparse] raises or finds an
    empty one. *)
Definition domain_of `{PyLib} (entry : DokkEntry) : list str :=
  match urllib.urlparse (DokkEntry.url entry) with
  | Ok parsed =>
      if is_empty (urllib.netloc parsed) then []
      else [lower (urllib.netloc parsed)]
  | Raise _ => []
  end.

(** The number of distinct domains of a list of entries. *)
Definition distinct_domains `{PyLib} (entries : list DokkEntry) : nat :=
  List.length (nodup str_eq_dec (flat_map domain_of entries)).

Definition no_links : LinkManager.Statistics :=
  {| LinkManager.total_links := 0;
     LinkManager.total_files := 0;
     LinkManager.unique_domains := 0 |}.

(** The example of the specification: two files with one link each, then a
    third link to a host already seen, in other letters and with a path. *)
Definition two_fs : FileSystem :=
  mkfs docs [a_dokk; b_dokk]
    [ (a_dokk, link_line (lit "X") (lit "https://x.test") []);
      (b_dokk, link_line (lit "Y") (lit "https://y.test") [] ++ [LF]
               ++ link_line (lit "Y2") (lit "http://Y.TEST/again?q#f") [] ++ [LF]
               ++ link_line (lit "None") (lit "https:///nohost") []) ].

Definition two_manager : LinkManager.t :=
  snd (LinkManager.scan_for_links (LinkManager.__init__ None) two_fs None false).

(** Reading the exported document: the value at a key of an object, the
    elements of an array, and the entries of all the files, flattened. *)
Definition json_get (key : str) (j : json) : option json :=
  match j with
  | JDict items =>
      match List.find (fun item => Py.eqb (fst item) key) items with
      | Some (_, v) => Some v
      | None => None
      end
  | _ => None
  end.

Definition json_elements (j : option json) : list json :=
  match j with
  | Some (JList l) => l
  | _ => []
  end.

Definition flattened_entries (document : json) : list json :=
  flat_map (fun file => json_elements (json_get (lit "entries") file))
    (json_elements (json_get (lit "files") document)).

Definition total_entries_field (document : json) : option json :=
  match json_get (lit "scan_info") document with
  | Some scan_info => json_get (lit "total_entries") scan_info
  | None => None
  end.

(** An entry that came out of [DokkEntry.__init__]. *)
Definition constructed (entry : DokkEntry) : Prop :=
  exists description url file_path,
    DokkEntry.__init__ description url file_path = Ok entry.

(** The url after [urlsplit] has removed tabs and line ends from it. *)
Definition unsafe_removed (url : str) : str :=
  remove_char LF (remove_char CR (remove_char TAB url)).

(** The network location [urlsplit] finds in what follows the two slashes. *)
Definition netloc_after (rest : str) : str :=
  fst (urllib._splitnetloc (lit "//" ++ unsafe_removed rest) 2).

(** The delimiters that end a network location, and the authority of a
    url: what follows the two slashes, up to the first delimiter. *)
Definition is_delimiter (c : char) : bool := has_char (lit "/?#") c.

Definition authority (rest : str) : str :=
  takewhile (fun c => negb (is_delimiter c)) (unsafe_removed rest).

(** What [urlsplit] gives on a scheme and what follows its two slashes. *)
Definition split_result `{PyLib} (scheme rest : str) : result urllib.ParseResult :=
  match (if is_empty (netloc_after rest) then None
         else netloc_error (netloc_after rest)) with
  | Some msg => Raise (ValueError msg)
  | None => Ok {| urllib.scheme := scheme; urllib.netloc := netloc_after rest |}
  end.

(** The url has a network location and [urlparse] returns it. *)
Definition has_netloc `{PyLib} (entry : DokkEntry) : Prop :=
  exists parsed,
    urllib.urlparse (DokkEntry.url entry) = Ok parsed
    /\ urllib.netloc parsed <> [].

(** The url is http:// or https:// followed by an authority that is not
    empty and that [urlparse] accepts. *)
Definition has_host `{PyLib} (url : str) : Prop :=
  exists rest,
    (url = lit "http://" ++ rest \/ url = lit "https://" ++ rest)
    /\ authority rest <> []
    /\ netloc_error (authority rest) = None.

(** A file whose only link has the scheme and nothing after it. *)
Definition nohost_path : Path := lit "/docs/n.dokk".
Definition nohost_entry : DokkEntry :=
  DokkEntry.make (lit "B") (lit "http://") nohost_path.
Definition nohost_fs : FileSystem :=
  mkfs docs [nohost_path]
    [(nohost_path, link_line (lit "B") (lit "http://") [])].
Definition nohost_manager : LinkManager.t :=
  snd (LinkManager.scan_for_links (LinkManager.__init__ None) nohost_fs None true).

(** One host written three ways: bare, with a port, with user info. *)
Definition ports_fs : FileSystem :=
  mkfs docs [a_dokk]
    [ (a_dokk, link_line (lit "P") (lit "https://example.com") [] ++ [LF]
               ++ link_line (lit "Q") (lit "https://example.com:443") [] ++ [LF]
               ++ link_line (lit "R") (lit "https://user@EXAMPLE.com") []) ].

Definition ports_manager : LinkManager.t :=
  snd (LinkManager.scan_for_links (LinkManager.__init__ None) ports_fs None true).

(** The entry [parse] makes of one line: none for a blank line or a
    comment, the trimmed groups of the match otherwise. *)
Definition entry_of (file_path : Path) (line : str) : list DokkEntry :=
  let line := strip line in
  if is_empty line || startswith line (lit "#") then []
  else match StandardDokkParser.PATTERN_match line with
       | Some (description, url) =>
           [DokkEntry.make (strip description) (strip url) file_path]
       | None => []
       end.

(** A character that is not a line boundary. *)
Definition not_linebreak (c : char) : bool := negb (is_linebreak c).

(** What holds of an entry that [parse] returns for [file_path]. *)
Definition parsed_entry (file_path : Path) (entry : DokkEntry) : Prop :=
  DokkEntry.file_path entry = file_path
  /\ DokkEntry.description entry <> []
  /\ DokkEntry.url entry <> []
  /\ http_or_https (DokkEntry.url entry)
  /\ strip (DokkEntry.description entry) = DokkEntry.description entry
  /\ strip (DokkEntry.url entry) = DokkEntry.url entry
  /\ forallb StandardDokkParser.not_quote (DokkEntry.description entry) = true
  /\ forallb StandardDokkParser.not_quote (DokkEntry.url entry) = true
  /\ forallb not_linebreak (DokkEntry.description entry) = true
  /\ forallb not_linebreak (DokkEntry.url entry) = true.

(** The line that writes an entry in the grammar of the files. *)
Definition line_of (entry : DokkEntry) : str :=
  link_line (DokkEntry.description entry) (DokkEntry.url entry) [].

(** A factory after the parsers [ps] were registered, in that order. *)
Definition registered (self : DokkParserFactory.t) (ps : list BaseParser)
    : DokkParserFactory.t :=
  fold_left DokkParserFactory.register_parser ps self.

(** The text of a file that holds the given entries, one line each. *)
Definition text_of (entries : list DokkEntry) : str :=
  PyText.join [LF] (List.map line_of entries).

(** A file system whose only file is [file_path], with the given text. *)
Definition one_file (file_path : Path) (content : str) : FileSystem :=
  {| stat := fun p => if Py.eqb p file_path then Found RegularFile else Absent;
     read_text := fun _ _ => Decoded content;
     glob := fun _ _ => [file_path];
     cwd := [];
     stdout_error := fun _ => None |}.

(** The object the JSON export holds for one entry. *)
Definition entry_json (entry : DokkEntry) : json :=
  JDict [ (lit "description", JStr (DokkEntry.description entry));
          (lit "url", JStr (DokkEntry.url entry)) ].

(** [needle] occurs in [s]. *)
Definition occurs (needle s : str) : Prop :=
  exists before after, s = before ++ needle ++ after.

(** The lines of the three exports for one file of the mapping. *)
Fixpoint numbered (entries : list DokkEntry) (i : Z) : list str :=
  match entries with
  | [] => []
  | entry :: rest =>
      (PyText.format_2d i ++ lit ". " ++ DokkEntry.description entry)
      :: (lit "    " ++ DokkEntry.url entry)
      :: numbered rest (i + 1)
  end.

Definition text_block (item : Path * list DokkEntry) : list str :=
  [lit "File: " ++ fst item; PyText.times 45%N 40]
  ++ numbered (snd item) 1 ++ [[]].

Definition markdown_line (entry : DokkEntry) : str :=
  lit "- [" ++ DokkEntry.description entry ++ lit "]("
  ++ DokkEntry.url entry ++ lit ")".

Definition markdown_block (item : Path * list DokkEntry) : list str :=
  [lit "## " ++ PurePath.name (fst item); []]
  ++ List.map markdown_line (snd item) ++ [[]].

Definition html_line (entry : DokkEntry) : str :=
  lit "<li><a href=" ++ [QUOTE] ++ DokkEntry.url entry ++ [QUOTE] ++ lit ">"
  ++ DokkEntry.description entry ++ lit "</a></li>".

Definition html_block (item : Path * list DokkEntry) : list str :=
  [lit "<h2>" ++ PurePath.name (fst item) ++ lit "</h2>"; lit "<ul>"]
  ++ List.map html_line (snd item) ++ [lit "</ul>"].






(** Some beginning of the key path leads to a value that is not a dict. *)
Definition blocked (config : Dict.t ConfigManager.value) (keys : list str) : Prop :=
  exists beginning rest w,
    keys = beginning ++ rest
    /\ ConfigManager.walk (ConfigManager.VDict config) beginning = inr w
    /\ ConfigManager.isinstance_dict w = false.

Definition fresh_config : ConfigManager.t :=
  {| ConfigManager._config := ConfigManager.default_config;
     ConfigManager._config_file := None |}.

(** The host component of a network location, the claim's domain: what
    follows the user information, up to the port; in brackets for an IPv6
    address.  It is what [urlparse] gives as [hostname]: lower-cased, but
    for the zone of a scoped address. *)
Definition hostname `{PyLib} (netloc : str) : str :=
  let at_sign := rfind netloc 64%N in
  let hostinfo :=
    if (0 <=? at_sign)%Z then slice_from netloc (at_sign + 1) else netloc in
  let bracket := find hostinfo 91%N in
  let host :=
    if (0 <=? bracket)%Z
    then takewhile (fun c => negb (c =? 93)%N) (slice_from hostinfo (bracket + 1))
    else takewhile (fun c => negb (c =? COLON)%N) hostinfo in
  lower (takewhile (fun c => negb (c =? 37)%N) host)
  ++ dropwhile (fun c => negb (c =? 37)%N) host.

Definition host_of `{PyLib} (entry : DokkEntry) : list str :=
  match urllib.urlparse (DokkEntry.url entry) with
  | Ok parsed =>
      if is_empty (hostname (urllib.netloc parsed)) then []
      else [hostname (urllib.netloc parsed)]
  | Raise _ => []
  end.

Definition distinct_hosts `{PyLib} (entries : list DokkEntry) : nat :=
  List.length (nodup str_eq_dec (flat_map host_of entries)).

(** A file whose only url has a port and no host. *)
Definition port_only_fs : FileSystem :=
  mkfs docs [a_dokk] [(a_dokk, link_line (lit "S") (lit "https://:443/x") [])].
Definition port_only_manager : LinkManager.t :=
  snd (LinkManager.scan_for_links (LinkManager.__init__ None) port_only_fs None true).

(** * Properties *)

(** ** Strings *)

Lemma eqb_eq (s t : str) : Py.eqb s t = true <-> s = t.
Proof.
  revert t; induction s as [|c s IH]; intros [|d t]; simpl.
  - split; intros _; reflexivity.
  - split; intros E; discriminate E.
  - split; intros E; discriminate E.
  - rewrite andb_true_iff, N.eqb_eq, IH. split.
    + intros [-> ->]; reflexivity.
    + intros E; inversion E; auto.
Qed.

Lemma eqb_refl (s : str) : Py.eqb s s = true.
Proof. apply eqb_eq; reflexivity. Qed.

Lemma eqb_neq (s t : str) : Py.eqb s t = false <-> s <> t.
Proof.
  rewrite <- eqb_eq. destruct (Py.eqb s t); split; congruence.
Qed.

Lemma is_empty_true (s : str) : is_empty s = true <-> s = [].
Proof. destruct s; simpl; split; congruence. Qed.

Lemma is_empty_false (s : str) : is_empty s = false <-> s <> [].
Proof. destruct s; simpl; split; congruence. Qed.

Lemma startswith_spec (s prefix : str) :
  startswith s prefix = true <-> exists rest, s = prefix ++ rest.
Proof.
  revert s; induction prefix as [|p prefix IH]; intros s; simpl.
  - split; [intros _; exists s; reflexivity | reflexivity].
  - destruct s as [|c s].
    + split; [discriminate | intros [rest E]; discriminate].
    + rewrite andb_true_iff, N.eqb_eq, IH. split.
      * intros [-> [rest ->]]; eauto.
      * intros [rest E]; inversion E; eauto.
Qed.

Lemma contains_nil (s : str) : contains s [] = true.
Proof. destruct s; reflexivity. Qed.

Lemma lower_nil `{PyLib} : lower [] = [].
Proof. apply (lower_ascii []); reflexivity. Qed.

(** ** Entry construction *)

Lemma http_or_https_startswith (url : str) :
  http_or_https url <->
  startswith url (lit "http://") || startswith url (lit "https://") = true.
Proof.
  unfold http_or_https.
  rewrite orb_true_iff, !startswith_spec. tauto.
Qed.

Lemma validate_ok (self : DokkEntry) :
  DokkEntry._validate self = Ok tt <->
  DokkEntry.description self <> [] /\ DokkEntry.url self <> []
  /\ http_or_https (DokkEntry.url self).
Proof.
  unfold DokkEntry._validate.
  rewrite http_or_https_startswith, <- !is_empty_false.
  destruct (is_empty (DokkEntry.description self));
    [split; [discriminate | intros [? _]; discriminate]|].
  destruct (is_empty (DokkEntry.url self));
    [split; [discriminate | intros [_ [? _]]; discriminate]|].
  destruct (startswith _ _ || startswith _ _); simpl.
  - tauto.
  - split; [discriminate | intros [_ [_ ?]]; discriminate].
Qed.

Lemma validate_raises_ParseError (self : DokkEntry) (e : exn) :
  DokkEntry._validate self = Raise e -> exists msg, e = ParseError msg.
Proof.
  unfold DokkEntry._validate.
  repeat match goal with
         | |- context [if ?b then _ else _] => destruct b
         end; intros E; inversion E; eauto.
Qed.

Lemma init_raises_ParseError (description url : str) (file_path : Path) (e : exn) :
  DokkEntry.__init__ description url file_path = Raise e ->
  exists msg, e = ParseError msg.
Proof.
  unfold DokkEntry.__init__, bind.
  destruct (DokkEntry._validate _) eqn:V; [discriminate|].
  intros E; inversion E; subst. eapply validate_raises_ParseError; eauto.
Qed.

(** C4.  Entry construction trims the description and the url; it returns
    an entry exactly when the trimmed description is not empty, the trimmed
    url is not empty and the trimmed url starts with http:// or https://
    (compared as written, nothing is normalised), and the entry then holds
    exactly the trimmed description, the trimmed url and the source file;
    in every other case it raises a ParseError. *)
Theorem DokkEntry_init_spec (description url : str) (file_path : Path) :
  (forall entry,
      DokkEntry.__init__ description url file_path = Ok entry <->
      valid_entry_text description url
      /\ entry = DokkEntry.make (strip description) (strip url) file_path)
  /\ ((exists msg,
          DokkEntry.__init__ description url file_path = Raise (ParseError msg))
      <-> ~ valid_entry_text description url)
  /\ (forall e,
         DokkEntry.__init__ description url file_path = Raise e ->
         is_ParseError e = true).
Proof.
  assert (V := validate_ok (DokkEntry.make (strip description) (strip url) file_path)).
  simpl in V. unfold valid_entry_text.
  split; [|split].
  - intros entry. unfold DokkEntry.__init__, bind.
    destruct (DokkEntry._validate _) as [[]|e] eqn:E.
    + split.
      * intros H; inversion H; subst. split; [apply V; reflexivity | reflexivity].
      * intros [_ ->]; reflexivity.
    + split; [discriminate|]. intros [H _]. apply V in H. discriminate.
  - split.
    + intros [msg E] H. unfold DokkEntry.__init__, bind in E.
      apply V in H. rewrite H in E. discriminate.
    + intros H.
      destruct (DokkEntry.__init__ description url file_path) as [entry|e] eqn:E.
      * exfalso. apply H. unfold DokkEntry.__init__, bind in E.
        destruct (DokkEntry._validate _) as [[]|e'] eqn:E'; [|discriminate].
        apply V; reflexivity.
      * destruct (init_raises_ParseError _ _ _ _ E) as [msg ->]. eauto.
  - intros e E. destruct (init_raises_ParseError _ _ _ _ E) as [msg ->]. reflexivity.
Qed.

(** The scheme keyword is compared as written: an upper-case scheme is
    refused, and so is a scheme without the two slashes. *)
Example DokkEntry_init_upper_case :
  raised (DokkEntry.__init__ (lit "Z") (lit "HTTP://y.test") (lit "a.dokk")) = true
  /\ raised (DokkEntry.__init__ (lit "Z") (lit "http:y.test") (lit "a.dokk")) = true
  /\ DokkEntry.__init__ (lit " Z ") (lit " https://y.test ") (lit "a.dokk")
     = Ok (DokkEntry.make (lit "Z") (lit "https://y.test") (lit "a.dokk")).
Proof. repeat split. Qed.

(** ** The line pattern *)

Lemma takewhile_dropwhile (p : char -> bool) (s : str) :
  takewhile p s ++ dropwhile p s = s.
Proof.
  induction s as [|c s IH]; simpl; [reflexivity|].
  destruct (p c); simpl; congruence.
Qed.

Lemma takewhile_all (p : char -> bool) (s : str) :
  forallb p (takewhile p s) = true.
Proof.
  induction s as [|c s IH]; simpl; [reflexivity|].
  destruct (p c) eqn:E; simpl; [rewrite E; assumption | reflexivity].
Qed.

Lemma dropwhile_head (p : char -> bool) (s : str) (c : char) (r : str) :
  dropwhile p s = c :: r -> p c = false.
Proof.
  induction s as [|d s IH]; simpl; [discriminate|].
  destruct (p d) eqn:E; [assumption|]. intros H; inversion H; subst; assumption.
Qed.

Lemma takewhile_stop (p : char -> bool) (a : str) (c : char) (r : str) :
  forallb p a = true -> p c = false ->
  takewhile p (a ++ c :: r) = a /\ dropwhile p (a ++ c :: r) = c :: r.
Proof.
  intros Ha Hc. induction a as [|d a IH]; simpl in *.
  - rewrite Hc; split; reflexivity.
  - apply andb_true_iff in Ha as [Hd Ha]. rewrite Hd.
    destruct (IH Ha) as [-> ->]. split; reflexivity.
Qed.

Lemma not_quote_false (c : char) :
  StandardDokkParser.not_quote c = false <-> c = QUOTE.
Proof.
  unfold StandardDokkParser.not_quote.
  rewrite negb_false_iff, N.eqb_eq. tauto.
Qed.

Lemma quoted_spec (s group rest : str) :
  StandardDokkParser.quoted s = Some (group, rest) <-> quoted_group s group rest.
Proof.
  unfold StandardDokkParser.quoted, quoted_group. split.
  - destruct s as [|c s]; [discriminate|].
    destruct (c =? QUOTE)%N eqn:Ec; [|discriminate].
    apply N.eqb_eq in Ec; subst c.
    pose proof (takewhile_dropwhile StandardDokkParser.not_quote s) as TD.
    pose proof (takewhile_all StandardDokkParser.not_quote s) as TA.
    destruct (takewhile StandardDokkParser.not_quote s) as [|g0 g] eqn:Eg;
      [discriminate|].
    destruct (dropwhile StandardDokkParser.not_quote s) as [|q r] eqn:Ed;
      [discriminate|].
    intros H; inversion H; subst.
    apply dropwhile_head in Ed. apply not_quote_false in Ed; subst q.
    split; [reflexivity | split; [discriminate | exact TA]].
  - intros [-> [Hne Hall]]. rewrite N.eqb_refl.
    assert (Hq : StandardDokkParser.not_quote QUOTE = false) by reflexivity.
    destruct (takewhile_stop _ group QUOTE rest Hall Hq) as [-> ->].
    destruct group; [congruence | reflexivity].
Qed.

Lemma PATTERN_scan_spec (line description url rest : str) :
  StandardDokkParser.PATTERN_scan line = Some (description, url, rest)
  <-> quoted_arrow line description url rest.
Proof.
  unfold StandardDokkParser.PATTERN_scan, quoted_arrow. split.
  - destruct (StandardDokkParser.quoted line) as [[d after]|] eqn:Q1; [|discriminate].
    apply quoted_spec in Q1 as [-> [Hd1 Hd2]].
    pose proof (takewhile_dropwhile isspace after) as TD1.
    pose proof (takewhile_all isspace after) as TA1.
    destruct (dropwhile isspace after) as [|a [|b after_arrow]] eqn:D1;
      try discriminate.
    destruct ((a =? MINUS) && (b =? GT))%N eqn:Eab; [|discriminate].
    apply andb_true_iff in Eab as [Ea Eb].
    apply N.eqb_eq in Ea, Eb; subst a b.
    pose proof (takewhile_dropwhile isspace after_arrow) as TD2.
    pose proof (takewhile_all isspace after_arrow) as TA2.
    destruct (StandardDokkParser.quoted (dropwhile isspace after_arrow))
      as [[u r]|] eqn:Q2; [|discriminate].
    apply quoted_spec in Q2 as [E2 [Hu1 Hu2]].
    intros H; inversion H; subst.
    exists (takewhile isspace after), (takewhile isspace after_arrow).
    rewrite <- E2, TD2, TD1. repeat split; assumption.
  - intros (w1 & w2 & -> & Hd1 & Hd2 & Hu1 & Hu2 & Hw1 & Hw2).
    assert (Q1 : StandardDokkParser.quoted
                   (QUOTE :: description ++ QUOTE :: w1 ++ MINUS :: GT :: w2
                      ++ QUOTE :: url ++ QUOTE :: rest)
                 = Some (description, w1 ++ MINUS :: GT :: w2
                                         ++ QUOTE :: url ++ QUOTE :: rest)).
    { apply quoted_spec. repeat split; assumption. }
    rewrite Q1.
    destruct (takewhile_stop isspace w1 MINUS
                (GT :: w2 ++ QUOTE :: url ++ QUOTE :: rest) Hw1 eq_refl) as [_ ->].
    simpl.
    destruct (takewhile_stop isspace w2 QUOTE
                (url ++ QUOTE :: rest) Hw2 eq_refl) as [_ ->].
    assert (Q2 : StandardDokkParser.quoted (QUOTE :: url ++ QUOTE :: rest)
                 = Some (url, rest)).
    { apply quoted_spec. repeat split; assumption. }
    rewrite Q2. reflexivity.
Qed.

Lemma PATTERN_match_spec (line description url : str) :
  StandardDokkParser.PATTERN_match line = Some (description, url)
  <-> exists rest, quoted_arrow line description url rest.
Proof.
  unfold StandardDokkParser.PATTERN_match. split.
  - destruct (StandardDokkParser.PATTERN_scan line) as [[[d u] r]|] eqn:E;
      [|discriminate].
    intros H; inversion H; subst. exists r. apply PATTERN_scan_spec; assumption.
  - intros [rest H]. apply PATTERN_scan_spec in H. rewrite H. reflexivity.
Qed.

Lemma PATTERN_match_None (line : str) :
  StandardDokkParser.PATTERN_match line = None <-> ~ matches_at_start line.
Proof.
  unfold matches_at_start. split.
  - intros E (d & u & r & H).
    assert (M : StandardDokkParser.PATTERN_match line = Some (d, u))
      by (apply PATTERN_match_spec; eauto).
    congruence.
  - intros H.
    destruct (StandardDokkParser.PATTERN_match line) as [[d u]|] eqn:E;
      [|reflexivity].
    exfalso. apply H. apply PATTERN_match_spec in E as [r E]. eauto.
Qed.

(** ** Parsing one file *)

Lemma malformed_not_accepted (file_path : Path) (line : str) :
  strip line <> [] -> startswith (strip line) (lit "#") = false ->
  ~ matches_at_start (strip line) ->
  accepts file_path line = false.
Proof.
  intros Hne Hc Hm. unfold accepts.
  apply is_empty_false in Hne. apply PATTERN_match_None in Hm.
  rewrite Hne, Hc, Hm. reflexivity.
Qed.

Lemma parse_lines_cons (file_path : Path) (l : str) (lines : list str)
    (line_number : Z) (entries : list DokkEntry) :
  StandardDokkParser.parse_lines file_path (l :: lines) line_number entries
  = if is_empty (strip l) || startswith (strip l) (lit "#") then
      StandardDokkParser.parse_lines file_path lines (line_number + 1) entries
    else
      match StandardDokkParser.PATTERN_match (strip l) with
      | Some (description, url) =>
          match DokkEntry.__init__ description url file_path with
          | Ok entry =>
              StandardDokkParser.parse_lines file_path lines (line_number + 1)
                (entries ++ [entry])
          | Raise (ParseError e) =>
              Raise (ParseError (lit "Errore alla riga "
                                 ++ of_int (line_number + 1)
                                 ++ lit " di " ++ file_path ++ lit ": " ++ e))
          | Raise other => Raise other
          end
      | None =>
          Raise (ParseError (invalid_format (line_number + 1) file_path (strip l)))
      end.
Proof. reflexivity. Qed.

Lemma first_not_accepted (file_path : Path) (lines : list str) :
  forall i line,
    nth_error lines i = Some line -> accepts file_path line = false ->
    exists j line',
      (j <= i)%nat /\ nth_error lines j = Some line'
      /\ accepts file_path line' = false
      /\ forallb (accepts file_path) (firstn j lines) = true.
Proof.
  induction lines as [|l lines IH]; intros i line Hn Ha.
  - destruct i; discriminate.
  - destruct (accepts file_path l) eqn:El.
    + destruct i as [|i]; [simpl in Hn; congruence|].
      destruct (IH i line Hn Ha) as (j & line' & Hj & Hn' & Ha' & Hf).
      exists (S j), line'. simpl. rewrite El. repeat split; auto. lia.
    + exists 0%nat, l. simpl. repeat split; auto. lia.
Qed.

(** Where the loop stops: at the first line it does not accept, naming it;
    a malformed line gives the invalid-format message with the trimmed
    line. *)
Lemma parse_lines_stops (file_path : Path) (lines : list str) :
  forall (line_number : Z) (entries : list DokkEntry) (j : nat) (line : str),
    nth_error lines j = Some line ->
    accepts file_path line = false ->
    forallb (accepts file_path) (firstn j lines) = true ->
    exists msg,
      StandardDokkParser.parse_lines file_path lines line_number entries
      = Raise (ParseError msg)
      /\ names_line msg (line_number + Z.of_nat j + 1) file_path
      /\ (StandardDokkParser.PATTERN_match (strip line) = None ->
          msg = invalid_format (line_number + Z.of_nat j + 1) file_path (strip line)).
Proof.
  induction lines as [|l lines IH]; intros n entries j line Hn Ha Hf.
  - destruct j; discriminate.
  - destruct j as [|j].
    + simpl in Hn. inversion Hn; subst l. clear Hn Hf.
      unfold accepts in Ha. rewrite parse_lines_cons.
      replace (n + Z.of_nat 0 + 1)%Z with (n + 1)%Z by (simpl; lia).
      destruct (is_empty (strip line) || startswith (strip line) (lit "#"));
        [discriminate|]. simpl in Ha.
      destruct (StandardDokkParser.PATTERN_match (strip line)) as [[d u]|] eqn:M.
      * destruct (DokkEntry.__init__ d u file_path) as [entry|e] eqn:I;
          [discriminate|].
        destruct (init_raises_ParseError _ _ _ _ I) as [m ->].
        eexists. split; [reflexivity|]. split; [|discriminate].
        exists m. right. reflexivity.
      * eexists. split; [reflexivity|]. split; [|reflexivity].
        exists (strip line). left. reflexivity.
    + simpl in Hn, Hf. apply andb_true_iff in Hf as [Hl Hf].
      destruct (IH (n + 1)%Z entries j line Hn Ha Hf) as (msg & E & N1 & N2).
      replace (n + 1 + Z.of_nat j + 1)%Z with (n + Z.of_nat (S j) + 1)%Z in * by lia.
      unfold accepts in Hl. rewrite parse_lines_cons.
      destruct (is_empty (strip l) || startswith (strip l) (lit "#")).
      * exists msg. auto.
      * simpl in Hl.
        destruct (StandardDokkParser.PATTERN_match (strip l)) as [[d u]|];
          [|discriminate].
        destruct (DokkEntry.__init__ d u file_path) as [entry|e];
          [|discriminate].
        destruct (IH (n + 1)%Z (entries ++ [entry]) j line Hn Ha Hf)
          as (msg' & E' & N1' & N2').
        replace (n + 1 + Z.of_nat j + 1)%Z with (n + Z.of_nat (S j) + 1)%Z in * by lia.
        exists msg'. auto.
Qed.

(** When every line is accepted the loop returns the entries, one for each
    line that is neither blank nor a comment, after those it started with. *)
Lemma parse_lines_accepts (file_path : Path) (lines : list str) :
  forall (line_number : Z) (entries : list DokkEntry),
    forallb (accepts file_path) lines = true ->
    exists more,
      StandardDokkParser.parse_lines file_path lines line_number entries
      = Ok (entries ++ more).
Proof.
  induction lines as [|l lines IH]; intros n entries Hf.
  - exists []. rewrite app_nil_r. reflexivity.
  - simpl in Hf. apply andb_true_iff in Hf as [Hl Hf]. unfold accepts in Hl.
    rewrite parse_lines_cons.
    destruct (is_empty (strip l) || startswith (strip l) (lit "#")).
    + apply IH; assumption.
    + simpl in Hl.
      destruct (StandardDokkParser.PATTERN_match (strip l)) as [[d u]|];
        [|discriminate].
      destruct (DokkEntry.__init__ d u file_path) as [entry|e]; [|discriminate].
      destruct (IH (n + 1)%Z (entries ++ [entry]) Hf) as [more E].
      exists (entry :: more). rewrite E, <- app_assoc. reflexivity.
Qed.

Lemma parse_readable (fs : FileSystem) (file_path : Path) (content : str) :
  readable fs file_path content ->
  StandardDokkParser.parse fs file_path
  = StandardDokkParser.parse_lines file_path (splitlines content) 0 [].
Proof.
  intros (E & F & R). unfold StandardDokkParser.parse.
  rewrite E, F, R. reflexivity.
Qed.

Lemma parse_Ok_readable (fs : FileSystem) (file_path : Path)
    (entries : list DokkEntry) :
  StandardDokkParser.parse fs file_path = Ok entries ->
  exists content,
    readable fs file_path content
    /\ StandardDokkParser.parse_lines file_path (splitlines content) 0 []
       = Ok entries.
Proof.
  unfold StandardDokkParser.parse, readable, bind.
  destruct (exists_ fs file_path) as [[|]|]; try discriminate.
  destruct (is_file fs file_path) as [[|]|]; try discriminate.
  destruct (StandardDokkParser.read_content fs file_path) as [content|];
    try discriminate.
  cbn [negb]. intros E. exists content. auto.
Qed.

(** C2, as amended.  In a file that [parse] reads, a line that is neither
    blank nor a comment and at whose start (after trimming) the quoted-arrow
    pattern does not match makes [parse] raise a ParseError, so that no
    entry of the file is returned.  The error names the file and the first
    line that is not accepted, which is this line or an earlier one; when
    every earlier line is accepted it is the invalid-format error for this
    line, with its number and the trimmed line. *)
Theorem parse_rejects_malformed_line
    (fs : FileSystem) (file_path : Path) (content : str) (i : nat) (line : str) :
  readable fs file_path content ->
  nth_error (splitlines content) i = Some line ->
  strip line <> [] ->
  startswith (strip line) (lit "#") = false ->
  ~ matches_at_start (strip line) ->
  (exists msg j,
      StandardDokkParser.parse fs file_path = Raise (ParseError msg)
      /\ (j <= i)%nat
      /\ forallb (accepts file_path) (firstn j (splitlines content)) = true
      /\ names_line msg (Z.of_nat j + 1) file_path)
  /\ (forallb (accepts file_path) (firstn i (splitlines content)) = true ->
      StandardDokkParser.parse fs file_path
      = Raise (ParseError (invalid_format (Z.of_nat i + 1) file_path (strip line)))).
Proof.
  intros R Hn Hne Hc Hm.
  rewrite (parse_readable _ _ _ R).
  pose proof (malformed_not_accepted file_path line Hne Hc Hm) as Ha.
  split.
  - destruct (first_not_accepted file_path _ _ _ Hn Ha)
      as (j & line' & Hj & Hn' & Ha' & Hf).
    destruct (parse_lines_stops file_path _ 0 [] j _ Hn' Ha' Hf)
      as (msg & E & N1 & _).
    exists msg, j. repeat split; assumption.
  - intros Hf.
    destruct (parse_lines_stops file_path _ 0 [] i _ Hn Ha Hf)
      as (msg & E & _ & N2).
    rewrite E, N2; [reflexivity|].
    apply PATTERN_match_None; assumption.
Qed.

(** C2, as stated, fails: a line with text after the closing quote of the
    url does not match the pattern with nothing extra, it is neither blank
    nor a comment, and [parse] returns its entry instead of raising. *)
Lemma parse_accepts_text_after_url :
  readable junk_fs junk_path junk_line
  /\ nth_error (splitlines junk_line) 0 = Some junk_line
  /\ strip junk_line = junk_line
  /\ is_empty junk_line = false
  /\ startswith junk_line (lit "#") = false
  /\ ~ matches_exactly junk_line
  /\ StandardDokkParser.parse junk_fs junk_path
     = Ok [DokkEntry.make (lit "A") (lit "https://x.test") junk_path].
Proof.
  split; [repeat split|].
  repeat (split; [reflexivity|]).
  split; [|reflexivity].
  intros (d & u & H). apply PATTERN_scan_spec in H.
  vm_compute in H. discriminate H.
Qed.

Lemma parse_rejects_malformed_line_witness :
  StandardDokkParser.parse bad_fs bad_path
  = Raise (ParseError (invalid_format 3 bad_path (lit "bad line"))).
Proof.
  refine (proj2 (parse_rejects_malformed_line bad_fs bad_path bad_content 2
                   (lit "  bad line ") _ _ _ _ _) _).
  - repeat split.
  - reflexivity.
  - vm_compute. discriminate.
  - reflexivity.
  - apply PATTERN_match_None. reflexivity.
  - reflexivity.
Defined.

(** ** Dictionaries *)

Lemma eqb_sym (s t : str) : Py.eqb s t = Py.eqb t s.
Proof.
  destruct (Py.eqb s t) eqn:E.
  - apply eqb_eq in E; subst. symmetry; apply eqb_refl.
  - apply eqb_neq in E. symmetry. apply eqb_neq. congruence.
Qed.

Lemma str_in_In (x : str) (xs : list str) : str_in x xs = true <-> In x xs.
Proof.
  unfold str_in. rewrite existsb_exists. split.
  - intros (y & Hy & E). apply eqb_eq in E; subst; assumption.
  - intros H. exists x. split; [assumption | apply eqb_refl].
Qed.

Lemma str_in_not_In (x : str) (xs : list str) : str_in x xs = false <-> ~ In x xs.
Proof.
  rewrite <- str_in_In. destruct (str_in x xs); split; congruence.
Qed.

Lemma Dict_get_set {V} (d : Dict.t V) (k : Path) (v : V) (k' : Path) :
  Dict.get (Dict.set d k v) k' = if Py.eqb k k' then Some v else Dict.get d k'.
Proof.
  induction d as [|[k0 v0] d IH]; simpl.
  - reflexivity.
  - destruct (Py.eqb k0 k) eqn:E0; simpl.
    + apply eqb_eq in E0; subst k0.
      destruct (Py.eqb k k'); reflexivity.
    + rewrite IH. destruct (Py.eqb k0 k') eqn:E1; [|reflexivity].
      apply eqb_eq in E1; subst k0.
      rewrite eqb_sym, E0. reflexivity.
Qed.

Lemma Dict_keys_set {V} (d : Dict.t V) (k : Path) (v : V) :
  Dict.keys (Dict.set d k v) = PySet.add (Dict.keys d) k.
Proof.
  unfold PySet.add, Dict.keys, str_in.
  induction d as [|[k0 v0] d IH]; simpl.
  - reflexivity.
  - rewrite (eqb_sym k k0). destruct (Py.eqb k0 k); simpl.
    + reflexivity.
    + rewrite IH. destruct (existsb (Py.eqb k) (List.map fst d)); reflexivity.
Qed.

Lemma Dict_set_fresh {V} (d : Dict.t V) (k : Path) (v : V) :
  ~ In k (Dict.keys d) -> Dict.set d k v = d ++ [(k, v)].
Proof.
  induction d as [|[k0 v0] d IH]; simpl; intros H.
  - reflexivity.
  - destruct (Py.eqb k0 k) eqn:E.
    + apply eqb_eq in E. tauto.
    + rewrite IH; [reflexivity | tauto].
Qed.

Lemma Dict_get_None {V} (d : Dict.t V) (k : Path) :
  Dict.get d k = None <-> ~ In k (Dict.keys d).
Proof.
  induction d as [|[k0 v0] d IH]; simpl.
  - tauto.
  - destruct (Py.eqb k0 k) eqn:E.
    + apply eqb_eq in E. split; [discriminate | tauto].
    + apply eqb_neq in E. rewrite IH. tauto.
Qed.

Lemma PySet_add_NoDup (s : list str) (x : str) :
  NoDup s -> NoDup (PySet.add s x).
Proof.
  intros H. unfold PySet.add. destruct (str_in x s) eqn:E; [assumption|].
  apply str_in_not_In in E.
  apply NoDup_app; [assumption | repeat constructor; simpl; tauto |].
  intros y Hy [<-|[]]. tauto.
Qed.

Lemma PySet_add_In (s : list str) (x y : str) :
  In y (PySet.add s x) <-> In y s \/ y = x.
Proof.
  unfold PySet.add. destruct (str_in x s) eqn:E.
  - apply str_in_In in E. split; [tauto|]. intros [H| ->]; assumption.
  - rewrite in_app_iff. simpl. intuition (subst; auto).
Qed.

Lemma Dict_set_values_Forall {V} (P : V -> Prop) (d : Dict.t V) (k : Path) (v : V) :
  Forall P (Dict.values d) -> P v -> Forall P (Dict.values (Dict.set d k v)).
Proof.
  unfold Dict.values. intros Hd Hv.
  induction d as [|[k0 v0] d IH]; simpl.
  - constructor; [assumption | constructor].
  - simpl in Hd. inversion Hd; subst.
    destruct (Py.eqb k0 k); simpl; constructor; auto.
Qed.

Lemma fold_add_NoDup (xs : list str) :
  forall s, NoDup s -> NoDup (fold_left PySet.add xs s).
Proof.
  induction xs as [|x xs IH]; simpl; intros s H; [assumption|].
  apply IH, PySet_add_NoDup, H.
Qed.

Lemma fold_add_In (xs : list str) :
  forall s y, In y (fold_left PySet.add xs s) <-> In y s \/ In y xs.
Proof.
  induction xs as [|x xs IH]; simpl; intros s y.
  - tauto.
  - rewrite IH, PySet_add_In. intuition.
Qed.

(** ** Scanning a directory *)


Lemma gathered_keys (self : DokkFileScanner.t) (fs : FileSystem) (files : list Path) :
  forall results,
    Dict.keys (gathered self fs files results)
    = fold_left PySet.add (filter (yields self fs) files) (Dict.keys results).
Proof.
  induction files as [|f files IH]; intros results.
  - reflexivity.
  - cbn [gathered filter].
    assert (Y : yields self fs f
                = match DokkParserFactory.parse_file
                          (DokkFileScanner.parser_factory self) fs f with
                  | Ok (_ :: _) => true
                  | _ => false
                  end) by reflexivity.
    destruct (DokkParserFactory.parse_file _ fs f) as [[|e es]|err];
      rewrite Y, IH; [reflexivity| |reflexivity].
    simpl. rewrite Dict_keys_set. reflexivity.
Qed.

Lemma gathered_nonempty (self : DokkFileScanner.t) (fs : FileSystem) (files : list Path) :
  forall results,
    Forall (fun v => v <> []) (Dict.values results) ->
    Forall (fun v => v <> [])
      (Dict.values (gathered self fs files results)).
Proof.
  induction files as [|f files IH]; intros results H.
  - exact H.
  - cbn [gathered].
    destruct (DokkParserFactory.parse_file _ fs f) as [[|e es]|err];
      apply IH; try assumption.
    apply Dict_set_values_Forall; [assumption | discriminate].
Qed.

Lemma scan_loop_returns (self : DokkFileScanner.t) (fs : FileSystem)
    (files : list Path) :
  forall results out,
    Forall (printable fs) (warnings self fs files) ->
    DokkFileScanner.scan_loop self fs files results out
    = (Ok (gathered self fs files results), out ++ warnings self fs files).
Proof.
  unfold warnings.
  induction files as [|f files IH]; intros results out P.
  - cbn [DokkFileScanner.scan_loop gathered flat_map]. rewrite app_nil_r.
    reflexivity.
  - cbn [DokkFileScanner.scan_loop gathered flat_map] in *.
    destruct (DokkParserFactory.parse_file _ fs f) as [[|e es]|err].
    + apply IH, P.
    + apply IH, P.
    + cbn [app] in P. inversion P as [|? ? P1 P2]; subst.
      unfold printable, warning in P1. rewrite P1.
      rewrite (IH _ _ P2), <- app_assoc. reflexivity.
Qed.

Lemma scan_loop_Ok (self : DokkFileScanner.t) (fs : FileSystem)
    (files : list Path) :
  forall results out returned out',
    DokkFileScanner.scan_loop self fs files results out = (Ok returned, out') ->
    Forall (printable fs) (warnings self fs files).
Proof.
  unfold warnings.
  induction files as [|f files IH]; intros results out returned out' E.
  - constructor.
  - cbn [DokkFileScanner.scan_loop flat_map] in *.
    destruct (DokkParserFactory.parse_file _ fs f) as [[|e es]|err].
    + apply (IH _ _ _ _ E).
    + apply (IH _ _ _ _ E).
    + destruct (stdout_error fs _) eqn:W; [discriminate E|].
      constructor; [exact W | apply (IH _ _ _ _ E)].
Qed.

Lemma scan_loop_Raise (self : DokkFileScanner.t) (fs : FileSystem)
    (files : list Path) :
  forall results out e out',
    DokkFileScanner.scan_loop self fs files results out = (Raise e, out') ->
    exists file_path err,
      In file_path files
      /\ DokkParserFactory.parse_file (DokkFileScanner.parser_factory self)
           fs file_path = Raise err
      /\ stdout_error fs (warning file_path err) = Some e.
Proof.
  induction files as [|f files IH]; intros results out e out' E.
  - discriminate E.
  - cbn [DokkFileScanner.scan_loop] in E.
    destruct (DokkParserFactory.parse_file _ fs f) as [[|e0 es]|err] eqn:P.
    + destruct (IH _ _ _ _ E) as (p & err & I & Pp & W).
      exists p, err. split; [right; exact I | auto].
    + destruct (IH _ _ _ _ E) as (p & err & I & Pp & W).
      exists p, err. split; [right; exact I | auto].
    + destruct (stdout_error fs _) as [raised|] eqn:W.
      * injection E as <- _. exists f, err.
        split; [left; reflexivity | auto].
      * destruct (IH _ _ _ _ E) as (p & err' & I & Pp & W').
        exists p, err'. split; [right; exact I | auto].
Qed.

Lemma is_dir_exists (fs : FileSystem) (root_path : Path) :
  is_dir fs root_path = Ok true -> exists_ fs root_path = Ok true.
Proof.
  unfold is_dir, exists_. destruct (stat fs root_path) as [[]| |]; congruence.
Qed.

Lemma scan_directory_is_dir (self : DokkFileScanner.t) (fs : FileSystem)
    (root_path : Path) (recursive : bool) :
  is_dir fs root_path = Ok true ->
  DokkFileScanner.scan_directory self fs root_path recursive
  = DokkFileScanner.scan_loop self fs (candidates fs root_path recursive) [] [].
Proof.
  intros D. unfold DokkFileScanner.scan_directory, candidates.
  rewrite (is_dir_exists _ _ D), D. reflexivity.
Qed.

Lemma scan_directory_not_dir (self : DokkFileScanner.t) (fs : FileSystem)
    (root_path : Path) (recursive : bool) :
  is_dir fs root_path <> Ok true ->
  exists e,
    DokkFileScanner.scan_directory self fs root_path recursive = (Raise e, []).
Proof.
  intros D. unfold DokkFileScanner.scan_directory.
  destruct (exists_ fs root_path) as [[|]|e]; eauto.
  destruct (is_dir fs root_path) as [[|]|e]; eauto. congruence.
Qed.

Lemma scan_directory_Ok (self : DokkFileScanner.t) (fs : FileSystem)
    (root_path : Path) (recursive : bool) (returned : Dict.t (list DokkEntry)) :
  fst (DokkFileScanner.scan_directory self fs root_path recursive) = Ok returned ->
  is_dir fs root_path = Ok true
  /\ Forall (printable fs) (warnings self fs (candidates fs root_path recursive))
  /\ DokkFileScanner.scan_directory self fs root_path recursive
     = (Ok (gathered self fs (candidates fs root_path recursive) []),
        warnings self fs (candidates fs root_path recursive)).
Proof.
  intros E.
  assert (D : is_dir fs root_path = Ok true).
  { destruct (is_dir fs root_path) as [[|]|e] eqn:D; [reflexivity| |];
      (destruct (scan_directory_not_dir self fs root_path recursive) as (e' & R);
       [rewrite D; discriminate | rewrite R in E; discriminate E]). }
  split; [exact D|].
  rewrite (scan_directory_is_dir _ _ _ _ D) in *.
  destruct (DokkFileScanner.scan_loop self fs (candidates fs root_path recursive)
              [] []) as [r out] eqn:L.
  cbn [fst] in E. subst r.
  pose proof (scan_loop_Ok _ _ _ _ _ _ _ L) as P.
  split; [exact P|].
  rewrite <- L. apply (scan_loop_returns self fs _ [] [] P).
Qed.




Example scan_directory_docs :
  fst (DokkFileScanner.scan_directory (DokkFileScanner.__init__ None)
         docs_fs docs false)
  = Ok [(a_dokk, [DokkEntry.make (lit "X") (lit "https://x.test") a_dokk])]
  /\ List.length (snd (DokkFileScanner.scan_directory
                         (DokkFileScanner.__init__ None) docs_fs docs false))
     = 2%nat
  /\ raised (fst (DokkFileScanner.scan_directory (DokkFileScanner.__init__ None)
                    docs_fs a_dokk false)) = true.
Proof. repeat split. Qed.

(** ** The link manager *)

Lemma COLORS_getitem (i : Z) :
  getitem LinkManager.COLORS (i mod len LinkManager.COLORS) = Ok (palette i).
Proof.
  unfold getitem, palette. change (len LinkManager.COLORS) with 7%Z.
  pose proof (Z.mod_pos_bound i 7 ltac:(lia)) as B.
  destruct (i mod 7 <? 0)%Z eqn:E; [apply Z.ltb_lt in E; lia|].
  rewrite E.
  assert (Hn : (Z.to_nat (i mod 7) < 7)%nat) by lia.
  destruct (Z.to_nat (i mod 7)) as [|[|[|[|[|[|[|n]]]]]]]; try reflexivity; lia.
Qed.

Lemma colored_keys (keys : list Path) : forall i, Dict.keys (colored keys i) = keys.
Proof.
  unfold Dict.keys.
  induction keys as [|k keys IH]; intros i; simpl; [reflexivity|].
  f_equal. apply IH.
Qed.

Lemma assign_colors_fresh (keys : list Path) :
  forall i file_colors,
    NoDup keys ->
    (forall k, In k keys -> ~ In k (Dict.keys file_colors)) ->
    LinkManager.assign_colors keys i file_colors
    = (Ok tt, file_colors ++ colored keys i).
Proof.
  induction keys as [|k keys IH]; intros i file_colors ND F.
  - simpl. rewrite app_nil_r. reflexivity.
  - cbn [LinkManager.assign_colors]. rewrite COLORS_getitem.
    inversion ND; subst.
    rewrite Dict_set_fresh by (apply F; left; reflexivity).
    rewrite IH; [simpl; rewrite <- app_assoc; reflexivity | assumption |].
    intros k' Hk'. unfold Dict.keys. rewrite map_app, in_app_iff. simpl.
    intros [H|[H|[]]].
    + apply (F k'); [right; assumption | exact H].
    + subst k'. tauto.
Qed.

Lemma add_entries_fresh (items : list (Path * list DokkEntry)) :
  forall entries_by_file entries,
    NoDup (Dict.keys items) ->
    (forall k, In k (Dict.keys items) -> ~ In k (Dict.keys entries_by_file)) ->
    LinkManager.add_entries items entries_by_file entries
    = (entries_by_file ++ items, entries ++ List.concat (Dict.values items)).
Proof.
  induction items as [|[k v] items IH]; intros by_file entries ND F.
  - simpl. rewrite !app_nil_r. reflexivity.
  - cbn [LinkManager.add_entries]. simpl in ND. inversion ND; subst.
    rewrite Dict_set_fresh by (apply F; left; reflexivity).
    rewrite IH; [simpl; rewrite <- !app_assoc; reflexivity | assumption |].
    intros k' Hk'. unfold Dict.keys. rewrite map_app, in_app_iff. simpl.
    intros [H|[H|[]]].
    + apply (F k'); [right; assumption | exact H].
    + subst k'. tauto.
Qed.

Lemma scanned_NoDup (self : LinkManager.t) (fs : FileSystem) (root_path : Path)
    (recursive : bool) :
  NoDup (Dict.keys (scanned self fs root_path recursive)).
Proof.
  unfold scanned. rewrite gathered_keys. apply fold_add_NoDup. constructor.
Qed.

Lemma scan_for_links_Ok (self : LinkManager.t) (fs : FileSystem)
    (root_path : option Path) (recursive : bool)
    (returned : Dict.t (list DokkEntry)) :
  fst (DokkFileScanner.scan_directory (LinkManager.scanner self) fs
         (scan_root fs root_path) recursive) = Ok returned ->
  LinkManager.scan_for_links self fs root_path recursive
  = (Ok (len (LinkManager._entries
                (loaded self fs (scan_root fs root_path) recursive))),
     warnings (LinkManager.scanner self) fs
       (candidates fs (scan_root fs root_path) recursive),
     loaded self fs (scan_root fs root_path) recursive).
Proof.
  intros E. apply scan_directory_Ok in E. destruct E as (_ & _ & E).
  unfold LinkManager.scan_for_links.
  fold (scan_root fs root_path).
  rewrite E.
  fold (scanned self fs (scan_root fs root_path) recursive).
  pose proof (scanned_NoDup self fs (scan_root fs root_path) recursive) as ND.
  rewrite assign_colors_fresh; [|assumption | intros k _ []].
  unfold Dict.items.
  rewrite add_entries_fresh; [|assumption | intros k _ []].
  reflexivity.
Qed.

Lemma scan_for_links_Raise (self : LinkManager.t) (fs : FileSystem)
    (root_path : option Path) (recursive : bool) (e : exn) :
  fst (DokkFileScanner.scan_directory (LinkManager.scanner self) fs
         (scan_root fs root_path) recursive) = Raise e ->
  LinkManager.scan_for_links self fs root_path recursive
  = (Raise (LinkManager.wrap e),
     snd (DokkFileScanner.scan_directory (LinkManager.scanner self) fs
            (scan_root fs root_path) recursive),
     cleared self (scan_root fs root_path)).
Proof.
  intros E. unfold LinkManager.scan_for_links.
  fold (scan_root fs root_path).
  destruct (DokkFileScanner.scan_directory (LinkManager.scanner self) fs
              (scan_root fs root_path) recursive) as [r out].
  cbn [fst snd] in *. subst r. reflexivity.
Qed.

(** C1, as stated, fails: the scanner raises on a root that does not
    exist, and the manager that held one entry holds none afterwards. *)
Lemma scan_for_links_failure_clears :
  exists_ docs_fs missing = Ok false
  /\ raised (fst (DokkFileScanner.scan_directory
                    (LinkManager.scanner docs_manager) docs_fs missing false))
     = true
  /\ LinkManager._entries docs_manager
     = [DokkEntry.make (lit "X") (lit "https://x.test") a_dokk]
  /\ LinkManager._last_scan_path docs_manager = Some docs
  /\ raised (fst (fst (LinkManager.scan_for_links docs_manager docs_fs
                         (Some missing) false))) = true
  /\ LinkManager._entries
       (snd (LinkManager.scan_for_links docs_manager docs_fs (Some missing) false))
     = []
  /\ LinkManager._last_scan_path
       (snd (LinkManager.scan_for_links docs_manager docs_fs (Some missing) false))
     = Some missing
  /\ snd (LinkManager.scan_for_links docs_manager docs_fs (Some missing) false)
     <> docs_manager.
Proof.
  repeat (split; [reflexivity|]).
  intros E. apply (f_equal LinkManager._entries) in E.
  vm_compute in E. discriminate E.
Qed.

(** C1, as amended.  When the scanner raises on the root, [scan_for_links]
    raises a RuntimeError that carries the scanner's message, and the
    manager is reset rather than kept: no entries, no files, no colours,
    and the root of the failed scan as the last scanned path. *)
Theorem scan_for_links_failure (self : LinkManager.t) (fs : FileSystem)
    (root_path : option Path) (recursive : bool) (e : exn) (out : stdout) :
  DokkFileScanner.scan_directory (LinkManager.scanner self) fs
    (scan_root fs root_path) recursive = (Raise e, out) ->
  LinkManager.scan_for_links self fs root_path recursive
  = (Raise (RuntimeError (lit "Errore durante la scansione: " ++ exn_str e)),
     out,
     cleared self (scan_root fs root_path)).
Proof.
  intros E. unfold LinkManager.scan_for_links.
  fold (scan_root fs root_path). rewrite E. reflexivity.
Qed.

Lemma scan_for_links_failure_witness :
  LinkManager.scan_for_links docs_manager docs_fs (Some missing) false
  = (Raise (RuntimeError (lit "Errore durante la scansione: "
                          ++ lit "Directory non trovata: /missing")),
     [],
     cleared docs_manager missing).
Proof.
  apply (scan_for_links_failure docs_manager docs_fs (Some missing) false
           (FileNotFoundError (lit "Directory non trovata: /missing")) []).
  reflexivity.
Defined.

(** ** Colours *)

Lemma palette_nth_error (j : nat) :
  nth_error LinkManager.COLORS (j mod List.length LinkManager.COLORS)
  = Some (palette (Z.of_nat j)).
Proof.
  unfold palette. change (len LinkManager.COLORS) with 7%Z.
  change (List.length LinkManager.COLORS) with 7%nat.
  replace (Z.to_nat (Z.of_nat j mod 7)) with (j mod 7)%nat.
  - pose proof (Nat.mod_upper_bound j 7 ltac:(lia)) as B.
    destruct (j mod 7)%nat as [|[|[|[|[|[|[|n]]]]]]]; try reflexivity; lia.
  - change 7%Z with (Z.of_nat 7). rewrite <- Nat2Z.inj_mod, Nat2Z.id. reflexivity.
Qed.

Lemma colored_get (keys : list Path) :
  forall i j k,
    NoDup keys -> nth_error keys j = Some k ->
    Dict.get (colored keys i) k = Some (palette (i + Z.of_nat j)).
Proof.
  induction keys as [|k0 keys IH]; intros i j k ND Hn.
  - destruct j; discriminate.
  - inversion ND; subst. destruct j as [|j]; simpl in Hn |- *.
    + inversion Hn; subst. rewrite eqb_refl. f_equal. f_equal. lia.
    + destruct (Py.eqb k0 k) eqn:E.
      * apply eqb_eq in E; subst. apply nth_error_In in Hn. tauto.
      * rewrite (IH (i + 1)%Z j k) by assumption. f_equal. f_equal. lia.
Qed.

(** C9.  After a scan that returns, the files of the mapping are the
    candidates that yielded entries, in the order they were first seen; the
    file at position [i] (from 0) has the colour at position [i] modulo the
    length of the palette, and [get_file_color] gives the empty string on
    every path that is not a key of the mapping. *)
Theorem scan_for_links_colors (self : LinkManager.t) (fs : FileSystem)
    (root_path : option Path) (recursive : bool) (n : Z) :
  fst (fst (LinkManager.scan_for_links self fs root_path recursive)) = Ok n ->
  Dict.keys (LinkManager._entries_by_file
               (snd (LinkManager.scan_for_links self fs root_path recursive)))
  = first_seen (filter (yields (LinkManager.scanner self) fs)
                  (candidates fs (scan_root fs root_path) recursive))
  /\ (forall i file_path,
         nth_error
           (Dict.keys (LinkManager._entries_by_file
              (snd (LinkManager.scan_for_links self fs root_path recursive)))) i
         = Some file_path ->
         nth_error LinkManager.COLORS (i mod List.length LinkManager.COLORS)
         = Some (LinkManager.get_file_color
                   (snd (LinkManager.scan_for_links self fs root_path recursive))
                   file_path))
  /\ (forall file_path,
         Dict.get (LinkManager._entries_by_file
                     (snd (LinkManager.scan_for_links self fs root_path recursive)))
           file_path = None ->
         LinkManager.get_file_color
           (snd (LinkManager.scan_for_links self fs root_path recursive))
           file_path = []).
Proof.
  intros E.
  destruct (fst (DokkFileScanner.scan_directory (LinkManager.scanner self) fs
              (scan_root fs root_path) recursive)) as [returned|err] eqn:D.
  2:{ rewrite (scan_for_links_Raise _ _ _ _ _ D) in E. discriminate E. }
  rewrite (scan_for_links_Ok _ _ _ _ _ D). clear E.
  pose proof (scanned_NoDup self fs (scan_root fs root_path) recursive) as ND.
  unfold LinkManager.get_file_color.
  cbn [snd loaded LinkManager._entries_by_file LinkManager._file_colors].
  split; [|split].
  - unfold scanned. rewrite gathered_keys. reflexivity.
  - intros i file_path Hn. rewrite palette_nth_error.
    rewrite (colored_get _ 0 i file_path ND Hn). reflexivity.
  - intros file_path Hg. apply Dict_get_None in Hg.
    assert (G : Dict.get (colored (Dict.keys (scanned self fs
                  (scan_root fs root_path) recursive)) 0) file_path = None).
    { apply Dict_get_None. rewrite colored_keys. assumption. }
    rewrite G. reflexivity.
Qed.

Lemma scan_for_links_colors_witness :
  nth_error LinkManager.COLORS 1
  = Some (LinkManager.get_file_color nine_manager (lit "/nine/i.dokk"))
  /\ LinkManager.get_file_color nine_manager a_dokk = [].
Proof.
  assert (E : fst (fst (LinkManager.scan_for_links (LinkManager.__init__ None)
                          nine_fs None true)) = Ok 9%Z)
    by (vm_compute; reflexivity).
  destruct (scan_for_links_colors (LinkManager.__init__ None) nine_fs None true
              9 E) as (_ & C & N).
  split.
  - apply (C 8%nat (lit "/nine/i.dokk")). vm_compute. reflexivity.
  - apply N. vm_compute. reflexivity.
Defined.

(** ** Lookup by index and filtering *)

Lemma getitem_nonneg {A} (l : list A) (i : Z) :
  (0 <= i)%Z ->
  getitem l i = match nth_error l (Z.to_nat i) with
                | Some x => Ok x
                | None => Raise (IndexError (lit "list index out of range"))
                end.
Proof.
  intros H. unfold getitem.
  destruct (i <? 0)%Z eqn:E; [apply Z.ltb_lt in E; lia|].
  rewrite E. reflexivity.
Qed.

(** C8.  [get_entry_by_index] never raises; it returns an entry exactly
    when the index is between 1 and the number of entries, and that entry
    is the one at position index - 1 of the list; on every other index it
    returns None, in particular on 0 and on the number of entries plus
    one. *)
Theorem get_entry_by_index_spec (self : LinkManager.t) (index : Z) :
  (forall entry,
      LinkManager.get_entry_by_index self index = Ok (Some entry)
      <-> (1 <= index <= len (LinkManager._entries self))%Z
          /\ nth_error (LinkManager._entries self) (Z.to_nat (index - 1))
             = Some entry)
  /\ (LinkManager.get_entry_by_index self index = Ok None
      <-> ~ (1 <= index <= len (LinkManager._entries self))%Z)
  /\ (exists r, LinkManager.get_entry_by_index self index = Ok r)
  /\ LinkManager.get_entry_by_index self 0 = Ok None
  /\ LinkManager.get_entry_by_index self (len (LinkManager._entries self) + 1)
     = Ok None.
Proof.
  assert (R : forall i,
             (1 <= i <= len (LinkManager._entries self))%Z ->
             exists entry,
               nth_error (LinkManager._entries self) (Z.to_nat (i - 1)) = Some entry
               /\ LinkManager.get_entry_by_index self i = Ok (Some entry)).
  { intros i Hi. unfold LinkManager.get_entry_by_index.
    replace ((1 <=? i) && (i <=? len (LinkManager._entries self)))%Z with true
      by (symmetry; apply andb_true_iff; split; apply Z.leb_le; lia).
    rewrite getitem_nonneg by lia.
    destruct (nth_error (LinkManager._entries self) (Z.to_nat (i - 1)))
      as [entry|] eqn:E.
    - exists entry. split; reflexivity.
    - apply nth_error_None in E. unfold len in Hi. lia. }
  assert (O : forall i,
             ~ (1 <= i <= len (LinkManager._entries self))%Z ->
             LinkManager.get_entry_by_index self i = Ok None).
  { intros i Hi. unfold LinkManager.get_entry_by_index.
    replace ((1 <=? i) && (i <=? len (LinkManager._entries self)))%Z with false;
      [reflexivity|].
    symmetry. apply andb_false_iff.
    destruct (Z_le_dec 1 i); [right | left]; apply Z.leb_gt; lia. }
  assert (D : (1 <= index <= len (LinkManager._entries self))%Z
              \/ ~ (1 <= index <= len (LinkManager._entries self))%Z) by lia.
  split; [|split; [|split; [|split]]].
  - intros entry. split.
    + intros H. destruct D as [D|D].
      * destruct (R index D) as (entry' & Hn & Hg).
        rewrite Hg in H. inversion H; subst. split; assumption.
      * rewrite (O index D) in H. discriminate H.
    + intros [Hr Hn]. destruct (R index Hr) as (entry' & Hn' & Hg). congruence.
  - split.
    + intros H Hr. destruct (R index Hr) as (entry & _ & Hg). congruence.
    + apply O.
  - destruct D as [D|D].
    + destruct (R index D) as (entry & _ & Hg). eauto.
    + rewrite (O index D). eauto.
  - apply O. lia.
  - apply O. lia.
Qed.

Example get_entry_by_index_docs :
  LinkManager.get_entry_by_index docs_manager 1
  = Ok (Some (DokkEntry.make (lit "X") (lit "https://x.test") a_dokk))
  /\ LinkManager.get_entry_by_index docs_manager 0 = Ok None
  /\ LinkManager.get_entry_by_index docs_manager 2 = Ok None
  /\ LinkManager.get_entry_by_index docs_manager (-1) = Ok None.
Proof. repeat split. Qed.

Lemma filter_all {A} (p : A -> bool) (l : list A) :
  (forall x, p x = true) -> filter p l = l.
Proof.
  intros H. induction l as [|x l IH]; simpl; [reflexivity|].
  rewrite H, IH. reflexivity.
Qed.

(** C10.  [filter_entries] with the empty search term returns all the
    entries, in their order: the empty string is in every lower-cased
    description. *)
Theorem filter_entries_empty `{PyLib} (self : LinkManager.t) :
  LinkManager.filter_entries self [] = LinkManager.get_all_entries self.
Proof.
  unfold LinkManager.filter_entries, LinkManager.get_all_entries.
  rewrite lower_nil. apply filter_all. intros entry. apply contains_nil.
Qed.

Example filter_entries_docs :
  LinkManager.filter_entries docs_manager (lit "x")
  = [DokkEntry.make (lit "X") (lit "https://x.test") a_dokk]
  /\ LinkManager.filter_entries docs_manager (lit "y") = []
  /\ LinkManager.filter_entries docs_manager [] = LinkManager._entries docs_manager.
Proof. repeat split. Qed.

(** ** The states of the manager *)

Lemma scan_for_links_consistent (self : LinkManager.t) (fs : FileSystem)
    (root_path : option Path) (recursive : bool) :
  consistent (snd (LinkManager.scan_for_links self fs root_path recursive)).
Proof.
  destruct (fst (DokkFileScanner.scan_directory (LinkManager.scanner self) fs
              (scan_root fs root_path) recursive)) as [returned|err] eqn:D.
  - rewrite (scan_for_links_Ok _ _ _ _ _ D). cbn [snd].
    unfold consistent, loaded; cbn. repeat split.
    + apply gathered_nonempty. constructor.
    + apply scanned_NoDup.
    + apply colored_keys.
  - rewrite (scan_for_links_Raise _ _ _ _ _ D). cbn [snd].
    unfold consistent, cleared; cbn. repeat split; constructor.
Qed.

Lemma reachable_consistent `{PyLib} (self : LinkManager.t) :
  reachable self -> consistent self.
Proof.
  intros R. destruct R.
  - unfold consistent; cbn. repeat split; constructor.
  - apply scan_for_links_consistent.
Qed.

Lemma consistent_empty (self : LinkManager.t) :
  consistent self -> LinkManager._entries self = [] ->
  LinkManager._entries_by_file self = [].
Proof.
  intros (E & F & _) H. rewrite E in H.
  destruct (LinkManager._entries_by_file self) as [|[k v] d]; [reflexivity|].
  simpl in *. inversion F; subst.
  destruct v; [congruence | discriminate].
Qed.

(** ** Statistics *)

Lemma collect_domains_fold `{PyLib} (entries : list DokkEntry) :
  forall domains,
    fold_left
      (fun domains entry =>
         match urllib.urlparse (DokkEntry.url entry) with
         | Ok parsed =>
             if negb (is_empty (urllib.netloc parsed))
             then PySet.add domains (lower (urllib.netloc parsed))
             else domains
         | Raise _ => domains
         end)
      entries domains
    = fold_left PySet.add (flat_map domain_of entries) domains.
Proof.
  induction entries as [|entry entries IH]; intros domains; [reflexivity|].
  cbn [fold_left flat_map]. rewrite fold_left_app, IH. f_equal.
  unfold domain_of.
  destruct (urllib.urlparse (DokkEntry.url entry)) as [parsed|e]; [|reflexivity].
  destruct (is_empty (urllib.netloc parsed)); reflexivity.
Qed.

Lemma first_seen_length (xs : list str) :
  List.length (fold_left PySet.add xs []) = List.length (nodup str_eq_dec xs).
Proof.
  apply Nat.le_antisymm; apply NoDup_incl_length.
  - apply fold_add_NoDup. constructor.
  - intros y Hy. apply fold_add_In in Hy as [[]|Hy]. apply nodup_In; assumption.
  - apply NoDup_nodup.
  - intros y Hy. apply nodup_In in Hy. apply fold_add_In. right; assumption.
Qed.

Lemma collect_domains_length `{PyLib} (entries : list DokkEntry) :
  List.length (LinkManager.collect_domains entries) = distinct_domains entries.
Proof.
  unfold LinkManager.collect_domains, distinct_domains.
  rewrite collect_domains_fold. apply first_seen_length.
Qed.

Lemma get_statistics_empty `{PyLib} (self : LinkManager.t) :
  LinkManager._entries self = [] -> LinkManager.get_statistics self = no_links.
Proof.
  intros E. unfold LinkManager.get_statistics. rewrite E. reflexivity.
Qed.

Lemma total_links_len `{PyLib} (self : LinkManager.t) :
  LinkManager.total_links (LinkManager.get_statistics self)
  = len (LinkManager._entries self).
Proof.
  unfold LinkManager.get_statistics.
  destruct (LinkManager._entries self); reflexivity.
Qed.

Lemma scan_for_links_none (self : LinkManager.t) (fs : FileSystem)
    (root_path : option Path) (recursive : bool) :
  fst (fst (LinkManager.scan_for_links self fs root_path recursive)) = Ok 0%Z ->
  LinkManager._entries
    (snd (LinkManager.scan_for_links self fs root_path recursive)) = [].
Proof.
  destruct (fst (DokkFileScanner.scan_directory (LinkManager.scanner self) fs
              (scan_root fs root_path) recursive)) as [returned|err] eqn:D.
  - rewrite (scan_for_links_Ok _ _ _ _ _ D). cbn [fst snd].
    destruct (LinkManager._entries (loaded self fs (scan_root fs root_path)
                                      recursive)); [reflexivity|].
    intros E. injection E as E. unfold len in E. simpl in E. lia.
  - rewrite (scan_for_links_Raise _ _ _ _ _ D). reflexivity.
Qed.

(** C6, as stated, fails: the domains counted are network locations, not
    hosts.  Three urls on one host, one plain, one with a port and one with
    user information, count as three domains; and a url that has a port
    and no host counts as one. *)
Lemma get_statistics_counts_netlocs :
  List.map DokkEntry.url (LinkManager._entries ports_manager)
  = [lit "https://example.com"; lit "https://example.com:443";
     lit "https://user@EXAMPLE.com"]
  /\ flat_map host_of (LinkManager._entries ports_manager)
     = [lit "example.com"; lit "example.com"; lit "example.com"]
  /\ distinct_hosts (LinkManager._entries ports_manager) = 1%nat
  /\ LinkManager.unique_domains (LinkManager.get_statistics ports_manager) = 3%Z
  /\ List.map DokkEntry.url (LinkManager._entries port_only_manager)
     = [lit "https://:443/x"]
  /\ distinct_hosts (LinkManager._entries port_only_manager) = 0%nat
  /\ LinkManager.unique_domains (LinkManager.get_statistics port_only_manager)
     = 1%Z.
Proof. repeat split. Qed.

(** C6, as amended.  On every manager the program can hold,
    [get_statistics] gives the number of entries, the number of files of
    the mapping, and the number of distinct lower-cased network locations
    that [urlparse] finds in the urls of the entries, user information and
    port included; an entry whose url has none, or on which [urlparse]
    raises, adds no domain and is still counted as a link.  The three
    numbers are 0 on a new manager and on every manager without entries,
    which is what a scan that finds nothing leaves. *)
Theorem get_statistics_spec `{PyLib} (self : LinkManager.t) :
  reachable self ->
  LinkManager.total_links (LinkManager.get_statistics self)
  = len (LinkManager._entries self)
  /\ LinkManager.total_files (LinkManager.get_statistics self)
     = len (LinkManager._entries_by_file self)
  /\ LinkManager.unique_domains (LinkManager.get_statistics self)
     = Z.of_nat (distinct_domains (LinkManager._entries self))
  /\ (forall entry,
         In entry (LinkManager._entries self) ->
         (forall parsed,
             urllib.urlparse (DokkEntry.url entry) = Ok parsed ->
             urllib.netloc parsed = []) ->
         domain_of entry = [])
  /\ (LinkManager._entries self = [] -> LinkManager.get_statistics self = no_links)
  /\ (forall parser_factory,
         LinkManager.get_statistics (LinkManager.__init__ parser_factory) = no_links)
  /\ (forall fs root_path recursive,
         fst (fst (LinkManager.scan_for_links self fs root_path recursive)) = Ok 0%Z ->
         LinkManager.get_statistics
           (snd (LinkManager.scan_for_links self fs root_path recursive))
         = no_links).
Proof.
  intros R. pose proof (reachable_consistent self R) as C.
  split; [|split; [|split; [|split; [|split; [|split]]]]].
  - apply total_links_len.
  - unfold LinkManager.get_statistics.
    destruct (LinkManager._entries self) eqn:E; [|reflexivity].
    rewrite (consistent_empty self C E). reflexivity.
  - unfold LinkManager.get_statistics.
    destruct (LinkManager._entries self) eqn:E; [reflexivity|].
    cbn [LinkManager.unique_domains]. unfold len.
    rewrite collect_domains_length. reflexivity.
  - intros entry _ Hp. unfold domain_of.
    destruct (urllib.urlparse (DokkEntry.url entry)) as [parsed|e];
      [|reflexivity].
    rewrite (Hp parsed eq_refl). reflexivity.
  - apply get_statistics_empty.
  - intros parser_factory. reflexivity.
  - intros fs root_path recursive Hs.
    apply get_statistics_empty, scan_for_links_none, Hs.
Qed.

Lemma get_statistics_spec_witness :
  LinkManager.total_links (LinkManager.get_statistics docs_manager) = 1%Z
  /\ LinkManager.total_files (LinkManager.get_statistics docs_manager) = 1%Z
  /\ LinkManager.unique_domains (LinkManager.get_statistics docs_manager) = 1%Z.
Proof.
  destruct (get_statistics_spec docs_manager
              (reachable_scan (LinkManager.__init__ None) docs_fs (Some docs)
                 false (reachable_init None)))
    as (A & B & C & _).
  rewrite A, B, C. repeat split.
Defined.

Example get_statistics_two :
  LinkManager.get_statistics two_manager
  = {| LinkManager.total_links := 4;
       LinkManager.total_files := 2;
       LinkManager.unique_domains := 2 |}
  /\ LinkManager.get_statistics (LinkManager.__init__ None) = no_links.
Proof. split; reflexivity. Qed.

(** ** The JSON export *)

Lemma flattened_entries_length (self : LinkManager.t) :
  List.length (flattened_entries (LinkManager._export_to_json self))
  = List.length (List.concat (Dict.values (LinkManager._entries_by_file self))).
Proof.
  unfold flattened_entries, LinkManager._export_to_json, Dict.items, Dict.values.
  cbn [json_get List.find fst snd json_elements].
  change (Py.eqb (lit "scan_info") (lit "files")) with false.
  change (Py.eqb (lit "files") (lit "files")) with true.
  cbn [json_elements].
  induction (LinkManager._entries_by_file self) as [|[k v] d IH].
  - reflexivity.
  - cbn [List.map flat_map List.concat snd].
    rewrite !length_app, IH. f_equal.
    cbn [json_get List.find fst snd].
    change (Py.eqb (lit "file_path") (lit "entries")) with false.
    change (Py.eqb (lit "entries") (lit "entries")) with true.
    cbn [json_elements]. apply length_map.
Qed.

(** C7.  On every manager the program can hold, the entries of all the
    files of the exported document, flattened, are as many as the
    total_links of [get_statistics], and that number is the total_entries
    of the document's scan_info. *)
Theorem export_json_total `{PyLib} (self : LinkManager.t) :
  reachable self ->
  len (flattened_entries (LinkManager._export_to_json self))
  = LinkManager.total_links (LinkManager.get_statistics self)
  /\ total_entries_field (LinkManager._export_to_json self)
     = Some (JInt (LinkManager.total_links (LinkManager.get_statistics self))).
Proof.
  intros R. destruct (reachable_consistent self R) as (E & _).
  rewrite total_links_len. split.
  - unfold len. rewrite flattened_entries_length, <- E. reflexivity.
  - reflexivity.
Qed.

Lemma export_json_total_witness :
  len (flattened_entries (LinkManager._export_to_json two_manager)) = 4%Z
  /\ total_entries_field (LinkManager._export_to_json two_manager)
     = Some (JInt 4).
Proof.
  destruct (export_json_total two_manager
              (reachable_scan (LinkManager.__init__ None) two_fs None false
                 (reachable_init None)))
    as (A & B).
  rewrite A, B. split; reflexivity.
Defined.

(** ** Validation of the loaded links *)

Lemma urlsplit_http `{PyLib} (rest : str) :
  urllib.urlsplit (lit "http://" ++ rest) = split_result (lit "http") rest.
Proof.
  unfold urllib.urlsplit, split_result, netloc_after, unsafe_removed.
  cbv zeta.
  change (dropwhile urllib.is_c0_control_or_space (lit "http://" ++ rest))
    with (lit "http://" ++ rest).
  change (remove_char TAB (lit "http://" ++ rest))
    with (lit "http://" ++ remove_char TAB rest).
  change (remove_char CR (lit "http://" ++ remove_char TAB rest))
    with (lit "http://" ++ remove_char CR (remove_char TAB rest)).
  change (remove_char LF (lit "http://" ++ remove_char CR (remove_char TAB rest)))
    with (lit "http://" ++ remove_char LF (remove_char CR (remove_char TAB rest))).
  set (r := remove_char LF (remove_char CR (remove_char TAB rest))).
  change (find (lit "http://" ++ r) COLON) with 4%Z.
  change (lit "http://" ++ r) with (104%N :: lit "ttp://" ++ r).
  cbv iota beta.
  change (slice_to (104%N :: lit "ttp://" ++ r) 4) with (lit "http").
  change (slice_from (104%N :: lit "ttp://" ++ r) (4 + 1)) with (lit "//" ++ r).
  change ((0 <? 4)%Z && urllib.is_ascii_alpha 104%N
          && forallb (has_char urllib.scheme_chars) (lit "http")) with true.
  cbv iota beta.
  rewrite (lower_ascii (lit "http") eq_refl).
  change (List.map ascii_lower_char (lit "http")) with (lit "http").
  change (Py.eqb (slice_to (lit "//" ++ r) 2) (lit "//")) with true.
  cbv iota beta.
  destruct (urllib._splitnetloc (lit "//" ++ r) 2) as [netloc url']. reflexivity.
Qed.

Lemma urlsplit_https `{PyLib} (rest : str) :
  urllib.urlsplit (lit "https://" ++ rest) = split_result (lit "https") rest.
Proof.
  unfold urllib.urlsplit, split_result, netloc_after, unsafe_removed.
  cbv zeta.
  change (dropwhile urllib.is_c0_control_or_space (lit "https://" ++ rest))
    with (lit "https://" ++ rest).
  change (remove_char TAB (lit "https://" ++ rest))
    with (lit "https://" ++ remove_char TAB rest).
  change (remove_char CR (lit "https://" ++ remove_char TAB rest))
    with (lit "https://" ++ remove_char CR (remove_char TAB rest)).
  change (remove_char LF (lit "https://" ++ remove_char CR (remove_char TAB rest)))
    with (lit "https://" ++ remove_char LF (remove_char CR (remove_char TAB rest))).
  set (r := remove_char LF (remove_char CR (remove_char TAB rest))).
  change (find (lit "https://" ++ r) COLON) with 5%Z.
  change (lit "https://" ++ r) with (104%N :: lit "ttps://" ++ r).
  cbv iota beta.
  change (slice_to (104%N :: lit "ttps://" ++ r) 5) with (lit "https").
  change (slice_from (104%N :: lit "ttps://" ++ r) (5 + 1)) with (lit "//" ++ r).
  change ((0 <? 5)%Z && urllib.is_ascii_alpha 104%N
          && forallb (has_char urllib.scheme_chars) (lit "https")) with true.
  cbv iota beta.
  rewrite (lower_ascii (lit "https") eq_refl).
  change (List.map ascii_lower_char (lit "https")) with (lit "https").
  change (Py.eqb (slice_to (lit "//" ++ r) 2) (lit "//")) with true.
  cbv iota beta.
  destruct (urllib._splitnetloc (lit "//" ++ r) 2) as [netloc url']. reflexivity.
Qed.

Lemma constructed_url (entry : DokkEntry) :
  constructed entry -> http_or_https (DokkEntry.url entry).
Proof.
  intros (d & u & f & E). unfold DokkEntry.__init__, bind in E.
  destruct (DokkEntry._validate _) as [[]|e] eqn:V; [|discriminate].
  inversion E; subst. apply validate_ok in V. simpl in V. tauto.
Qed.

(** On the url of a constructed entry [urlparse] raises, or returns with
    the scheme http or https. *)
Lemma urlparse_constructed `{PyLib} (entry : DokkEntry) :
  constructed entry ->
  (exists msg, urllib.urlparse (DokkEntry.url entry) = Raise (ValueError msg))
  \/ (exists parsed,
         urllib.urlparse (DokkEntry.url entry) = Ok parsed
         /\ (urllib.scheme parsed = lit "http" \/ urllib.scheme parsed = lit "https")).
Proof.
  intros C. unfold urllib.urlparse.
  destruct (constructed_url entry C) as [[rest ->]|[rest ->]];
    [rewrite urlsplit_http | rewrite urlsplit_https];
    unfold split_result;
    destruct (if is_empty (netloc_after rest) then None
              else netloc_error (netloc_after rest)) as [msg|];
    eauto.
Qed.

Lemma validate_link_constructed `{PyLib} (entry : DokkEntry) :
  constructed entry ->
  (LinkManager.validate_link entry = None <-> has_netloc entry)
  /\ (forall item,
         LinkManager.validate_link entry = Some item ->
         snd item <> lit "Schema URL non valido").
Proof.
  intros C. unfold LinkManager.validate_link, has_netloc.
  destruct (urlparse_constructed entry C) as [[msg E]|(parsed & E & S)]; rewrite E.
  - split.
    + split; [discriminate | intros (p & Hp & _); discriminate].
    + intros item I. inversion I; subst. simpl. discriminate.
  - assert (Hs : is_empty (urllib.scheme parsed)
                 || negb (str_in (urllib.scheme parsed) [lit "http"; lit "https"])
                 = false)
      by (destruct S as [-> | ->]; reflexivity).
    rewrite Hs. destruct (urllib.netloc parsed) as [|c n] eqn:N; simpl.
    + split.
      * split; [discriminate|]. intros (p & Hp & Hn).
        inversion Hp; subst. congruence.
      * intros item I. inversion I; subst. simpl. discriminate.
    + split.
      * split; [|reflexivity]. intros _. exists parsed.
        split; [reflexivity | congruence].
      * discriminate.
Qed.

Lemma validate_all_links_fold `{PyLib} (entries : list DokkEntry) :
  forall invalid_links,
    fold_left
      (fun invalid_links entry =>
         match LinkManager.validate_link entry with
         | Some item => invalid_links ++ [item]
         | None => invalid_links
         end)
      entries invalid_links
    = invalid_links
      ++ flat_map (fun entry =>
                     match LinkManager.validate_link entry with
                     | Some item => [item]
                     | None => []
                     end) entries.
Proof.
  induction entries as [|entry entries IH]; intros invalid_links; simpl.
  - rewrite app_nil_r. reflexivity.
  - rewrite IH. destruct (LinkManager.validate_link entry).
    + rewrite <- app_assoc. reflexivity.
    + reflexivity.
Qed.

Lemma validate_all_links_netloc `{PyLib} (self : LinkManager.t) :
  Forall constructed (LinkManager._entries self) ->
  (forall entry reason,
      In (entry, reason) (LinkManager.validate_all_links self) ->
      reason <> lit "Schema URL non valido")
  /\ (LinkManager.validate_all_links self = []
      <-> Forall has_netloc (LinkManager._entries self)).
Proof.
  unfold LinkManager.validate_all_links. rewrite validate_all_links_fold.
  cbn [app]. induction (LinkManager._entries self) as [|e es IH]; intros F.
  - split; [intros ? ? [] | split; constructor].
  - inversion F as [|? ? Ce Fes]; subst.
    destruct (IH Fes) as (IH1 & IH2).
    destruct (validate_link_constructed e Ce) as (V1 & V2).
    cbn [flat_map]. split.
    + intros entry reason I. apply in_app_iff in I as [I|I].
      * destruct (LinkManager.validate_link e) as [item|]; [|destruct I].
        destruct I as [I|[]]. pose proof (V2 _ eq_refl) as X.
        rewrite I in X. exact X.
      * apply (IH1 entry reason I).
    + split.
      * intros E. apply app_eq_nil in E as [E1 E2]. constructor.
        -- apply V1. destruct (LinkManager.validate_link e); [discriminate|reflexivity].
        -- apply IH2, E2.
      * intros G. inversion G as [|? ? Ge Ges]; subst.
        apply V1 in Ge. rewrite Ge. apply IH2, Ges.
Qed.


(** ** The entries a scan loads *)

Lemma parse_lines_constructed (file_path : Path) (lines : list str) :
  forall line_number entries result,
    Forall constructed entries ->
    StandardDokkParser.parse_lines file_path lines line_number entries = Ok result ->
    Forall constructed result.
Proof.
  induction lines as [|l lines IH]; intros n entries result F E.
  - simpl in E. inversion E; subst; assumption.
  - rewrite parse_lines_cons in E.
    destruct (is_empty (strip l) || startswith (strip l) (lit "#")).
    + eapply IH; eassumption.
    + destruct (StandardDokkParser.PATTERN_match (strip l)) as [[d u]|];
        [|discriminate].
      destruct (DokkEntry.__init__ d u file_path) as [entry|e] eqn:I.
      * eapply IH; [|eassumption].
        apply Forall_app. split; [assumption|].
        constructor; [|constructor]. exists d, u, file_path. exact I.
      * destruct e; discriminate.
Qed.

Lemma parse_constructed (fs : FileSystem) (file_path : Path)
    (entries : list DokkEntry) :
  StandardDokkParser.parse fs file_path = Ok entries -> Forall constructed entries.
Proof.
  intros E. apply parse_Ok_readable in E. destruct E as (content & _ & E).
  revert E. apply parse_lines_constructed. constructor.
Qed.

Lemma gathered_constructed `{PyLib} (fs : FileSystem) (files : list Path) :
  forall results,
    Forall (Forall constructed) (Dict.values results) ->
    Forall (Forall constructed)
      (Dict.values (gathered (DokkFileScanner.__init__ None) fs files results)).
Proof.
  induction files as [|f files IH]; intros results F.
  - exact F.
  - cbn [gathered].
    destruct (DokkParserFactory.parse_file _ fs f) as [[|e es]|err] eqn:P;
      apply IH; try assumption.
    apply Dict_set_values_Forall; [assumption|].
    cbn in P. unfold DokkParserFactory.parse_file, DokkParserFactory.create_parser in P.
    cbn in P. destruct (StandardDokkParser.can_handle f); [|discriminate].
    cbn in P. apply parse_constructed in P. exact P.
Qed.

(** With the standard parser, every entry a scan loads came out of entry
    construction. *)
Lemma scan_for_links_constructed `{PyLib} (self : LinkManager.t) (fs : FileSystem)
    (root_path : option Path) (recursive : bool) :
  LinkManager.scanner self = DokkFileScanner.__init__ None ->
  Forall constructed
    (LinkManager._entries
       (snd (LinkManager.scan_for_links self fs root_path recursive))).
Proof.
  intros S. destruct (fst (DokkFileScanner.scan_directory (LinkManager.scanner self) fs
              (scan_root fs root_path) recursive)) as [returned|err] eqn:D.
  - rewrite (scan_for_links_Ok _ _ _ _ _ D). cbn [snd loaded LinkManager._entries].
    unfold scanned. rewrite S.
    pose proof (gathered_constructed fs
                  (candidates fs (scan_root fs root_path) recursive) []
                  (Forall_nil _)) as F.
    induction F as [|v vs Hv _ IH]; simpl; [constructor|].
    apply Forall_app. split; assumption.
  - rewrite (scan_for_links_Raise _ _ _ _ _ D). constructor.
Qed.

(** ** The network location of a url *)

Lemma takewhile_length_le (p : char -> bool) (r : str) :
  (List.length (takewhile p r) <= List.length r)%nat.
Proof.
  induction r as [|x r IH]; simpl; [lia|]. destruct (p x); simpl; lia.
Qed.

Lemma firstn_takewhile (p : char -> bool) (r : str) :
  firstn (List.length (takewhile p r)) r = takewhile p r.
Proof.
  induction r as [|x r IH]; simpl; [reflexivity|].
  destruct (p x); simpl; [rewrite IH|]; reflexivity.
Qed.

Lemma find_from_spec (r : str) (c : char) :
  forall pos,
    find_from r c pos
    = if has_char r c
      then (pos + Z.of_nat (List.length (takewhile (fun x => negb (x =? c)%N) r)))%Z
      else (-1)%Z.
Proof.
  unfold has_char.
  induction r as [|d r IH]; intros pos; simpl; [reflexivity|].
  rewrite (N.eqb_sym c d). destruct (d =? c)%N; simpl.
  - lia.
  - rewrite IH. destruct (existsb (N.eqb c) r); lia.
Qed.

Lemma takewhile_absent (r : str) (c : char) :
  has_char r c = false ->
  List.length (takewhile (fun x => negb (x =? c)%N) r) = List.length r.
Proof.
  unfold has_char.
  induction r as [|d r IH]; simpl; [reflexivity|].
  rewrite (N.eqb_sym c d). destruct (d =? c)%N; simpl; [discriminate|].
  intros H. rewrite IH by assumption. reflexivity.
Qed.

Lemma is_delimiter_eq (x : char) :
  is_delimiter x = ((x =? SLASH) || (x =? 63) || (x =? HASH))%N.
Proof.
  unfold is_delimiter, has_char.
  change (lit "/?#") with [SLASH; 63%N; HASH]. cbn [existsb].
  destruct (x =? SLASH)%N, (x =? 63)%N, (x =? HASH)%N; reflexivity.
Qed.

Lemma takewhile_delimiters (r : str) :
  List.length (takewhile (fun c => negb (is_delimiter c)) r)
  = Nat.min (List.length (takewhile (fun x => negb (x =? SLASH)%N) r))
      (Nat.min (List.length (takewhile (fun x => negb (x =? 63)%N) r))
         (List.length (takewhile (fun x => negb (x =? HASH)%N) r))).
Proof.
  induction r as [|x r IH]; [reflexivity|].
  cbn [takewhile]. rewrite is_delimiter_eq.
  destruct (x =? SLASH)%N; [reflexivity|].
  destruct (x =? 63)%N; [cbn; lia|].
  destruct (x =? HASH)%N; [cbn; lia|].
  cbn [orb negb List.length]. rewrite IH. lia.
Qed.

(** The step of the loop of [_splitnetloc], on what follows the slashes. *)
Lemma splitnetloc_step (r : str) (c : char) (delim : Z) :
  (delim <= 2 + Z.of_nat (List.length r))%Z ->
  (if (0 <=? urllib.find_at (lit "//" ++ r) c 2)%Z
   then Z.min delim (urllib.find_at (lit "//" ++ r) c 2)
   else delim)
  = Z.min delim
      (2 + Z.of_nat (List.length (takewhile (fun x => negb (x =? c)%N) r))).
Proof.
  intros B. unfold urllib.find_at.
  change (slice_from (lit "//" ++ r) 2) with r.
  rewrite find_from_spec. destruct (has_char r c) eqn:E.
  - destruct (0 <=? _)%Z eqn:L; [reflexivity|]. apply Z.leb_gt in L. lia.
  - rewrite (takewhile_absent r c E).
    change (0 <=? -1)%Z with false. cbv iota. lia.
Qed.

(** [urlsplit] takes as network location what follows the two slashes up
    to the first slash, question mark or hash. *)
Lemma netloc_after_authority (rest : str) : netloc_after rest = authority rest.
Proof.
  unfold netloc_after, authority, urllib._splitnetloc. cbn [fst].
  set (r := unsafe_removed rest).
  change (lit "/?#") with [SLASH; 63%N; HASH].
  cbn [fold_left].
  assert (L : len (lit "//" ++ r) = (2 + Z.of_nat (List.length r))%Z).
  { unfold len. change (lit "//" ++ r) with (SLASH :: SLASH :: r).
    cbn [List.length]. lia. }
  pose proof (takewhile_length_le (fun x => negb (x =? SLASH)%N) r) as B1.
  pose proof (takewhile_length_le (fun x => negb (x =? 63)%N) r) as B2.
  pose proof (takewhile_length_le (fun x => negb (x =? HASH)%N) r) as B3.
  rewrite (splitnetloc_step r SLASH) by lia.
  rewrite (splitnetloc_step r 63%N) by lia.
  rewrite (splitnetloc_step r HASH) by lia.
  pose proof (takewhile_delimiters r) as D.
  set (k := List.length (takewhile (fun c => negb (is_delimiter c)) r)) in *.
  replace (Z.min _ _) with (Z.of_nat (S (S k))) by lia.
  unfold slice_to, slice_from. rewrite Nat2Z.id.
  change (Z.to_nat 2) with 2%nat.
  change (lit "//" ++ r) with (SLASH :: SLASH :: r).
  cbn [firstn skipn]. apply firstn_takewhile.
Qed.

(** ** Validation, in terms of the url *)

Lemma has_netloc_host `{PyLib} (entry : DokkEntry) :
  constructed entry -> (has_netloc entry <-> has_host (DokkEntry.url entry)).
Proof.
  intros C. unfold has_netloc, has_host, urllib.urlparse.
  assert (S : forall scheme rest,
             (exists parsed, split_result scheme rest = Ok parsed
                             /\ urllib.netloc parsed <> [])
             <-> authority rest <> [] /\ netloc_error (authority rest) = None).
  { intros scheme rest. unfold split_result. rewrite netloc_after_authority.
    destruct (authority rest) as [|c a] eqn:A; cbn [is_empty].
    - split.
      + intros (parsed & E & N). inversion E; subst. cbn in N. congruence.
      + intros [N _]. congruence.
    - destruct (netloc_error (c :: a)) as [msg|].
      + split; [intros (parsed & E & _); discriminate | intros [_ E]; discriminate].
      + split; [intros _; split; [discriminate | reflexivity]|].
        intros _. eexists. split; [reflexivity | discriminate]. }
  split.
  - intros (parsed & E & N).
    destruct (constructed_url entry C) as [[rest U]|[rest U]]; rewrite U in E;
      [rewrite urlsplit_http in E | rewrite urlsplit_https in E];
      exists rest; (split; [auto|]); eapply S; eauto.
  - intros (rest & [U|U] & A & N); rewrite U;
      [rewrite urlsplit_http | rewrite urlsplit_https];
      apply S; auto.
Qed.

(** C3, as amended.  On a manager all of whose entries came out of entry
    construction, [validate_all_links] never reports an invalid scheme, and
    it returns the empty list exactly when the url of every entry has,
    after http:// or https://, an authority that is not empty and that
    [urlparse] accepts; an entry whose url stops after the two slashes, or
    goes on with a slash, a question mark or a hash, is reported for its
    missing domain. *)
Theorem validate_all_links_constructed `{PyLib} (self : LinkManager.t) :
  Forall constructed (LinkManager._entries self) ->
  (forall entry reason,
      In (entry, reason) (LinkManager.validate_all_links self) ->
      reason <> lit "Schema URL non valido")
  /\ (LinkManager.validate_all_links self = []
      <-> Forall (fun entry => has_host (DokkEntry.url entry))
            (LinkManager._entries self)).
Proof.
  intros F. destruct (validate_all_links_netloc self F) as (S & E).
  split; [exact S|]. rewrite E. rewrite !Forall_forall. rewrite Forall_forall in F.
  split; intros G entry I; apply (has_netloc_host entry (F entry I)), G, I.
Qed.

(** C3, as stated, fails: the url http:// passes entry construction, the
    scan loads its entry, and [validate_all_links] reports it for its
    missing domain. *)
Lemma validate_all_links_flags_constructed :
  DokkEntry.__init__ (lit "B") (lit "http://") nohost_path = Ok nohost_entry
  /\ LinkManager._entries nohost_manager = [nohost_entry]
  /\ Forall constructed (LinkManager._entries nohost_manager)
  /\ LinkManager.validate_all_links nohost_manager
     = [(nohost_entry, lit "Dominio mancante nell'URL")].
Proof.
  split; [reflexivity|]. split; [reflexivity|]. split; [|reflexivity].
  change (LinkManager._entries nohost_manager) with [nohost_entry].
  constructor; [|constructor].
  exists (lit "B"), (lit "http://"), nohost_path. reflexivity.
Qed.

Lemma validate_all_links_constructed_witness :
  LinkManager.validate_all_links docs_manager = [].
Proof.
  apply (validate_all_links_constructed docs_manager).
  - change (LinkManager._entries docs_manager)
      with [DokkEntry.make (lit "X") (lit "https://x.test") a_dokk].
    constructor; [|constructor].
    exists (lit "X"), (lit "https://x.test"), a_dokk. reflexivity.
  - change (LinkManager._entries docs_manager)
      with [DokkEntry.make (lit "X") (lit "https://x.test") a_dokk].
    constructor; [|constructor].
    exists (lit "x.test"). split; [right; reflexivity|].
    split; [vm_compute; discriminate | reflexivity].
Defined.

(** ** Further examples *)

(** The domain of an entry is the whole network location of its url: a
    port or user info makes it another domain. *)
Example get_statistics_ports :
  LinkManager.get_statistics ports_manager
  = {| LinkManager.total_links := 3;
       LinkManager.total_files := 1;
       LinkManager.unique_domains := 3 |}.
Proof. reflexivity. Qed.

(** The groups of a match are determined by the line. *)
Lemma quoted_arrow_unique (line d u rest d' u' rest' : str) :
  quoted_arrow line d u rest -> quoted_arrow line d' u' rest' ->
  d = d' /\ u = u' /\ rest = rest'.
Proof.
  intros A B. apply PATTERN_scan_spec in A, B.
  rewrite A in B. inversion B; auto.
Qed.

(** Spaces around a line are trimmed before it is matched, and only the
    start of the trimmed line is matched. *)
Example PATTERN_match_examples :
  StandardDokkParser.PATTERN_match (link_line (lit "A") (lit "https://x.test") [])
  = Some (lit "A", lit "https://x.test")
  /\ StandardDokkParser.PATTERN_match (lit "x" ++ link_line (lit "A") (lit "u") [])
     = None
  /\ StandardDokkParser.PATTERN_match (QUOTE :: QUOTE :: lit " -> " ++ [QUOTE; QUOTE])
     = None
  /\ StandardDokkParser.PATTERN_match
       (QUOTE :: lit "A" ++ QUOTE :: lit "->" ++ QUOTE :: lit "u" ++ [QUOTE])
     = Some (lit "A", lit "u").
Proof. repeat split. Qed.

(** * Further properties of the parser *)

(** ** What parse raises *)

Lemma parse_lines_raises (file_path : Path) (lines : list str) :
  forall line_number entries e,
    StandardDokkParser.parse_lines file_path lines line_number entries = Raise e ->
    is_ParseError e = true.
Proof.
  induction lines as [|l lines IH]; intros n entries e E.
  - discriminate E.
  - rewrite parse_lines_cons in E.
    destruct (is_empty (strip l) || startswith (strip l) (lit "#")).
    + eapply IH; eassumption.
    + destruct (StandardDokkParser.PATTERN_match (strip l)) as [[d u]|].
      * destruct (DokkEntry.__init__ d u file_path) as [entry|e'] eqn:I.
        -- eapply IH; eassumption.
        -- destruct (init_raises_ParseError _ _ _ _ I) as [m ->].
           inversion E; subst. reflexivity.
      * inversion E; subst. reflexivity.
Qed.

Lemma read_content_raises (fs : FileSystem) (file_path : Path) (e : exn) :
  StandardDokkParser.read_content fs file_path = Raise e -> is_ParseError e = true.
Proof.
  unfold StandardDokkParser.read_content.
  destruct (read_text fs file_path utf_8); [discriminate| |].
  - destruct (read_text fs file_path latin_1); [discriminate| |];
      intros E; inversion E; reflexivity.
  - intros E; inversion E; reflexivity.
Qed.

(** X1.  [parse] raises FileNotFoundError exactly when the path does not
    exist; when the system refuses the status of the path, its OSError
    leaves [parse] as it is, the checks of the path being under no [try];
    on a path that exists and is not a regular file [parse] raises the
    ParseError that says so; and whatever it raises on a path that exists
    is a ParseError, also when the file cannot be read or decoded.  So what
    [parse] raises is a FileNotFoundError, an OSError of the status check,
    or a ParseError. *)
Theorem parse_error_kinds (fs : FileSystem) (file_path : Path) :
  ((exists msg, StandardDokkParser.parse fs file_path = Raise (FileNotFoundError msg))
   <-> exists_ fs file_path = Ok false)
  /\ (exists_ fs file_path = Ok false ->
      StandardDokkParser.parse fs file_path
      = Raise (FileNotFoundError (lit "File non trovato: " ++ file_path)))
  /\ (forall msg,
         stat fs file_path = StatError msg ->
         StandardDokkParser.parse fs file_path = Raise (OSError msg))
  /\ (exists_ fs file_path = Ok true -> is_file fs file_path = Ok false ->
      StandardDokkParser.parse fs file_path
      = Raise (ParseError (lit "Il path specificato non e un file: " ++ file_path)))
  /\ (forall e,
         exists_ fs file_path = Ok true ->
         StandardDokkParser.parse fs file_path = Raise e ->
         is_ParseError e = true)
  /\ (forall e,
         StandardDokkParser.parse fs file_path = Raise e ->
         (exists msg, e = FileNotFoundError msg)
         \/ (exists msg, stat fs file_path = StatError msg /\ e = OSError msg)
         \/ is_ParseError e = true).
Proof.
  assert (P : forall e, exists_ fs file_path = Ok true ->
                        StandardDokkParser.parse fs file_path = Raise e ->
                        is_ParseError e = true).
  { intros e X. unfold StandardDokkParser.parse, bind. rewrite X. cbn [negb].
    assert (F : is_file fs file_path = Ok true \/ is_file fs file_path = Ok false).
    { unfold exists_, is_file in *.
      destruct (stat fs file_path) as [[]| |]; try discriminate X; auto. }
    destruct F as [F|F]; rewrite F; cbn [negb].
    - destruct (StandardDokkParser.read_content fs file_path) as [content|e'] eqn:R.
      + apply parse_lines_raises.
      + intros E; inversion E; subst. eapply read_content_raises; eassumption.
    - intros E; inversion E; reflexivity. }
  assert (N : exists_ fs file_path = Ok false ->
              StandardDokkParser.parse fs file_path
              = Raise (FileNotFoundError (lit "File non trovato: " ++ file_path))).
  { intros X. unfold StandardDokkParser.parse. rewrite X. reflexivity. }
  assert (S : forall msg,
             stat fs file_path = StatError msg ->
             StandardDokkParser.parse fs file_path = Raise (OSError msg)).
  { intros msg X. unfold StandardDokkParser.parse, exists_. rewrite X.
    reflexivity. }
  split; [|split; [exact N|split; [exact S|split; [|split; [exact P|]]]]].
  - split.
    + intros [msg E]. destruct (exists_ fs file_path) as [[|]|e] eqn:X;
        [|reflexivity|].
      * apply P in E; [discriminate E | reflexivity].
      * unfold exists_ in X.
        destruct (stat fs file_path) as [n| |m] eqn:T; try discriminate X.
        rewrite (S m eq_refl) in E. discriminate E.
    + intros X. eexists. apply N, X.
  - intros X F. unfold StandardDokkParser.parse. rewrite X, F. reflexivity.
  - intros e E. destruct (stat fs file_path) as [n| |m] eqn:T.
    + right. right. apply P; [|exact E]. unfold exists_. rewrite T. reflexivity.
    + left. rewrite N in E by (unfold exists_; rewrite T; reflexivity).
      injection E as <-. eexists. reflexivity.
    + right. left. exists m. rewrite (S m eq_refl) in E.
      injection E as <-. auto.
Qed.

(** ** What parse returns *)

Lemma accepts_entry_of (file_path : Path) (line : str) :
  accepts file_path line = true ->
  let l := strip line in
  (is_empty l || startswith l (lit "#") = true /\ entry_of file_path line = [])
  \/ (is_empty l || startswith l (lit "#") = false
      /\ exists d u,
           StandardDokkParser.PATTERN_match l = Some (d, u)
           /\ DokkEntry.__init__ d u file_path
              = Ok (DokkEntry.make (strip d) (strip u) file_path)
           /\ entry_of file_path line
              = [DokkEntry.make (strip d) (strip u) file_path]).
Proof.
  unfold accepts, entry_of. cbv zeta.
  destruct (is_empty (strip line) || startswith (strip line) (lit "#"));
    [left; split; reflexivity|].
  cbn [orb]. intros A. right. split; [reflexivity|].
  destruct (StandardDokkParser.PATTERN_match (strip line)) as [[d u]|];
    [|discriminate].
  exists d, u. split; [reflexivity|].
  unfold DokkEntry.__init__, bind in *.
  destruct (DokkEntry._validate _) as [[]|e]; [|discriminate].
  split; reflexivity.
Qed.

Lemma parse_lines_exact (file_path : Path) (lines : list str) :
  forall line_number entries,
    forallb (accepts file_path) lines = true ->
    StandardDokkParser.parse_lines file_path lines line_number entries
    = Ok (entries ++ flat_map (entry_of file_path) lines).
Proof.
  induction lines as [|l lines IH]; intros n entries F.
  - simpl. rewrite app_nil_r. reflexivity.
  - cbn [forallb] in F. apply andb_true_iff in F as [A F].
    rewrite parse_lines_cons. cbn [flat_map].
    destruct (accepts_entry_of file_path l A) as [[C E]|[C (d & u & M & I & E)]];
      cbv zeta in *; rewrite C, E.
    + apply IH, F.
    + rewrite M, I, IH by assumption. rewrite <- app_assoc. reflexivity.
Qed.

Lemma parse_lines_ok_accepts (file_path : Path) (lines : list str) :
  forall line_number entries result,
    StandardDokkParser.parse_lines file_path lines line_number entries = Ok result ->
    forallb (accepts file_path) lines = true.
Proof.
  induction lines as [|l lines IH]; intros n entries result E.
  - reflexivity.
  - rewrite parse_lines_cons in E. cbn [forallb]. unfold accepts at 1.
    destruct (is_empty (strip l) || startswith (strip l) (lit "#")).
    + cbn [orb]. eapply IH; eassumption.
    + cbn [orb].
      destruct (StandardDokkParser.PATTERN_match (strip l)) as [[d u]|];
        [|discriminate].
      destruct (DokkEntry.__init__ d u file_path) as [entry|e] eqn:I.
      * cbn. eapply IH; eassumption.
      * destruct e; discriminate.
Qed.

Lemma parse_readable_returns (fs : FileSystem) (file_path : Path) (content : str)
    (entries : list DokkEntry) :
  readable fs file_path content ->
  (StandardDokkParser.parse fs file_path = Ok entries
   <-> forallb (accepts file_path) (splitlines content) = true
       /\ entries = flat_map (entry_of file_path) (splitlines content)).
Proof.
  intros R. rewrite (parse_readable _ _ _ R). split.
  - intros E. pose proof (parse_lines_ok_accepts _ _ _ _ _ E) as A.
    split; [exact A|].
    rewrite (parse_lines_exact _ _ 0 [] A) in E. inversion E; reflexivity.
  - intros [A ->]. rewrite (parse_lines_exact _ _ 0 [] A). reflexivity.
Qed.

(** X2.  On a file it reads, [parse] returns exactly when every line is
    blank, a comment, or a match that gives a valid entry; it then returns
    one entry for each line that is neither blank nor a comment, in the
    order of the lines, holding the trimmed groups and the path of the
    file. *)
Theorem parse_returns (fs : FileSystem) (file_path : Path) (content : str)
    (entries : list DokkEntry) :
  readable fs file_path content ->
  (StandardDokkParser.parse fs file_path = Ok entries
   <-> forallb (accepts file_path) (splitlines content) = true
       /\ entries = flat_map (entry_of file_path) (splitlines content)).
Proof. exact (parse_readable_returns fs file_path content entries). Qed.

Lemma parse_returns_witness :
  StandardDokkParser.parse junk_fs junk_path
  = Ok [DokkEntry.make (lit "A") (lit "https://x.test") junk_path].
Proof.
  apply (parse_returns junk_fs junk_path junk_line).
  - repeat split.
  - split; reflexivity.
Defined.

(** ** The entries parse returns *)

Lemma dropwhile_fixed (p : char -> bool) (s : str) :
  match s with [] => True | c :: _ => p c = false end -> dropwhile p s = s.
Proof.
  destruct s as [|c s]; simpl; [reflexivity|]. intros ->. reflexivity.
Qed.

Lemma dropwhile_snoc (p : char -> bool) (s : str) (c : char) :
  p c = false -> dropwhile p (s ++ [c]) = dropwhile p s ++ [c].
Proof.
  intros Hc. induction s as [|x s IH]; simpl.
  - rewrite Hc. reflexivity.
  - destruct (p x); [exact IH | reflexivity].
Qed.

Lemma dropwhile_head_ok (p : char -> bool) (s : str) :
  match dropwhile p s with [] => True | c :: _ => p c = false end.
Proof.
  destruct (dropwhile p s) as [|c r] eqn:E; [exact I|].
  eapply dropwhile_head; eassumption.
Qed.

(** A text that neither starts nor ends with a space is left alone. *)
Lemma strip_fixed (c c' : char) (middle : str) :
  isspace c = false -> isspace c' = false ->
  strip (c :: middle ++ [c']) = c :: middle ++ [c'].
Proof.
  intros Hc Hc'. unfold strip, lstrip, rstrip.
  rewrite (dropwhile_fixed isspace (c :: middle ++ [c'])) by exact Hc.
  change (c :: middle ++ [c']) with ((c :: middle) ++ [c']).
  rewrite rev_app_distr. simpl rev at 1. cbn [app dropwhile].
  rewrite Hc'. cbn [rev]. rewrite rev_app_distr, rev_involutive. reflexivity.
Qed.

Lemma strip_one (c : char) : isspace c = false -> strip [c] = [c].
Proof.
  intros Hc. unfold strip, lstrip, rstrip. simpl. rewrite Hc. simpl.
  rewrite Hc. reflexivity.
Qed.

(** The shape of a trimmed text: empty, or between two characters that are
    not spaces. *)
Lemma strip_shape (s : str) :
  strip s = []
  \/ (exists c, isspace c = false /\ strip s = [c])
  \/ (exists c middle c',
         isspace c = false /\ isspace c' = false
         /\ strip s = c :: middle ++ [c']).
Proof.
  unfold strip, lstrip, rstrip.
  pose proof (dropwhile_head_ok isspace s) as H1.
  destruct (dropwhile isspace s) as [|c a]; [left; reflexivity|].
  right.
  assert (E : rev (dropwhile isspace (rev (c :: a)))
              = c :: rev (dropwhile isspace (rev a))).
  { cbn [rev]. rewrite (dropwhile_snoc isspace (rev a) c H1), rev_app_distr.
    reflexivity. }
  rewrite E.
  pose proof (dropwhile_head_ok isspace (rev a)) as H2.
  destruct (dropwhile isspace (rev a)) as [|c' b]; [left; eauto|].
  right. exists c, (rev b), c'. cbn [rev]. auto.
Qed.

Lemma strip_idempotent (s : str) : strip (strip s) = strip s.
Proof.
  destruct (strip_shape s) as [E|[(c & Hc & E)|(c & m & c' & Hc & Hc' & E)]];
    rewrite E.
  - reflexivity.
  - apply strip_one, Hc.
  - apply strip_fixed; assumption.
Qed.

Lemma forallb_dropwhile (P p : char -> bool) (s : str) :
  forallb P s = true -> forallb P (dropwhile p s) = true.
Proof.
  induction s as [|c s IH]; simpl; [reflexivity|].
  intros H. destruct (p c); [|exact H].
  apply andb_true_iff in H as [_ H]. apply IH, H.
Qed.

Lemma forallb_rev (P : char -> bool) (s : str) :
  forallb P s = true -> forallb P (rev s) = true.
Proof.
  rewrite !forallb_forall. intros H x Hx. apply H, in_rev, Hx.
Qed.

Lemma forallb_strip (P : char -> bool) (s : str) :
  forallb P s = true -> forallb P (strip s) = true.
Proof.
  intros H. unfold strip, lstrip, rstrip.
  apply forallb_rev, forallb_dropwhile, forallb_rev, forallb_dropwhile, H.
Qed.

(** No line of [splitlines] holds a line boundary. *)
Lemma splitlines_from_no_linebreak (n : nat) :
  forall s cur,
    (List.length s <= n)%nat ->
    forallb not_linebreak cur = true ->
    Forall (fun line => forallb not_linebreak line = true) (splitlines_from cur s).
Proof.
  induction n as [|n IH]; intros s cur L C.
  - destruct s; [|simpl in L; lia]. simpl.
    destruct cur; [constructor|]. constructor; [|constructor].
    apply forallb_rev, C.
  - destruct s as [|c s].
    + simpl. destruct cur; [constructor|]. constructor; [|constructor].
      apply forallb_rev, C.
    + simpl in L. cbn [splitlines_from].
      destruct (c =? 13)%N eqn:E13.
      * destruct s as [|d s'].
        -- constructor; [apply forallb_rev, C|]. apply IH; [simpl; lia | reflexivity].
        -- destruct (d =? 10)%N;
             (constructor; [apply forallb_rev, C|]);
             apply IH; simpl in *; try lia; reflexivity.
      * destruct (is_linebreak c) eqn:Elb.
        -- constructor; [apply forallb_rev, C|]. apply IH; [lia | reflexivity].
        -- apply IH; [lia|]. cbn [forallb]. unfold not_linebreak at 1.
           rewrite Elb, C. reflexivity.
Qed.

Lemma splitlines_no_linebreak (s : str) :
  Forall (fun line => forallb not_linebreak line = true) (splitlines s).
Proof.
  apply (splitlines_from_no_linebreak (List.length s)); [lia | reflexivity].
Qed.

Lemma quoted_arrow_forallb (P : char -> bool) (line d u rest : str) :
  quoted_arrow line d u rest -> forallb P line = true ->
  forallb P d = true /\ forallb P u = true.
Proof.
  intros (w1 & w2 & -> & _) H.
  cbn [forallb] in H. apply andb_true_iff in H as [_ H].
  rewrite forallb_app in H. apply andb_true_iff in H as [Hd H].
  split; [exact Hd|].
  cbn [forallb] in H. apply andb_true_iff in H as [_ H].
  rewrite forallb_app in H. apply andb_true_iff in H as [_ H].
  cbn [forallb] in H. apply andb_true_iff in H as [_ H].
  apply andb_true_iff in H as [_ H].
  rewrite forallb_app in H. apply andb_true_iff in H as [_ H].
  cbn [forallb] in H. apply andb_true_iff in H as [_ H].
  rewrite forallb_app in H. apply andb_true_iff in H as [Hu _]. exact Hu.
Qed.

Lemma entry_of_parsed (file_path : Path) (line : str) :
  accepts file_path line = true ->
  forallb not_linebreak line = true ->
  Forall (parsed_entry file_path) (entry_of file_path line).
Proof.
  intros A NL.
  destruct (accepts_entry_of file_path line A)
    as [[_ ->]|[_ (d & u & M & I & ->)]]; [constructor|].
  constructor; [|constructor].
  apply PATTERN_match_spec in M as [rest Q].
  destruct (quoted_arrow_forallb not_linebreak _ _ _ _ Q
              (forallb_strip _ _ NL)) as [Ld Lu].
  destruct Q as (w1 & w2 & _ & _ & Qd & _ & Qu & _).
  unfold DokkEntry.__init__, bind in I.
  destruct (DokkEntry._validate _) as [[]|e] eqn:V; [|discriminate].
  apply validate_ok in V. cbn in V. destruct V as (V1 & V2 & V3).
  unfold parsed_entry.
  cbn [DokkEntry.description DokkEntry.url DokkEntry.file_path].
  repeat split; auto using strip_idempotent, forallb_strip.
Qed.

Lemma parse_Forall_parsed (fs : FileSystem) (file_path : Path)
    (entries : list DokkEntry) :
  StandardDokkParser.parse fs file_path = Ok entries ->
  Forall (parsed_entry file_path) entries.
Proof.
  intros E. apply parse_Ok_readable in E. destruct E as (content & _ & E).
  pose proof (parse_lines_ok_accepts _ _ _ _ _ E) as A.
  rewrite (parse_lines_exact _ _ 0 [] A) in E. inversion E; subst. clear E.
  cbn [app]. pose proof (splitlines_no_linebreak content) as NL.
  induction (splitlines content) as [|l lines IH]; [constructor|].
  cbn [forallb] in A. apply andb_true_iff in A as [Al A].
  inversion NL; subst. cbn [flat_map]. apply Forall_app. split.
  - apply entry_of_parsed; assumption.
  - apply IH; assumption.
Qed.

(** X3.  Every entry [parse] returns carries the path of the parsed file;
    its description and its url are not empty, do not start or end with a
    space, and hold no double quote and no line boundary; and its url
    starts with http:// or https://. *)
Theorem parse_entries_well_formed (fs : FileSystem) (file_path : Path)
    (entries : list DokkEntry) :
  StandardDokkParser.parse fs file_path = Ok entries ->
  Forall (parsed_entry file_path) entries.
Proof. exact (parse_Forall_parsed fs file_path entries). Qed.

Lemma parse_entries_well_formed_witness :
  Forall (parsed_entry junk_path)
    [DokkEntry.make (lit "A") (lit "https://x.test") junk_path].
Proof.
  apply (parse_entries_well_formed junk_fs junk_path). reflexivity.
Defined.

(** ** Writing entries back and parsing them again *)

Lemma not_linebreak_13 (x : char) : not_linebreak x = true -> (x =? 13)%N = false.
Proof.
  intros H. destruct (x =? 13)%N eqn:E; [|reflexivity].
  apply N.eqb_eq in E; subst. discriminate H.
Qed.

Lemma splitlines_from_line (l : str) :
  forall cur rest,
    forallb not_linebreak l = true ->
    splitlines_from cur (l ++ LF :: rest)
    = (rev cur ++ l) :: splitlines_from [] rest.
Proof.
  induction l as [|x l IH]; intros cur rest H.
  - cbn. rewrite app_nil_r. reflexivity.
  - cbn [forallb] in H. apply andb_true_iff in H as [Hx H].
    cbn [app splitlines_from]. rewrite (not_linebreak_13 x Hx).
    unfold not_linebreak in Hx. apply negb_true_iff in Hx. rewrite Hx.
    rewrite IH by assumption. cbn [rev]. rewrite <- app_assoc. reflexivity.
Qed.

Lemma splitlines_from_last (l : str) :
  forall cur,
    forallb not_linebreak l = true -> rev cur ++ l <> [] ->
    splitlines_from cur l = [rev cur ++ l].
Proof.
  induction l as [|x l IH]; intros cur H N.
  - rewrite app_nil_r in *.
    destruct cur; [exfalso; apply N; reflexivity | reflexivity].
  - cbn [forallb] in H. apply andb_true_iff in H as [Hx H].
    cbn [splitlines_from]. rewrite (not_linebreak_13 x Hx).
    unfold not_linebreak in Hx. apply negb_true_iff in Hx. rewrite Hx.
    rewrite IH; [|assumption|].
    + cbn [rev]. rewrite <- app_assoc. reflexivity.
    + cbn [rev]. rewrite <- app_assoc. cbn. destruct (rev cur); discriminate.
Qed.

(** Lines without line boundaries, none of them empty, joined by newlines,
    split into the same lines. *)
Lemma splitlines_join (lines : list str) :
  Forall (fun l => forallb not_linebreak l = true /\ l <> []) lines ->
  splitlines (PyText.join [LF] lines) = lines.
Proof.
  unfold splitlines. induction 1 as [|l lines [Hl Nl] F IH]; [reflexivity|].
  cbn [PyText.join]. destruct lines as [|l' lines].
  - apply (splitlines_from_last l []); assumption.
  - cbn [app]. rewrite (splitlines_from_line l [] _ Hl). cbn [rev app].
    f_equal. exact IH.
Qed.

Lemma line_of_shape (d u : str) :
  link_line d u []
  = QUOTE :: (d ++ QUOTE :: lit " -> " ++ QUOTE :: u) ++ [QUOTE].
Proof.
  unfold link_line. rewrite <- app_assoc. cbn [app].
  rewrite <- app_assoc. reflexivity.
Qed.

Lemma line_of_parsed (file_path : Path) (entry : DokkEntry) :
  parsed_entry file_path entry ->
  accepts file_path (line_of entry) = true
  /\ entry_of file_path (line_of entry) = [entry]
  /\ forallb not_linebreak (line_of entry) = true
  /\ line_of entry <> [].
Proof.
  destruct entry as [d u f]. unfold parsed_entry, line_of.
  cbn [DokkEntry.description DokkEntry.url DokkEntry.file_path].
  intros (-> & Nd & Nu & H & Sd & Su & Qd & Qu & Ld & Lu).
  assert (S : strip (link_line d u []) = link_line d u []).
  { rewrite line_of_shape. apply strip_fixed; reflexivity. }
  assert (M : StandardDokkParser.PATTERN_match (link_line d u []) = Some (d, u)).
  { apply PATTERN_match_spec. exists []. exists [32%N], [32%N].
    repeat split; assumption. }
  assert (I : DokkEntry.__init__ d u file_path = Ok (DokkEntry.make d u file_path)).
  { unfold DokkEntry.__init__, bind. rewrite Sd, Su.
    assert (V : DokkEntry._validate (DokkEntry.make d u file_path) = Ok tt)
      by (apply validate_ok; cbn; auto).
    rewrite V. reflexivity. }
  assert (C : is_empty (link_line d u []) || startswith (link_line d u []) (lit "#")
              = false) by reflexivity.
  repeat split.
  - unfold accepts. rewrite S, C, M, I. reflexivity.
  - unfold entry_of. rewrite S, C, M, Sd, Su. reflexivity.
  - unfold link_line. cbn [forallb]. rewrite forallb_app. cbn [forallb].
    rewrite forallb_app. cbn [forallb]. rewrite forallb_app.
    rewrite Ld, Lu. reflexivity.
  - discriminate.
Qed.

(** X4.  Written back in the grammar of the files, one quoted-arrow line
    for each entry, joined by newlines, the entries [parse] returned for a
    file parse to themselves. *)
Theorem parse_text_of (fs : FileSystem) (file_path : Path)
    (entries : list DokkEntry) :
  StandardDokkParser.parse fs file_path = Ok entries ->
  StandardDokkParser.parse (one_file file_path (text_of entries)) file_path
  = Ok entries.
Proof.
  intros E. apply parse_Forall_parsed in E.
  assert (R : readable (one_file file_path (text_of entries)) file_path
                (text_of entries)).
  { unfold readable, exists_, is_file, one_file. cbn. rewrite eqb_refl. auto. }
  apply (parse_readable_returns _ _ _ entries R). clear R.
  unfold text_of. rewrite splitlines_join.
  - induction E as [|e es He _ IH]; [split; reflexivity|].
    destruct (line_of_parsed file_path e He) as (A & O & _).
    destruct IH as [IA IO]. cbn [List.map forallb flat_map].
    rewrite A, O, IA, <- IO. split; reflexivity.
  - induction E as [|e es He _ IH]; [constructor|].
    destruct (line_of_parsed file_path e He) as (_ & _ & L & N).
    constructor; [split|]; assumption.
Qed.

Lemma parse_text_of_witness :
  StandardDokkParser.parse
    (one_file junk_path
       (text_of [DokkEntry.make (lit "A") (lit "https://x.test") junk_path]))
    junk_path
  = Ok [DokkEntry.make (lit "A") (lit "https://x.test") junk_path].
Proof.
  apply (parse_text_of junk_fs junk_path
           [DokkEntry.make (lit "A") (lit "https://x.test") junk_path]).
  reflexivity.
Defined.

(** ** The parser factory *)

Lemma registered_parsers (ps : list BaseParser) :
  forall self,
    DokkParserFactory._parsers (registered self ps)
    = rev ps ++ DokkParserFactory._parsers self.
Proof.
  unfold registered.
  induction ps as [|p ps IH]; intros self; [reflexivity|].
  cbn [fold_left rev]. rewrite IH. cbn. rewrite <- app_assoc. reflexivity.
Qed.

(** X5.  Parsers registered later take priority: after any sequence of
    registrations the factory selects, for a file, the parser registered
    last among those that can handle it, and the parser it selected before
    when none of the new ones can; [parse_file] then gives what the selected
    parser gives, and raises the no-parser ParseError when no parser is
    selected. *)
Theorem create_parser_priority (self : DokkParserFactory.t) (ps : list BaseParser)
    (fs : FileSystem) (file_path : Path) :
  DokkParserFactory.create_parser (registered self ps) file_path
  = match List.find (fun p => can_handle p file_path) (rev ps) with
    | Some p => Some p
    | None => DokkParserFactory.create_parser self file_path
    end
  /\ DokkParserFactory.parse_file (registered self ps) fs file_path
     = match List.find (fun p => can_handle p file_path) (rev ps) with
       | Some p => parse p fs file_path
       | None => DokkParserFactory.parse_file self fs file_path
       end.
Proof.
  assert (C : DokkParserFactory.create_parser (registered self ps) file_path
              = match List.find (fun p => can_handle p file_path) (rev ps) with
                | Some p => Some p
                | None => DokkParserFactory.create_parser self file_path
                end).
  { unfold DokkParserFactory.create_parser. rewrite registered_parsers.
    induction (rev ps) as [|q qs IH]; [reflexivity|].
    cbn [app List.find]. destruct (can_handle q file_path); [reflexivity | exact IH]. }
  split; [exact C|].
  unfold DokkParserFactory.parse_file. rewrite C.
  destruct (List.find _ (rev ps)); reflexivity.
Qed.

(** ** The extension the standard parser handles *)

Lemma rfind_from_absent (s : str) (c : char) :
  forall pos last, has_char s c = false -> rfind_from s c pos last = last.
Proof.
  unfold has_char. induction s as [|x s IH]; intros pos last H; [reflexivity|].
  cbn [existsb] in H. apply orb_false_iff in H as [Hx H].
  cbn [rfind_from]. rewrite (N.eqb_sym x c), Hx. apply IH, H.
Qed.

Lemma rfind_from_last (a b : str) (c : char) :
  forall pos last,
    has_char b c = false ->
    rfind_from (a ++ c :: b) c pos last = (pos + Z.of_nat (List.length a))%Z.
Proof.
  induction a as [|x a IH]; intros pos last H.
  - cbn [app rfind_from]. rewrite N.eqb_refl, rfind_from_absent by assumption.
    cbn. lia.
  - cbn [app rfind_from]. rewrite IH by assumption. cbn [List.length]. lia.
Qed.

Lemma name_after_slash (dir name : str) :
  has_char name SLASH = false -> PurePath.name (dir ++ SLASH :: name) = name.
Proof.
  intros H. unfold PurePath.name.
  rewrite rev_app_distr. cbn [rev]. rewrite <- !app_assoc. cbn [app].
  assert (F : forallb (fun c : char => negb (c =? SLASH)%N) (rev name) = true).
  { apply forallb_rev. unfold has_char in H. apply forallb_forall. intros x Hx.
    apply negb_true_iff. destruct (x =? SLASH)%N eqn:E; [|reflexivity].
    apply N.eqb_eq in E; subst.
    assert (existsb (N.eqb SLASH) name = true)
      by (apply existsb_exists; exists SLASH; split; [assumption | apply N.eqb_refl]).
    congruence. }
  destruct (takewhile_stop (fun c : char => negb (c =? SLASH)%N)
              (rev name) SLASH (rev dir) F eq_refl) as [T _].
  unfold char in *. rewrite T.
  apply rev_involutive.
Qed.

Lemma suffix_of_name (dir stem ext : str) :
  has_char stem SLASH = false -> has_char ext SLASH = false ->
  has_char ext DOT = false ->
  PurePath.suffix (dir ++ SLASH :: stem ++ DOT :: ext)
  = match stem, ext with
    | _ :: _, _ :: _ => DOT :: ext
    | _, _ => []
    end.
Proof.
  intros Hs He Hd. unfold PurePath.suffix.
  rewrite name_after_slash.
  2:{ unfold has_char in *. rewrite existsb_app.
      apply orb_false_iff. split; [exact Hs|].
      apply orb_false_iff. split; [reflexivity | exact He]. }
  cbv zeta. unfold rfind. rewrite rfind_from_last by assumption.
  unfold len. rewrite length_app. cbn [List.length].
  destruct stem as [|s0 stem].
  - cbn. destruct ext; reflexivity.
  - destruct ext as [|e0 ext].
    + match goal with
      | |- context [if ?b then _ else _] => assert (B : b = false)
      end.
      { apply andb_false_iff. right. apply Z.ltb_ge. cbn [List.length]. lia. }
      rewrite B. reflexivity.
    + match goal with
      | |- context [if ?b then _ else _] => assert (B : b = true)
      end.
      { apply andb_true_iff. split; apply Z.ltb_lt; cbn [List.length]; lia. }
      rewrite B. unfold slice_from. rewrite Z.add_0_l, Nat2Z.id.
      rewrite skipn_app, skipn_all, Nat.sub_diag. reflexivity.
Qed.

(** X6.  The standard parser handles a file exactly by its last extension,
    whatever the case of its letters: a name with a stem and the extension
    dokk in any mix of cases is handled, whatever the directory and
    whatever dots the stem holds; a name that is only the extension, as
    the hidden file .dokk, is not. *)
Theorem can_handle_extension `{PyLib} (dir stem ext : str) :
  has_char stem SLASH = false ->
  has_char ext SLASH = false ->
  has_char ext DOT = false ->
  isascii ext = true ->
  List.map ascii_lower_char ext = lit "dokk" ->
  StandardDokkParser.can_handle (dir ++ SLASH :: stem ++ DOT :: ext)
  = negb (is_empty stem).
Proof.
  intros Hs He Hd Ha Hl. unfold StandardDokkParser.can_handle.
  rewrite suffix_of_name by assumption.
  destruct stem as [|s0 stem]; [|destruct ext as [|e0 ext]].
  - rewrite lower_nil. reflexivity.
  - discriminate Hl.
  - rewrite lower_ascii by exact Ha.
    change (DOT :: e0 :: ext) with ([DOT] ++ e0 :: ext).
    rewrite map_app, Hl. reflexivity.
Qed.

Lemma can_handle_extension_witness :
  StandardDokkParser.can_handle (lit "/docs/v1.2/Links.DoKK") = true
  /\ StandardDokkParser.can_handle (lit "/docs/.dokk") = false.
Proof.
  split.
  - apply (can_handle_extension (lit "/docs/v1.2") (lit "Links") (lit "DoKK"));
      reflexivity.
  - apply (can_handle_extension (lit "/docs") [] (lit "dokk")); reflexivity.
Defined.

(** * Further properties of the link manager *)

(** ** Scanning, once and again *)

(** X7.  [scan_for_links] loads what the scanner's [get_all_entries]
    returns for the same root: when that returns a list, the scan returns
    its length, prints the same warnings and holds that list, and the
    mapping it holds is the one [scan_directory] returns; when that raises,
    the scan raises the same error wrapped in a RuntimeError and holds no
    entry. *)
Theorem scan_for_links_get_all_entries (self : LinkManager.t) (fs : FileSystem)
    (root_path : option Path) (recursive : bool) :
  (forall entries out,
      DokkFileScanner.get_all_entries (LinkManager.scanner self) fs
        (scan_root fs root_path) recursive = (Ok entries, out) ->
      fst (LinkManager.scan_for_links self fs root_path recursive)
      = (Ok (len entries), out)
      /\ LinkManager.get_all_entries
           (snd (LinkManager.scan_for_links self fs root_path recursive))
         = entries
      /\ fst (DokkFileScanner.scan_directory (LinkManager.scanner self) fs
                (scan_root fs root_path) recursive)
         = Ok (LinkManager.get_entries_by_file
                 (snd (LinkManager.scan_for_links self fs root_path recursive))))
  /\ (forall e out,
         DokkFileScanner.get_all_entries (LinkManager.scanner self) fs
           (scan_root fs root_path) recursive = (Raise e, out) ->
         fst (LinkManager.scan_for_links self fs root_path recursive)
         = (Raise (LinkManager.wrap e), out)
         /\ LinkManager.get_all_entries
              (snd (LinkManager.scan_for_links self fs root_path recursive))
            = []).
Proof.
  unfold DokkFileScanner.get_all_entries.
  destruct (fst (DokkFileScanner.scan_directory (LinkManager.scanner self) fs
              (scan_root fs root_path) recursive)) as [returned|err] eqn:D.
  - rewrite (scan_for_links_Ok _ _ _ _ _ D).
    destruct (scan_directory_Ok _ _ _ _ _ D) as (_ & _ & S). rewrite S.
    rewrite S in D. cbn [fst] in D. injection D as <-.
    split.
    + intros entries out E. inversion E; subst. repeat split.
    + intros e out E. discriminate E.
  - rewrite (scan_for_links_Raise _ _ _ _ _ D).
    destruct (DokkFileScanner.scan_directory (LinkManager.scanner self) fs
                (scan_root fs root_path) recursive) as [r printed].
    cbn [fst snd] in *. subst r.
    split.
    + intros entries out E. discriminate E.
    + intros e out E. inversion E; subst. split; reflexivity.
Qed.


(** ** What every manager keeps *)

Lemma concat_length_nonempty {A} (ls : list (list A)) :
  Forall (fun l => l <> []) ls ->
  (List.length ls <= List.length (List.concat ls))%nat.
Proof.
  induction 1 as [|l ls Hl _ IH]; simpl; [lia|].
  rewrite length_app. destruct l; [congruence|]. simpl. lia.
Qed.

Lemma domains_length `{PyLib} (entries : list DokkEntry) :
  (List.length (flat_map domain_of entries) <= List.length entries)%nat.
Proof.
  induction entries as [|e es IH]; simpl; [lia|].
  rewrite length_app. unfold domain_of at 1.
  destruct (urllib.urlparse (DokkEntry.url e)) as [parsed|];
    [destruct (is_empty (urllib.netloc parsed))|]; simpl; lia.
Qed.

(** X9.  On every manager the program can hold, the list of all entries
    is the concatenation of the lists of the mapping in the order of its
    files, no file of the mapping has an empty list, no file is there
    twice, and the files that have a colour are the files of the
    mapping. *)
Theorem manager_invariant `{PyLib} (self : LinkManager.t) :
  reachable self ->
  LinkManager.get_all_entries self
  = List.concat (Dict.values (LinkManager.get_entries_by_file self))
  /\ Forall (fun entries => entries <> [])
       (Dict.values (LinkManager.get_entries_by_file self))
  /\ NoDup (Dict.keys (LinkManager.get_entries_by_file self))
  /\ Dict.keys (LinkManager._file_colors self)
     = Dict.keys (LinkManager.get_entries_by_file self).
Proof. intros R. exact (reachable_consistent self R). Qed.

Lemma manager_invariant_witness :
  LinkManager.get_all_entries two_manager
  = List.concat (Dict.values (LinkManager.get_entries_by_file two_manager)).
Proof.
  destruct (manager_invariant two_manager
              (reachable_scan (LinkManager.__init__ None) two_fs None false
                 (reachable_init None)))
    as (A & _).
  exact A.
Defined.

(** X10.  On every manager the program can hold, the statistics are
    ordered: there are no more files than links and no more domains than
    links, none of the three is negative, and there is no file exactly
    when there is no link. *)
Theorem get_statistics_bounds `{PyLib} (self : LinkManager.t) :
  reachable self ->
  (0 <= LinkManager.total_files (LinkManager.get_statistics self)
   <= LinkManager.total_links (LinkManager.get_statistics self))%Z
  /\ (0 <= LinkManager.unique_domains (LinkManager.get_statistics self)
      <= LinkManager.total_links (LinkManager.get_statistics self))%Z
  /\ (LinkManager.total_files (LinkManager.get_statistics self) = 0%Z
      <-> LinkManager.total_links (LinkManager.get_statistics self) = 0%Z).
Proof.
  intros R. destruct (reachable_consistent self R) as (E & F & _).
  pose proof (concat_length_nonempty _ F) as L. rewrite <- E in L.
  unfold LinkManager.get_statistics.
  destruct (LinkManager._entries self) as [|e es] eqn:Es.
  - cbn. lia.
  - cbn [LinkManager.total_links LinkManager.total_files
         LinkManager.unique_domains].
    unfold len. rewrite collect_domains_length. unfold distinct_domains.
    pose proof (domains_length (e :: es)) as D1.
    pose proof (NoDup_incl_length (NoDup_nodup str_eq_dec (flat_map domain_of (e :: es)))
                  (fun x Hx => proj1 (nodup_In str_eq_dec _ x) Hx)) as D2.
    assert (N : (0 < List.length (LinkManager._entries_by_file self))%nat).
    { destruct (LinkManager._entries_by_file self); [discriminate E | simpl; lia]. }
    unfold Dict.values in L. rewrite length_map in L.
    cbn [List.length] in *. lia.
Qed.

Lemma get_statistics_bounds_witness :
  (0 <= LinkManager.total_files (LinkManager.get_statistics two_manager)
   <= LinkManager.total_links (LinkManager.get_statistics two_manager))%Z.
Proof.
  destruct (get_statistics_bounds two_manager
              (reachable_scan (LinkManager.__init__ None) two_fs None false
                 (reachable_init None)))
    as (A & _).
  exact A.
Defined.

(** ** Colours of the loaded entries *)

Lemma Dict_set_items_Forall {V} (P : Path -> V -> Prop) (d : Dict.t V)
    (k : Path) (v : V) :
  Forall (fun item => P (fst item) (snd item)) d -> P k v ->
  Forall (fun item => P (fst item) (snd item)) (Dict.set d k v).
Proof.
  intros Hd Hv. induction d as [|[k0 v0] d IH]; simpl.
  - constructor; [exact Hv | constructor].
  - inversion Hd; subst. destruct (Py.eqb k0 k) eqn:E.
    + apply eqb_eq in E; subst. constructor; assumption.
    + constructor; auto.
Qed.

Lemma standard_parse_file `{PyLib} (fs : FileSystem) (file_path : Path)
    (entries : list DokkEntry) :
  DokkParserFactory.parse_file DokkParserFactory.__init__ fs file_path = Ok entries ->
  StandardDokkParser.parse fs file_path = Ok entries.
Proof.
  unfold DokkParserFactory.parse_file, DokkParserFactory.create_parser.
  cbn. destruct (StandardDokkParser.can_handle file_path); [|discriminate].
  cbn. auto.
Qed.

Lemma gathered_file_paths `{PyLib} (fs : FileSystem) (files : list Path) :
  forall results,
    Forall (fun item => Forall (fun e => DokkEntry.file_path e = fst item) (snd item))
      results ->
    Forall (fun item => Forall (fun e => DokkEntry.file_path e = fst item) (snd item))
      (gathered (DokkFileScanner.__init__ None) fs files results).
Proof.
  induction files as [|f files IH]; intros results F.
  - exact F.
  - cbn [gathered].
    destruct (DokkParserFactory.parse_file _ fs f) as [[|e es]|err] eqn:P;
      apply IH; try assumption.
    apply (Dict_set_items_Forall
             (fun k v => Forall (fun e => DokkEntry.file_path e = k) v));
      [assumption|].
    apply standard_parse_file, parse_Forall_parsed in P.
    eapply Forall_impl; [|exact P]. intros a Ha. apply Ha.
Qed.

Lemma palette_in_COLORS (i : Z) : In (palette i) LinkManager.COLORS.
Proof.
  unfold palette. apply nth_In.
  change (len LinkManager.COLORS) with 7%Z.
  change (List.length LinkManager.COLORS) with 7%nat.
  pose proof (Z.mod_pos_bound i 7 ltac:(lia)). lia.
Qed.

(** X11.  With the standard parser, after a scan every loaded entry
    belongs to a file of the mapping and is shown in one of the colours of
    the palette, never in the empty default: [get_colored_description]
    gives that colour, the description and the reset code. *)
Theorem loaded_entries_colored `{PyLib} (self : LinkManager.t) (fs : FileSystem)
    (root_path : option Path) (recursive : bool) (entry : DokkEntry) :
  LinkManager.scanner self = DokkFileScanner.__init__ None ->
  In entry (LinkManager.get_all_entries
              (snd (LinkManager.scan_for_links self fs root_path recursive))) ->
  In (DokkEntry.file_path entry)
     (Dict.keys (LinkManager.get_entries_by_file
                   (snd (LinkManager.scan_for_links self fs root_path recursive))))
  /\ exists color,
       In color LinkManager.COLORS
       /\ LinkManager.get_file_color
            (snd (LinkManager.scan_for_links self fs root_path recursive))
            (DokkEntry.file_path entry) = color
       /\ LinkManager.get_colored_description
            (snd (LinkManager.scan_for_links self fs root_path recursive)) entry
          = color ++ DokkEntry.description entry ++ LinkManager.RESET_COLOR.
Proof.
  intros S I. destruct (fst (DokkFileScanner.scan_directory (LinkManager.scanner self) fs
              (scan_root fs root_path) recursive)) as [returned|err] eqn:D.
  2:{ rewrite (scan_for_links_Raise _ _ _ _ _ D) in I. destruct I. }
  rewrite (scan_for_links_Ok _ _ _ _ _ D) in *.
  unfold LinkManager.get_all_entries, LinkManager.get_entries_by_file,
    LinkManager.get_colored_description, LinkManager.get_file_color in *.
  cbn [snd loaded LinkManager._entries LinkManager._entries_by_file
       LinkManager._file_colors] in *.
  pose proof (scanned_NoDup self fs (scan_root fs root_path) recursive) as ND.
  assert (F : Forall (fun item => Forall (fun e => DokkEntry.file_path e = fst item)
                                    (snd item))
                (scanned self fs (scan_root fs root_path) recursive)).
  { unfold scanned. rewrite S. apply gathered_file_paths. constructor. }
  apply in_concat in I as (es & Ies & Ie).
  unfold Dict.values in Ies. apply in_map_iff in Ies as ([k v] & Ev & Ikv).
  cbn in Ev; subst v.
  rewrite Forall_forall in F. pose proof (F _ Ikv) as Fk. cbn in Fk.
  rewrite Forall_forall in Fk. rewrite (Fk _ Ie).
  assert (Ik : In k (Dict.keys (scanned self fs (scan_root fs root_path) recursive))).
  { unfold Dict.keys. apply in_map_iff. exists (k, es). split; [reflexivity | exact Ikv]. }
  split; [exact Ik|].
  destruct (In_nth_error _ _ Ik) as [i Hi].
  rewrite (colored_get _ 0 i k ND Hi).
  exists (palette (0 + Z.of_nat i)). split; [apply palette_in_COLORS|].
  split; reflexivity.
Qed.

Lemma loaded_entries_colored_witness :
  LinkManager.get_colored_description two_manager
    (DokkEntry.make (lit "Y") (lit "https://y.test") b_dokk)
  = (ESC :: lit "[92m") ++ lit "Y" ++ LinkManager.RESET_COLOR.
Proof.
  destruct (loaded_entries_colored (LinkManager.__init__ None) two_fs None false
              (DokkEntry.make (lit "Y") (lit "https://y.test") b_dokk)
              eq_refl)
    as (_ & color & _ & C & G).
  - vm_compute. right. left. reflexivity.
  - unfold two_manager. rewrite G, <- C. reflexivity.
Defined.

(** ** The exports *)

Lemma contains_occurs (s needle : str) :
  contains s needle = true <-> occurs needle s.
Proof.
  unfold occurs. induction s as [|c s IH]; cbn [contains].
  - rewrite orb_false_r. rewrite startswith_spec. split.
    + intros [rest E]. exists [], rest. exact E.
    + intros (before & after & E). destruct before; [eauto|discriminate E].
  - rewrite orb_true_iff, startswith_spec, IH. split.
    + intros [[rest E]|(before & after & E)].
      * exists [], rest. exact E.
      * exists (c :: before), after. rewrite E. reflexivity.
    + intros (before & after & E). destruct before as [|b before].
      * left. eauto.
      * right. inversion E; subst. eauto.
Qed.

Lemma occurs_within (needle part s : str) :
  occurs needle part -> occurs part s -> occurs needle s.
Proof.
  intros (b1 & a1 & ->) (b2 & a2 & ->).
  exists (b2 ++ b1), (a1 ++ a2). rewrite <- !app_assoc. reflexivity.
Qed.

Lemma occurs_join (sep part : str) (parts : list str) :
  In part parts -> occurs part (PyText.join sep parts).
Proof.
  induction parts as [|p parts IH]; intros I; [destruct I|].
  cbn [PyText.join]. destruct I as [->|I].
  - destruct parts as [|q parts].
    + exists [], []. rewrite app_nil_r. reflexivity.
    + exists [], (sep ++ PyText.join sep (q :: parts)). reflexivity.
  - destruct parts as [|q parts]; [destruct I|].
    destruct (IH I) as (b & a & E). rewrite E.
    exists (p ++ sep ++ b), a. rewrite <- !app_assoc. reflexivity.
Qed.

Lemma text_entry_lines_numbered (entries : list DokkEntry) :
  forall i lines,
    LinkManager.text_entry_lines entries i lines = lines ++ numbered entries i.
Proof.
  induction entries as [|e es IH]; intros i lines.
  - cbn. rewrite app_nil_r. reflexivity.
  - cbn [LinkManager.text_entry_lines numbered]. rewrite IH, <- app_assoc.
    reflexivity.
Qed.

Lemma fold_append_map {A} (f : A -> str) (xs : list A) :
  forall lines,
    fold_left (fun lines x => lines ++ [f x]) xs lines = lines ++ List.map f xs.
Proof.
  induction xs as [|x xs IH]; intros lines.
  - cbn. rewrite app_nil_r. reflexivity.
  - cbn [fold_left List.map]. rewrite IH, <- app_assoc. reflexivity.
Qed.

Lemma fold_blocks {A} (step : list str -> A -> list str) (block : A -> list str)
    (xs : list A) :
  (forall lines x, step lines x = lines ++ block x) ->
  forall lines, fold_left step xs lines = lines ++ flat_map block xs.
Proof.
  intros S. induction xs as [|x xs IH]; intros lines.
  - cbn. rewrite app_nil_r. reflexivity.
  - cbn [fold_left flat_map]. rewrite IH, S, <- app_assoc. reflexivity.
Qed.

(** The lists of lines of the three exports: a header, one block for each
    file of the mapping, and for HTML a footer. *)
Lemma text_lines_blocks (self : LinkManager.t) :
  LinkManager.text_lines self
  = [lit "Documentazione Links" ++ [LF]; PyText.times 61%N 50; []]
    ++ flat_map text_block (LinkManager._entries_by_file self).
Proof.
  unfold LinkManager.text_lines, Dict.items. apply fold_blocks.
  intros lines [p es]. unfold text_block. cbn [fst snd].
  rewrite text_entry_lines_numbered, <- !app_assoc. reflexivity.
Qed.

Lemma markdown_lines_blocks (self : LinkManager.t) :
  LinkManager.markdown_lines self
  = [lit "# Documentazione Links"; []]
    ++ flat_map markdown_block (LinkManager._entries_by_file self).
Proof.
  unfold LinkManager.markdown_lines, Dict.items. apply fold_blocks.
  intros lines [p es]. unfold markdown_block. cbn [fst snd].
  rewrite (fold_append_map markdown_line), <- !app_assoc. reflexivity.
Qed.

Lemma html_lines_blocks (self : LinkManager.t) :
  LinkManager.html_lines self
  = [lit "<!DOCTYPE html>"; lit "<html>"; lit "<head>";
     lit "<title>Documentazione Links</title>"; lit "</head>"; lit "<body>";
     lit "<h1>Documentazione Links</h1>"]
    ++ flat_map html_block (LinkManager._entries_by_file self)
    ++ [lit "</body>"; lit "</html>"].
Proof.
  unfold LinkManager.html_lines, Dict.items. rewrite app_assoc. f_equal.
  apply fold_blocks.
  intros lines [p es]. unfold html_block. cbn [fst snd].
  rewrite (fold_append_map html_line), <- !app_assoc. reflexivity.
Qed.

Lemma numbered_In (entries : list DokkEntry) (entry : DokkEntry) :
  forall i,
    In entry entries ->
    exists j,
      In (PyText.format_2d j ++ lit ". " ++ DokkEntry.description entry)
         (numbered entries i)
      /\ In (lit "    " ++ DokkEntry.url entry) (numbered entries i).
Proof.
  induction entries as [|e es IH]; intros i I; [destruct I|].
  cbn [numbered]. destruct I as [->|I].
  - exists i. split; [left; reflexivity | right; left; reflexivity].
  - destruct (IH (i + 1)%Z I) as (j & A & B).
    exists j. split; right; right; assumption.
Qed.

(** X13.  The three text exports leave no loaded entry out: on every
    manager the program can hold, the description and the url of each
    entry of [get_all_entries] occur in the text export, in the Markdown
    export and in the HTML export, as they are, without any escaping. *)
Theorem exports_hold_every_entry `{PyLib} (self : LinkManager.t) (entry : DokkEntry) :
  reachable self ->
  In entry (LinkManager.get_all_entries self) ->
  (contains (LinkManager._export_to_text self) (DokkEntry.description entry) = true
   /\ contains (LinkManager._export_to_text self) (DokkEntry.url entry) = true)
  /\ contains (LinkManager._export_to_markdown self) (markdown_line entry) = true
  /\ contains (LinkManager._export_to_html self) (html_line entry) = true
  /\ (contains (LinkManager._export_to_markdown self) (DokkEntry.description entry)
      = true
      /\ contains (LinkManager._export_to_markdown self) (DokkEntry.url entry) = true)
  /\ (contains (LinkManager._export_to_html self) (DokkEntry.description entry)
      = true
      /\ contains (LinkManager._export_to_html self) (DokkEntry.url entry) = true).
Proof.
  intros R I. destruct (reachable_consistent self R) as (E & _).
  unfold LinkManager.get_all_entries in I. rewrite E in I.
  apply in_concat in I as (es & Ies & Ie).
  unfold Dict.values in Ies. apply in_map_iff in Ies as (item & Ev & Iitem).
  subst es.
  assert (Md : In (markdown_line entry) (LinkManager.markdown_lines self)).
  { rewrite markdown_lines_blocks. apply in_or_app. right.
    apply in_flat_map. exists item. split; [exact Iitem|].
    unfold markdown_block. apply in_or_app. right. apply in_or_app. left.
    apply in_map, Ie. }
  assert (Ht : In (html_line entry) (LinkManager.html_lines self)).
  { rewrite html_lines_blocks. apply in_or_app. right. apply in_or_app. left.
    apply in_flat_map. exists item. split; [exact Iitem|].
    unfold html_block. apply in_or_app. right. apply in_or_app. left.
    apply in_map, Ie. }
  destruct (numbered_In (snd item) entry 1 Ie) as (j & Td & Tu).
  assert (Tx : forall line, In line (numbered (snd item) 1) ->
                            In line (LinkManager.text_lines self)).
  { intros line L. rewrite text_lines_blocks. apply in_or_app. right.
    apply in_flat_map. exists item. split; [exact Iitem|].
    unfold text_block. apply in_or_app. right. apply in_or_app. left. exact L. }
  pose proof (occurs_join [LF] _ _ Md) as OMd.
  pose proof (occurs_join [LF] _ _ Ht) as OHt.
  pose proof (occurs_join [LF] _ _ (Tx _ Td)) as OTd.
  pose proof (occurs_join [LF] _ _ (Tx _ Tu)) as OTu.
  unfold LinkManager._export_to_text, LinkManager._export_to_markdown,
    LinkManager._export_to_html.
  repeat split; apply contains_occurs;
    try exact OMd; try exact OHt.
  - eapply occurs_within; [|exact OTd].
    exists (PyText.format_2d j ++ lit ". "), []. rewrite app_nil_r, <- app_assoc.
    reflexivity.
  - eapply occurs_within; [|exact OTu].
    exists (lit "    "), []. rewrite app_nil_r. reflexivity.
  - eapply occurs_within; [|exact OMd].
    exists (lit "- ["), (lit "](" ++ DokkEntry.url entry ++ lit ")"). reflexivity.
  - eapply occurs_within; [|exact OMd].
    exists (lit "- [" ++ DokkEntry.description entry ++ lit "]("), (lit ")").
    unfold markdown_line. rewrite <- !app_assoc. reflexivity.
  - eapply occurs_within; [|exact OHt].
    exists (lit "<li><a href=" ++ [QUOTE] ++ DokkEntry.url entry ++ [QUOTE] ++ lit ">"),
      (lit "</a></li>").
    unfold html_line. rewrite <- !app_assoc. reflexivity.
  - eapply occurs_within; [|exact OHt].
    exists (lit "<li><a href=" ++ [QUOTE]),
      ([QUOTE] ++ lit ">" ++ DokkEntry.description entry ++ lit "</a></li>").
    unfold html_line. rewrite <- !app_assoc. reflexivity.
Qed.

Lemma flattened_entries_exact (self : LinkManager.t) :
  flattened_entries (LinkManager._export_to_json self)
  = List.map entry_json
      (List.concat (Dict.values (LinkManager._entries_by_file self))).
Proof.
  unfold flattened_entries, LinkManager._export_to_json, Dict.items, Dict.values.
  cbn [json_get List.find fst snd json_elements].
  change (Py.eqb (lit "scan_info") (lit "files")) with false.
  change (Py.eqb (lit "files") (lit "files")) with true.
  cbn [json_elements].
  induction (LinkManager._entries_by_file self) as [|[k v] d IH].
  - reflexivity.
  - cbn [List.map flat_map List.concat snd].
    rewrite map_app, IH. f_equal.
Qed.

(** X14.  On every manager the program can hold, the exported JSON
    document lists the loaded entries and nothing else: the entries of its
    files, flattened, are the description and the url of each entry of
    [get_all_entries], in the same order. *)
Theorem export_json_entries `{PyLib} (self : LinkManager.t) :
  reachable self ->
  flattened_entries (LinkManager._export_to_json self)
  = List.map entry_json (LinkManager.get_all_entries self).
Proof.
  intros R. destruct (reachable_consistent self R) as (E & _).
  unfold LinkManager.get_all_entries. rewrite E. apply flattened_entries_exact.
Qed.

Lemma exports_hold_every_entry_witness :
  contains (LinkManager._export_to_html two_manager)
    (lit "http://Y.TEST/again?q#f") = true.
Proof.
  destruct (exports_hold_every_entry two_manager
              (DokkEntry.make (lit "Y2") (lit "http://Y.TEST/again?q#f") b_dokk)
              (reachable_scan (LinkManager.__init__ None) two_fs None false
                 (reachable_init None)))
    as (_ & _ & _ & _ & _ & U).
  - vm_compute. right. right. left. reflexivity.
  - exact U.
Defined.

Lemma export_json_entries_witness :
  flattened_entries (LinkManager._export_to_json two_manager)
  = List.map entry_json (LinkManager.get_all_entries two_manager).
Proof.
  exact (export_json_entries two_manager
           (reachable_scan (LinkManager.__init__ None) two_fs None false
              (reachable_init None))).
Defined.

(** ** The browser opener *)

Lemma validate_link_fst `{PyLib} (entry : DokkEntry) (item : DokkEntry * str) :
  LinkManager.validate_link entry = Some item -> fst item = entry.
Proof.
  unfold LinkManager.validate_link.
  destruct (urllib.urlparse (DokkEntry.url entry)) as [parsed|e].
  - destruct (is_empty (urllib.scheme parsed)
              || negb (str_in (urllib.scheme parsed) [lit "http"; lit "https"])).
    + intros E. injection E as <-. reflexivity.
    + destruct (is_empty (urllib.netloc parsed)).
      * intros E. injection E as <-. reflexivity.
      * discriminate.
  - intros E. injection E as <-. reflexivity.
Qed.

Lemma validate_link_is_valid_url `{PyLib} (entry : DokkEntry) :
  LinkManager.validate_link entry = None
  <-> BrowserOpener._is_valid_url (DokkEntry.url entry) = true.
Proof.
  unfold LinkManager.validate_link, BrowserOpener._is_valid_url.
  destruct (urllib.urlparse (DokkEntry.url entry)) as [parsed|e].
  - destruct (is_empty (urllib.scheme parsed));
      destruct (str_in (urllib.scheme parsed) [lit "http"; lit "https"]);
      destruct (is_empty (urllib.netloc parsed)); simpl;
      split; intros E; try reflexivity; discriminate E.
  - split; discriminate.
Qed.

(** X15. The opener and the manager judge a URL alike: [validate_all_links]
    reports exactly the loaded entries whose URL [_is_valid_url] rejects, in
    their order, whatever the entries are. *)
Theorem validate_all_links_is_valid_url `{PyLib} (self : LinkManager.t) :
  (forall entry,
      LinkManager.validate_link entry = None
      <-> BrowserOpener._is_valid_url (DokkEntry.url entry) = true)
  /\ List.map fst (LinkManager.validate_all_links self)
     = filter (fun entry => negb (BrowserOpener._is_valid_url (DokkEntry.url entry)))
         (LinkManager._entries self).
Proof.
  split; [apply validate_link_is_valid_url|].
  unfold LinkManager.validate_all_links.
  rewrite validate_all_links_fold. cbn [app].
  induction (LinkManager._entries self) as [|entry entries IH].
  - reflexivity.
  - cbn [flat_map filter]. rewrite map_app, IH.
    destruct (LinkManager.validate_link entry) as [item|] eqn:V.
    + assert (I : BrowserOpener._is_valid_url (DokkEntry.url entry) = false).
      { destruct (BrowserOpener._is_valid_url (DokkEntry.url entry)) eqn:I;
          [|reflexivity].
        apply validate_link_is_valid_url in I. congruence. }
      rewrite I. cbn [negb List.map app].
      rewrite (validate_link_fst entry item V). reflexivity.
    + apply validate_link_is_valid_url in V. rewrite V. reflexivity.
Qed.










(** ** The configuration *)

Lemma split_from_nonempty (sep : char) (s : str) :
  forall cur, ConfigManager.split_from sep cur s <> [].
Proof.
  induction s as [|c s IH]; intros cur; cbn [ConfigManager.split_from].
  - discriminate.
  - destruct (c =? sep)%N; [discriminate | apply IH].
Qed.

Lemma split_last (s : str) (sep : char) :
  ConfigManager.split s sep
  = removelast (ConfigManager.split s sep) ++ [last (ConfigManager.split s sep) []].
Proof.
  apply app_removelast_last, split_from_nonempty.
Qed.

Lemma Dict_set_same {V} (d : Dict.t V) (k : Path) (v : V) :
  Dict.get d k = Some v -> Dict.set d k v = d.
Proof.
  induction d as [|[k0 v0] d IH]; cbn [Dict.get Dict.set].
  - discriminate.
  - destruct (Py.eqb k0 k).
    + intros E. injection E as ->. reflexivity.
    + intros E. rewrite (IH E). reflexivity.
Qed.

Lemma assign_cons (current : Dict.t ConfigManager.value) (key : str)
    (keys : list str) (last : str) (v : ConfigManager.value) :
  ConfigManager.assign current (key :: keys) last v
  = match Dict.get current key with
    | Some (ConfigManager.VDict sub) =>
        (Dict.set current key
           (ConfigManager.VDict (fst (ConfigManager.assign sub keys last v))),
         snd (ConfigManager.assign sub keys last v))
    | Some _ => (current, Some ConfigManager.TypeError)
    | None =>
        (Dict.set (Dict.set current key (ConfigManager.VDict [])) key
           (ConfigManager.VDict (fst (ConfigManager.assign [] keys last v))),
         snd (ConfigManager.assign [] keys last v))
    end.
Proof.
  cbn [ConfigManager.assign].
  destruct (Dict.get current key) as [x|] eqn:G.
  - rewrite G. destruct x; try reflexivity.
    destruct (ConfigManager.assign items keys last v). reflexivity.
  - rewrite Dict_get_set, eqb_refl.
    destruct (ConfigManager.assign [] keys last v). reflexivity.
Qed.

Lemma assign_empty (keys : list str) (last : str) (v : ConfigManager.value) :
  snd (ConfigManager.assign [] keys last v) = None.
Proof.
  induction keys as [|key keys IH].
  - reflexivity.
  - rewrite assign_cons. cbn [Dict.get snd]. exact IH.
Qed.

Lemma assign_walk (keys : list str) (last : str) (v : ConfigManager.value) :
  forall current,
    snd (ConfigManager.assign current keys last v) = None ->
    ConfigManager.walk
      (ConfigManager.VDict (fst (ConfigManager.assign current keys last v)))
      (keys ++ [last])
    = inr v.
Proof.
  induction keys as [|key keys IH]; intros current E.
  - cbn [ConfigManager.assign fst app ConfigManager.walk ConfigManager.subscript].
    rewrite Dict_get_set, eqb_refl. reflexivity.
  - rewrite assign_cons in *.
    cbn [app ConfigManager.walk ConfigManager.subscript].
    destruct (Dict.get current key) as [x|] eqn:G.
    + destruct x; try discriminate E.
      cbn [fst snd] in *. rewrite Dict_get_set, eqb_refl. apply IH, E.
    + cbn [fst snd] in *. rewrite Dict_get_set, eqb_refl. apply IH, E.
Qed.

Lemma assign_raises (keys : list str) (last : str) (v : ConfigManager.value) :
  forall current e,
    snd (ConfigManager.assign current keys last v) = Some e ->
    fst (ConfigManager.assign current keys last v) = current
    /\ e = ConfigManager.TypeError
    /\ blocked current keys.
Proof.
  induction keys as [|key keys IH]; intros current e E.
  - discriminate E.
  - rewrite assign_cons in *.
    destruct (Dict.get current key) as [x|] eqn:G.
    + assert (B : ConfigManager.isinstance_dict x = false -> blocked current (key :: keys)).
      { intros D. exists [key], keys, x. split; [reflexivity|].
        split; [|exact D].
        cbn [ConfigManager.walk ConfigManager.subscript]. rewrite G. reflexivity. }
      destruct x;
        try (cbn [fst snd] in *; injection E as <-;
             split; [reflexivity|]; split; [reflexivity|];
             apply B; reflexivity).
      cbn [fst snd] in *. clear B.
      destruct (IH items e E) as (F & T & (beginning & rest & w & K & W & D)).
      rewrite F. split; [apply Dict_set_same, G|]. split; [exact T|].
      exists (key :: beginning), rest, w.
      split; [rewrite K; reflexivity|]. split; [|exact D].
      cbn [ConfigManager.walk ConfigManager.subscript]. rewrite G. exact W.
    + cbn [snd] in E. rewrite assign_empty in E. discriminate E.
Qed.

Lemma assign_returns (keys : list str) (last : str) (v : ConfigManager.value) :
  forall current,
    snd (ConfigManager.assign current keys last v) = None ->
    ~ blocked current keys.
Proof.
  induction keys as [|key keys IH]; intros current E
    (beginning & rest & w & K & W & D).
  - destruct beginning; [|discriminate K].
    cbn [ConfigManager.walk] in W. injection W as <-. discriminate D.
  - destruct beginning as [|k beginning].
    + cbn [ConfigManager.walk] in W. injection W as <-. discriminate D.
    + cbn [app] in K. injection K as <- K.
      rewrite assign_cons in E.
      cbn [ConfigManager.walk ConfigManager.subscript] in W.
      destruct (Dict.get current key) as [x|]; [|discriminate W].
      destruct x; try discriminate E.
      cbn [snd] in E.
      apply (IH items E). exists beginning, rest, w. auto.
Qed.

(** X18. A value [set] has stored is the value [get] returns for the same
    key path, whatever the default: when [set] returns instead of raising,
    the path leads to the value. *)
Theorem get_after_set (self : ConfigManager.t) (key_path : str)
    (value default : ConfigManager.value) :
  snd (ConfigManager.set self key_path value) = None ->
  ConfigManager.get (fst (ConfigManager.set self key_path value)) key_path default
  = value.
Proof.
  unfold ConfigManager.set, ConfigManager.get.
  pose proof (assign_walk (removelast (ConfigManager.split key_path DOT))
                (last (ConfigManager.split key_path DOT) []) value
                (ConfigManager._config self)) as W.
  destruct (ConfigManager.assign (ConfigManager._config self)
              (removelast (ConfigManager.split key_path DOT))
              (last (ConfigManager.split key_path DOT) []) value)
    as [config raised].
  cbn [fst snd ConfigManager._config] in *.
  intros ->. rewrite (split_last key_path DOT) at 1.
  rewrite (W eq_refl). reflexivity.
Qed.

Lemma get_after_set_witness :
  ConfigManager.get
    (fst (ConfigManager.set fresh_config (lit "display.theme.name")
            (ConfigManager.VStr (lit "dark"))))
    (lit "display.theme.name") ConfigManager.VNone
  = ConfigManager.VStr (lit "dark").
Proof.
  apply (get_after_set fresh_config (lit "display.theme.name")
           (ConfigManager.VStr (lit "dark")) ConfigManager.VNone).
  reflexivity.
Defined.

(** X19. [set] raises exactly when some beginning of the key path short of
    its last key leads to a value that is not a dict; what it raises is
    [TypeError], and the configuration is then as it was: [set] creates no
    intermediate dict before it fails. *)
Theorem set_raises (self : ConfigManager.t) (key_path : str)
    (value : ConfigManager.value) :
  (snd (ConfigManager.set self key_path value) <> None
   <-> blocked (ConfigManager._config self)
         (removelast (ConfigManager.split key_path DOT)))
  /\ (snd (ConfigManager.set self key_path value) <> None ->
      snd (ConfigManager.set self key_path value) = Some ConfigManager.TypeError
      /\ fst (ConfigManager.set self key_path value) = self).
Proof.
  unfold ConfigManager.set.
  pose proof (assign_raises (removelast (ConfigManager.split key_path DOT))
                (last (ConfigManager.split key_path DOT) []) value
                (ConfigManager._config self)) as R.
  pose proof (assign_returns (removelast (ConfigManager.split key_path DOT))
                (last (ConfigManager.split key_path DOT) []) value
                (ConfigManager._config self)) as O.
  destruct (ConfigManager.assign (ConfigManager._config self)
              (removelast (ConfigManager.split key_path DOT))
              (last (ConfigManager.split key_path DOT) []) value)
    as [config raised].
  cbn [fst snd] in *.
  destruct raised as [e|].
  - destruct (R e eq_refl) as (F & T & B). subst config e.
    split.
    + split; [intros _; exact B | intros _; discriminate].
    + intros _. split; [reflexivity|]. destruct self; reflexivity.
  - split.
    + split; [intros N; destruct (N eq_refl) | intros B; destruct (O eq_refl B)].
    + intros N; destruct (N eq_refl).
Qed.
